(** * Export utilities: column cleaner, field-definition scraper, workbook
      writer and export pipeline

    Shallow embedding of [clean_and_format_df], [get_field_definitions] and
    the export functions of the three utilities of the repository:

    - [Automap] : automap-data-import/src/automap_import.py
    - [Notes2]  : Import Files - With Notes 2.py
    - [Notes]   : Import Files - With Notes.py

    The utilities are written against pandas, requests, BeautifulSoup and
    openpyxl.  The table operations they call are modelled below on tables
    with a default [RangeIndex], which is what [pd.read_sql] returns; the
    date parser, the database, the network and the file system are
    parameters of the development.

    Conventions taken from the libraries:
    - a missing cell ([None], [NaN], [NaT]) is one value, and [isin] and
      [merge] let it match itself;
    - [isin] compares with Python's [==], so [0], [0.0] and [False] are one
      number;
    - [Series.dt.strftime] gives [NaN], not the text "NaT", for [NaT];
    - a left [merge] keeps the left rows in their order and repeats a left
      row once per matching right row, in the order of the right table;
    - labels are ASCII text, lower-cased letter by letter. *)

From Stdlib Require Import ZArith NArith Bool List Ascii String DecimalString Lia Arith Sorted.
From stdpp Require Import base strings gmap.
Import ListNotations.

Local Open Scope string_scope.
Local Open Scope list_scope.

(** ** Cell values *)

(** A pandas [Timestamp]: calendar date and nanosecond of the day. *)
Record Timestamp := mkTimestamp {
  ts_year : N;
  ts_month : N;
  ts_day : N;
  ts_nanos : N
}.

Definition timestamp_eqb (a b : Timestamp) : bool :=
  N.eqb (ts_year a) (ts_year b) && N.eqb (ts_month a) (ts_month b)
  && N.eqb (ts_day a) (ts_day b) && N.eqb (ts_nanos a) (ts_nanos b).

(** The scalars a query result holds.  [VNone] is the missing value
    ([None], [NaN] and [NaT] alike); a finite float is kept as the dyadic
    number [m * 2 ^ e] it denotes. *)
Inductive value :=
| VNone
| VBool (b : bool)
| VInt (z : Z)
| VFloat (m e : Z)
| VStr (s : string)
| VDate (t : Timestamp).

Definition as_number (v : value) : option (Z * Z) :=
  match v with
  | VBool b => Some (if b then 1%Z else 0%Z, 0%Z)
  | VInt z => Some (z, 0%Z)
  | VFloat m e => Some (m, e)
  | _ => None
  end.

Definition num_eqb (a b : Z * Z) : bool :=
  let e := Z.min (snd a) (snd b) in
  Z.eqb (fst a * 2 ^ (snd a - e)) (fst b * 2 ^ (snd b - e)).

(** Python's [==] on cells as the membership test of [isin] uses it: numbers
    compare by value across [bool], [int] and [float], strings and
    timestamps by content, and a missing value matches a missing value. *)
Definition py_eq (a b : value) : bool :=
  match a, b with
  | VNone, VNone => true
  | VStr s, VStr t => String.eqb s t
  | VDate s, VDate t => timestamp_eqb s t
  | _, _ =>
      match as_number a, as_number b with
      | Some p, Some q => num_eqb p q
      | _, _ => false
      end
  end.

(** ** Strings *)

(** [str.lower] on the ASCII range. *)
Definition lower_ascii (a : ascii) : ascii :=
  let n := nat_of_ascii a in
  if (65 <=? n)%nat && (n <=? 90)%nat then ascii_of_nat (n + 32) else a.

Fixpoint lower (s : string) : string :=
  match s with
  | EmptyString => EmptyString
  | String a s' => String (lower_ascii a) (lower s')
  end.

(** [needle in s] on strings. *)
Fixpoint contains (needle s : string) : bool :=
  String.prefix needle s ||
  match s with
  | EmptyString => false
  | String _ s' => contains needle s'
  end.

(** [x in xs] on lists of strings. *)
Definition mem (x : string) (xs : list string) : bool :=
  existsb (String.eqb x) xs.

(** [s.replace(old, "")]: every occurrence of [old], left to right. *)
Fixpoint skip (n : nat) (s : string) : string :=
  match n, s with
  | S n', String _ s' => skip n' s'
  | _, _ => s
  end.

Fixpoint remove_all_fuel (fuel : nat) (old s : string) : string :=
  match fuel with
  | O => s
  | S fuel' =>
      match s with
      | EmptyString => EmptyString
      | String a s' =>
          if String.prefix old s
          then remove_all_fuel fuel' old (skip (String.length old) s)
          else String a (remove_all_fuel fuel' old s')
      end
  end.

Definition remove_all (old s : string) : string :=
  match old with
  | EmptyString => s
  | _ => remove_all_fuel (String.length s) old s
  end.

Definition string_of_N (n : N) : string :=
  NilZero.string_of_uint (N.to_uint n).

(** ** Tables *)

(** A [DataFrame] with a [RangeIndex]: the columns in order, labels possibly
    repeated (a join [SELECT f.*, d.*] repeats them), and the number of
    rows of the index. *)
Definition Column : Type := string * list value.

Record DataFrame := mkDataFrame {
  df_data : list Column;
  df_nrows : nat
}.

(** [df.columns] *)
Definition columns (df : DataFrame) : list string := map fst (df_data df).

(** Every column has one cell per row of the index. *)
Definition well_formed (df : DataFrame) : Prop :=
  Forall (fun c : Column => length (snd c) = df_nrows df) (df_data df).

(** Exceptions carry their text, [str(e)]. *)
Definition exn : Type := string.

(** [df.drop(columns=labels, errors="ignore")] *)
Definition drop (labels : list string) (df : DataFrame) : DataFrame :=
  mkDataFrame (List.filter (fun c : Column => negb (mem (fst c) labels)) (df_data df))
              (df_nrows df).

(** [df.drop(columns=labels)]: a label that is not a column raises. *)
Definition drop_strict (labels : list string) (df : DataFrame) : exn + DataFrame :=
  if forallb (fun l => mem l (columns df)) labels
  then inr (drop labels df)
  else inl "KeyError: labels not found in axis".

(** [df.isin(values)], column by column. *)
Definition isin (values : list value) (df : DataFrame) : list (list bool) :=
  map (fun c : Column => map (fun v => existsb (py_eq v) values) (snd c)) (df_data df).

(** [mask.all(axis=0)]: one flag per column, true on a column without rows. *)
Definition all_axis0 (mask : list (list bool)) : list bool :=
  map (forallb (fun b => b)) mask.

(** [df.loc[:, keep]] with a boolean flag per column. *)
Definition loc_columns (df : DataFrame) (keep : list bool) : DataFrame :=
  mkDataFrame (map fst (List.filter snd (combine (df_data df) keep))) (df_nrows df).

(** [df[col]] read as a [Series].  With a repeated label pandas hands back a
    [DataFrame] instead, on which both [pd.to_datetime] and a column
    assignment raise [ValueError]; that case raises here. *)
Definition getitem (df : DataFrame) (col : string) : exn + list value :=
  match List.filter (fun c : Column => String.eqb (fst c) col) (df_data df) with
  | [] => inl ("KeyError: " +:+ col)
  | [c] => inr (snd c)
  | _ => inl "ValueError: cannot assemble with duplicate keys"
  end.

(** [df[col] = series]: the cells of the column(s) labelled [col] are
    replaced; an unknown label is appended as the last column.  The series
    assigned in the sources always carries the index of [df]. *)
Definition setitem (df : DataFrame) (col : string) (vs : list value) : DataFrame :=
  if mem col (columns df)
  then mkDataFrame
         (map (fun c : Column => if String.eqb (fst c) col then (fst c, vs) else c)
              (df_data df))
         (df_nrows df)
  else mkDataFrame (df_data df ++ [(col, vs)]) (df_nrows df).

(** [df.columns = [f(c) for c in df.columns]] *)
Definition rename_all (f : string -> string) (df : DataFrame) : DataFrame :=
  mkDataFrame (map (fun c : Column => (f (fst c), snd c)) (df_data df)) (df_nrows df).

(** ** Date rendering *)

Definition pad2 (n : N) : string :=
  if (n <? 10)%N then "0" +:+ string_of_N n else string_of_N n.

(** [Timestamp.strftime("%m/%d/%Y")] *)
Definition strftime_padded (t : Timestamp) : string :=
  pad2 (ts_month t) +:+ "/" +:+ pad2 (ts_day t) +:+ "/" +:+ string_of_N (ts_year t).

(** [Timestamp.strftime("%#m/%#d/%Y")] with the C runtime the flag [#]
    belongs to, where it removes the leading zero. *)
Definition strftime_plain (t : Timestamp) : string :=
  string_of_N (ts_month t) +:+ "/" +:+ string_of_N (ts_day t) +:+ "/"
  +:+ string_of_N (ts_year t).

(** [Series.dt.strftime(fmt)]: [NaT] comes out as [NaN], not as text. *)
Definition dt_strftime (fmt : Timestamp -> string) (ts : list (option Timestamp))
  : list value :=
  map (fun o => match o with Some t => VStr (fmt t) | None => VNone end) ts.

(** [Series.fillna(x)] *)
Definition fillna (x : value) (vs : list value) : list value :=
  map (fun v => match v with VNone => x | _ => v end) vs.

(** [Series.replace(old, new)] *)
Definition replace (old new : value) (vs : list value) : list value :=
  map (fun v => if py_eq v old then new else v) vs.

(** ** The column cleaner *)

Inductive variant := Automap | Notes2 | Notes.

(** The list [invalid] / [invalid_vals] of each utility. *)
Definition invalid (v : variant) : list value :=
  match v with
  | Automap =>
      [VInt 0; VStr "0"; VStr "0.0"; VStr ""; VStr " "; VNone; VStr "NULL"; VStr "null"]
  | Notes2 =>
      [VInt 0; VFloat 0 0; VStr "0"; VStr "0.0"; VStr ""; VStr " "; VStr "NULL";
       VStr "null"; VNone]
  | Notes =>
      [VInt 0; VFloat 0 0; VStr "0"; VStr "0.0"; VStr ""; VStr " "; VStr "NULL";
       VStr "null"; VStr "None"; VNone]
  end.

(** [pd.api.types.is_datetime64_any_dtype(df[col])].  [read_sql] gives a
    column the dtype [datetime64] when its cells are timestamps, missing
    ones included, and at least one is present; a repeated label selects a
    [DataFrame], which has no such dtype. *)
Definition is_datetime64_any_dtype (df : DataFrame) (col : string) : bool :=
  match getitem df col with
  | inr vs =>
      forallb (fun v => match v with VDate _ | VNone => true | _ => false end) vs
      && existsb (fun v => match v with VDate _ => true | _ => false end) vs
  | inl _ => false
  end.

(** The test that selects the columns to reformat. *)
Definition date_like (v : variant) (df : DataFrame) (col : string) : bool :=
  match v with
  | Automap | Notes2 => contains "date" (lower col)
  | Notes => contains "date" (lower col) || is_datetime64_any_dtype df col
  end.

(** What follows [pd.to_datetime(df[col], errors="coerce")] inside the
    [try]. *)
Definition render (v : variant) (ts : list (option Timestamp)) : list value :=
  match v with
  | Automap => fillna (VStr "") (dt_strftime strftime_padded ts)
  | Notes2 | Notes => replace (VStr "NaT") (VStr "") (dt_strftime strftime_plain ts)
  end.

Section Cleaner.

(** [pd.to_datetime(series, errors="coerce")] on the cells of a column:
    a timestamp or [NaT] per row, or an exception (on a boolean column,
    for instance). *)
Variable to_datetime : list value -> exn + list (option Timestamp).

(** The body of the [try]. *)
Definition try_format (v : variant) (df : DataFrame) (col : string) : exn + DataFrame :=
  match getitem df col with
  | inl e => inl e
  | inr vs =>
      match to_datetime vs with
      | inl e => inl e
      | inr ts => inr (setitem df col (render v ts))
      end
  end.

(** One turn of [for col in df.columns]. *)
Definition format_step (v : variant) (df : DataFrame) (col : string) : DataFrame :=
  if date_like v df col
  then match try_format v df col with
       | inr df' => df'
       | inl _ => df
       end
  else df.

Definition format_dates (v : variant) (df : DataFrame) : DataFrame :=
  fold_left (format_step v) (columns df) df.

Definition drop_recid (df : DataFrame) : DataFrame :=
  drop (List.filter (fun c => contains "recid" (lower c)) (columns df)) df.

Definition drop_omissions (v : variant) (omissions : list string) (df : DataFrame)
  : DataFrame :=
  match v with
  | Automap => drop (List.filter (fun c => mem c (columns df)) omissions) df
  | Notes2 | Notes => drop (List.filter (fun c => mem c omissions) (columns df)) df
  end.

Definition drop_invalid (v : variant) (df : DataFrame) : DataFrame :=
  loc_columns df (map negb (all_axis0 (isin (invalid v) df))).

Definition clean_and_format_df (v : variant) (df : DataFrame) (omissions : list string)
  : DataFrame :=
  let df := drop_recid df in
  let df := drop_omissions v omissions df in
  let df := drop_invalid v df in
  format_dates v df.

End Cleaner.

(** The list [omissions] / [OMISSIONS] the export functions pass to the
    cleaner. *)
Definition OMISSIONS : list string :=
  ["SysCreatedDate"; "SysTimeStamp"; "SysRecStatus"; "SysCreatedBy";
   "BorrowerF"; "CompanyF"; "SortName"; "ByLastName"; "FundControl";
   "ACH_IndividualId"; "XML"; "LanguagePreference"; "InsuranceDocument"].

(** ** A date parser to run the cleaner with

    The fragment of [pd.to_datetime(..., errors="coerce")] that the
    examples below need: timestamps pass through, ISO calendar dates
    [YYYY-MM-DD] and the month-first text [M/D/YYYY] are read, any other
    text and every missing value become [NaT], and a column holding a
    boolean raises as pandas does on the dtype [bool]. *)

Fixpoint split_on (sep : ascii) (s : string) : list string :=
  match s with
  | EmptyString => [EmptyString]
  | String a s' =>
      if Ascii.eqb a sep then EmptyString :: split_on sep s'
      else match split_on sep s' with
           | [] => [String a EmptyString]
           | w :: ws => String a w :: ws
           end
  end.

Definition digits (s : string) : option N :=
  match s with
  | EmptyString => None
  | _ => option_map N.of_uint (NilZero.uint_of_string s)
  end.

Definition leap_year (y : N) : bool :=
  ((y mod 4 =? 0) && negb (y mod 100 =? 0) || (y mod 400 =? 0))%N.

Definition days_in_month (y m : N) : N :=
  match m with
  | 2%N => if leap_year y then 29%N else 28%N
  | 4%N | 6%N | 9%N | 11%N => 30%N
  | _ => 31%N
  end.

(** Calendar dates inside the years a [Timestamp] covers entirely. *)
Definition valid_date (y m d : N) : bool :=
  ((1678 <=? y) && (y <=? 2261) && (1 <=? m) && (m <=? 12)
   && (1 <=? d) && (d <=? days_in_month y m))%N.

Definition make_date (y m d : option N) : option Timestamp :=
  match y, m, d with
  | Some y, Some m, Some d =>
      if valid_date y m d then Some (mkTimestamp y m d 0) else None
  | _, _, _ => None
  end.

Definition parse_text (s : string) : option Timestamp :=
  match split_on "-" s with
  | [y; m; d] =>
      if Nat.eqb (String.length y) 4 && Nat.eqb (String.length m) 2
         && Nat.eqb (String.length d) 2
      then make_date (digits y) (digits m) (digits d) else None
  | _ =>
      match split_on "/" s with
      | [m; d; y] =>
          if Nat.eqb (String.length y) 4 && Nat.leb (String.length m) 2
             && Nat.leb (String.length d) 2
          then make_date (digits y) (digits m) (digits d) else None
      | _ => None
      end
  end.

Definition parse_cell (v : value) : option Timestamp :=
  match v with
  | VDate t => if valid_date (ts_year t) (ts_month t) (ts_day t) then Some t else None
  | VStr s => parse_text s
  | _ => None
  end.

Definition simple_to_datetime (vs : list value) : exn + list (option Timestamp) :=
  if existsb (fun v => match v with VBool _ => true | _ => false end) vs
  then inl "TypeError: dtype bool cannot be converted to datetime64[ns]"
  else inr (map parse_cell vs).

(** ** Joining and reshaping tables *)

Definition enumerate {A : Type} (l : list A) : list (nat * A) :=
  combine (seq 0 (length l)) l.

(** The rows of the right key column that equal [k], in order.  As in
    [pd.merge], a missing key matches a missing key. *)
Definition matches (k : value) (rk : list value) : list nat :=
  map fst (List.filter (fun p : nat * value => py_eq k (snd p)) (enumerate rk)).

(** The row pairs of a left join: the left rows in order, each once per
    matching right row in the order of the right table, or once with no right
    row. *)
Definition join_block (rk : list value) (p : nat * value) : list (nat * option nat) :=
  match matches (snd p) rk with
  | [] => [(fst p, None)]
  | js => map (fun j => (fst p, Some j)) js
  end.

Definition left_join_index (lk rk : list value) : list (nat * option nat) :=
  flat_map (join_block rk) (enumerate lk).

Definition take_left (ix : list (nat * option nat)) (vs : list value) : list value :=
  map (fun p : nat * option nat => nth (fst p) vs VNone) ix.

Definition take_right (ix : list (nat * option nat)) (vs : list value) : list value :=
  map (fun p : nat * option nat =>
         match snd p with
         | Some j => nth j vs VNone
         | None => VNone
         end) ix.

(** [pd.merge(left, right, left_on=lkey, right_on=rkey, how="left")]; a
    label present on both sides receives the suffixes [_x] and [_y]. *)
Definition merge_left (left right : DataFrame) (lkey rkey : string) : exn + DataFrame :=
  match getitem left lkey, getitem right rkey with
  | inr lk, inr rk =>
      let ix := left_join_index lk rk in
      inr (mkDataFrame
             (map (fun c : Column =>
                     ((if mem (fst c) (columns right) then fst c +:+ "_x" else fst c),
                      take_left ix (snd c))) (df_data left)
              ++
              map (fun c : Column =>
                     ((if mem (fst c) (columns left) then fst c +:+ "_y" else fst c),
                      take_right ix (snd c))) (df_data right))
             (length ix))
  | inl e, _ => inl e
  | _, inl e => inl e
  end.

(** [df[labels]]: the columns under each label, in the order of the labels;
    an unknown label raises. *)
Definition select (labels : list string) (df : DataFrame) : exn + DataFrame :=
  if forallb (fun l => mem l (columns df)) labels
  then inr (mkDataFrame
              (flat_map (fun l => List.filter (fun c : Column => String.eqb (fst c) l)
                                              (df_data df)) labels)
              (df_nrows df))
  else inl "KeyError: not in index".

(** [df[col] = ""]: the same scalar on every row. *)
Definition setitem_scalar (df : DataFrame) (col : string) (x : value) : DataFrame :=
  setitem df col (repeat x (df_nrows df)).

(** [c.endswith(suffix)] and [c[:-n]] *)
Definition ends_with (suffix s : string) : bool :=
  let n := String.length s - String.length suffix in
  Nat.leb (String.length suffix) (String.length s)
  && String.eqb (skip n s) suffix.

Definition drop_last (n : nat) (s : string) : string :=
  String.substring 0 (String.length s - n) s.

(** The entries of [new_names] built for the fundings sheet in [Notes]. *)
Definition funding_name (c : string) : string :=
  if ends_with "Pct" c then drop_last 3 c +:+ "_Pct"
  else if ends_with "Flat" c then drop_last 4 c +:+ "_Flat"
  else if ends_with "Min" c then drop_last 3 c +:+ "_Min"
  else c.

Definition bind_exn {A B : Type} (x : exn + A) (f : A -> exn + B) : exn + B :=
  match x with
  | inl e => inl e
  | inr a => f a
  end.

Section Sheets.

Variable to_datetime : list value -> exn + list (option Timestamp).

(** The properties side of sheet 4, from [p_raw]. *)
Definition properties_side (v : variant) (p_raw : DataFrame) : exn + DataFrame :=
  bind_exn (drop_strict ["Account"; "_pid"] p_raw) (fun p0 =>
  let p_clean := clean_and_format_df to_datetime v p0 OMISSIONS in
  let p_clean := rename_all (String.append "Property: ") p_clean in
  bind_exn (getitem p_raw "Account") (fun account =>
  let p_clean := setitem p_clean "Account" account in
  bind_exn (getitem p_raw "_pid") (fun pid =>
  inr (setitem p_clean "_pid" pid)))).

(** The insurance side of sheet 4, from [i_raw]. *)
Definition insurance_side (v : variant) (i_raw : DataFrame) : exn + DataFrame :=
  let i_clean := clean_and_format_df to_datetime v i_raw OMISSIONS in
  let i_clean := rename_all (String.append "Insurance: ") i_clean in
  bind_exn (getitem i_raw "PropRecID") (fun pref =>
  inr (setitem i_clean "_pref" pref)).

(** [df4]: the merged Properties & Insurance table. *)
Definition merge_sheet (v : variant) (p_clean i_clean : DataFrame) : exn + DataFrame :=
  bind_exn (merge_left p_clean i_clean "_pid" "_pref") (fun m =>
  bind_exn (drop_strict ["_pid"; "_pref"] m) (fun df4 =>
  match v with
  | Notes =>
      select ("Account" :: List.filter (fun c => negb (String.eqb c "Account"))
                                       (columns df4)) df4
  | _ => inr df4
  end)).

Definition properties_insurance (v : variant) (p_raw i_raw : DataFrame)
  : exn + DataFrame :=
  bind_exn (properties_side v p_raw) (fun p_clean =>
  bind_exn (insurance_side v i_raw) (fun i_clean =>
  merge_sheet v p_clean i_clean)).

End Sheets.

(** ** The field-definition scraper *)

(** The parsed page, as BeautifulSoup hands it to the loop: text nodes and
    elements with their lower-case tag name. *)
#[local] Set Warnings "-register-all".

Inductive node :=
| Text (s : string)
| Elem (tag : string) (kids : list node).

Definition newline : string := String (ascii_of_nat 10) EmptyString.

(** Python's white space and line boundaries, on the ASCII range. *)
Definition is_space (a : ascii) : bool :=
  let n := nat_of_ascii a in
  (Nat.leb 9 n && Nat.leb n 13) || (Nat.leb 28 n && Nat.leb n 32).

Definition is_line_boundary (a : ascii) : bool :=
  let n := nat_of_ascii a in
  (Nat.leb 10 n && Nat.leb n 13) || (Nat.leb 28 n && Nat.leb n 30).

Fixpoint lstrip_list (s : list ascii) : list ascii :=
  match s with
  | a :: s' => if is_space a then lstrip_list s' else s
  | [] => []
  end.

(** [s.strip()] *)
Definition strip (s : string) : string :=
  string_of_list_ascii
    (rev (lstrip_list (rev (lstrip_list (list_ascii_of_string s))))).

Fixpoint splitlines_list (cur s : list ascii) : list string :=
  match s with
  | [] =>
      match cur with
      | [] => []
      | _ => [string_of_list_ascii (rev cur)]
      end
  | a :: s' =>
      if is_line_boundary a then
        string_of_list_ascii (rev cur) ::
        match s' with
        | b :: s'' =>
            if Nat.eqb (nat_of_ascii a) 13 && Nat.eqb (nat_of_ascii b) 10
            then splitlines_list [] s''
            else splitlines_list [] s'
        | [] => []
        end
      else splitlines_list (a :: cur) s'
  end.

(** [s.splitlines()] *)
Definition splitlines (s : string) : list string :=
  splitlines_list [] (list_ascii_of_string s).

(** ["\n".join(lines)] *)
Fixpoint join_lines (lines : list string) : string :=
  match lines with
  | [] => EmptyString
  | [l] => l
  | l :: rest => l +:+ newline +:+ join_lines rest
  end.

(** The strings below a node, in document order. *)
Fixpoint all_strings (n : node) : list string :=
  match n with
  | Text s => [s]
  | Elem _ kids => flat_map all_strings kids
  end.

(** [cell.get_text()] and [cell.get_text(strip=True)] *)
Definition get_text (n : node) : string :=
  fold_right String.append EmptyString (all_strings n).

Definition get_text_strip (n : node) : string :=
  fold_right String.append EmptyString
    (List.filter (fun s => negb (String.eqb s EmptyString)) (map strip (all_strings n))).

(** [for tag in desc.find_all(["br", "p", "li"]): tag.insert_before("\n")] *)
Fixpoint break_before (n : node) : list node :=
  match n with
  | Text s => [Text s]
  | Elem t kids =>
      let n' := Elem t (flat_map break_before kids) in
      if mem t ["br"; "p"; "li"] then [Text newline; n'] else [n']
  end.

Definition insert_breaks (desc : node) : node :=
  match desc with
  | Text s => Text s
  | Elem t kids => Elem t (flat_map break_before kids)
  end.

(** The description kept for a field: the non-blank lines, stripped. *)
Definition description (desc : node) : string :=
  join_lines
    (List.filter (fun l => negb (String.eqb l EmptyString))
                 (map strip (splitlines (get_text (insert_breaks desc))))).

(** One turn of [for row in soup.find_all("tr")], on the cells
    [row.find_all(["td", "th"])] of the row. *)
Definition scrape_row (defs : gmap string string) (cells : list node)
  : gmap string string :=
  match cells with
  | key :: desc :: _ => <[get_text_strip key := description desc]> defs
  | _ => defs
  end.

Section Scraper.

(** [requests.get(url, timeout=10)] followed by the parse of the page:
    the cells of each table row, or the exception of the request or of
    the parser. *)
Variable fetch : string -> exn + list (list node).

(** The body of the [try], threading [defs]. *)
Definition try_scrape (url : string) (defs : gmap string string)
  : (exn + unit) * gmap string string :=
  match fetch url with
  | inl e => (inl e, defs)
  | inr rows => (inr tt, fold_left scrape_row rows defs)
  end.

(** [url] is [None] where [MAPPING_LINKS.get(name)] finds no entry. *)
Definition get_field_definitions (url : option string) : gmap string string :=
  let defs : gmap string string := ∅ in
  match url with
  | None => defs
  | Some u =>
      if String.eqb u EmptyString then defs
      else snd (try_scrape u defs)
  end.

End Scraper.

Definition MAPPING_LINKS (name : string) : option string :=
  if String.eqb name "1-Loans" then
    Some "https://help.themortgageoffice.com/knowledge/loan-field-mappings"
  else if String.eqb name "2-Co-Borrowers" then
    Some "https://help.themortgageoffice.com/knowledge/co-borrower-field-mappings"
  else if String.eqb name "3-Fundings" then
    Some "https://help.themortgageoffice.com/knowledge/what-are-the-vendor-field-mappings"
  else if String.eqb name "4-Properties_&_Insurance" then
    Some "https://help.themortgageoffice.com/knowledge/what-are-the-properties-insurance-field-mappings"
  else None.

(** ** Workbooks *)

Record Comment := mkComment {
  comment_text : string;
  comment_author : string;
  comment_size : option (nat * nat)
}.

(** A cell of the header row, [ws[1]]. *)
Record Cell := mkCell {
  cell_value : string;
  cell_comment : option Comment
}.

(** A workbook with its one sheet: header row and data rows.  Column widths
    are left out: no statement below reads them. *)
Record Workbook := mkWorkbook {
  wb_header : list Cell;
  wb_rows : list (list value)
}.

(** The rows of a table. *)
Definition rows (df : DataFrame) : list (list value) :=
  map (fun i => map (fun c : Column => nth i (snd c) VNone) (df_data df))
      (seq 0 (df_nrows df)).

(** What [df.to_excel(path, index=False)] stores. *)
Definition sheet_of (df : DataFrame) : Workbook :=
  mkWorkbook (map (fun c => mkCell c None) (columns df)) (rows df).

(** The key looked up for a header cell. *)
Definition plain_key (c : Cell) : string := cell_value c.

Definition stripped_key (c : Cell) : string :=
  remove_all "Insurance: " (remove_all "Property: " (cell_value c)).

(** [for cell in ws[1]: ... if key in defs: cell.comment = Comment(...)] *)
Definition annotate (key : Cell -> string) (author : string) (size : option (nat * nat))
           (defs : gmap string string) (wb : Workbook) : Workbook :=
  mkWorkbook
    (map (fun c : Cell =>
            match defs !! key c with
            | Some d => mkCell (cell_value c) (Some (mkComment d author size))
            | None => c
            end) (wb_header wb))
    (wb_rows wb).

(** ** The export pipeline *)

(** The fixed statements sent to the database. *)
Inductive Query :=
| QLoans          (* SELECT * FROM [TDS Loans] *)
| QCoBorrowers    (* SELECT l.Account, t.* FROM [TDS CoBorrowers] t LEFT JOIN ... *)
| QFundings       (* SELECT l.Account AS Loan_Account, lend.Account AS Lender_Account, f.*, d.* ... *)
| QProperties     (* SELECT l.Account, p.RecID AS _pid, p.* FROM [TDS Properties] p ... *)
| QInsurance      (* SELECT * FROM [TDS Insurance] *)
| QVouchers       (* SELECT l.Account, t.* FROM [TDS Vouchers] t LEFT JOIN ... *)
| QHistory.       (* SELECT l.Account, t.* FROM [TDS Loan History] t LEFT JOIN ... *)

(** What is shown to the user. *)
Inductive UiEvent :=
| SetStatus (msg : string)
| Log (msg : string)
| ShowInfo (title msg : string)
| ShowError (title msg : string).

(** The outcome of every call that leaves the program; [Some e] and [inl e]
    stand for the exception the call raises. *)
Record Env := mkEnv {
  env_to_datetime : list value -> exn + list (option Timestamp);
  env_connect : string -> option exn;
  env_exists : string -> bool;
  env_makedirs : string -> option exn;
  env_read_sql : Query -> exn + DataFrame;
  env_to_excel : string -> option exn;
  env_load_workbook : string -> option exn;
  env_save : string -> option exn;
  env_fetch : string -> exn + list (list node);
  env_close : option exn
}.

(** The files of the output folder and the messages shown so far. *)
Record World := mkWorld {
  files : gmap string Workbook;
  ui : list UiEvent
}.

(** Statements run on the world and either finish or raise; what they did
    before raising stays done. *)
Definition M (A : Type) : Type := World -> (exn + A) * World.

Definition ret {A : Type} (a : A) : M A := fun w => (inr a, w).

Definition raise {A : Type} (e : exn) : M A := fun w => (inl e, w).

Definition bind {A B : Type} (m : M A) (f : A -> M B) : M B :=
  fun w =>
    match m w with
    | (inl e, w') => (inl e, w')
    | (inr a, w') => f a w'
    end.

Notation "x <- m ;; k" := (bind m (fun x => k))
  (at level 100, m at next level, k at level 200, right associativity).
Notation "m ;; k" := (bind m (fun _ => k))
  (at level 100, k at level 200, right associativity).

Definition lift {A : Type} (x : exn + A) : M A :=
  match x with
  | inl e => raise e
  | inr a => ret a
  end.

Definition check (o : option exn) : M unit :=
  match o with
  | Some e => raise e
  | None => ret tt
  end.

Definition emit (ev : UiEvent) : M unit :=
  fun w => (inr tt, mkWorld (files w) (ui w ++ [ev])).

(** [for x in xs: body(x)] *)
Fixpoint for_each {A : Type} (body : A -> M unit) (xs : list A) : M unit :=
  match xs with
  | [] => ret tt
  | x :: xs' => body x ;; for_each body xs'
  end.

(** [os.path.join(folder, f"{name}.xlsx")] *)
Definition xlsx_path (folder name : string) : string :=
  folder +:+ "/" +:+ name +:+ ".xlsx".

Definition connection_string (driver server database : string) : string :=
  "Driver={" +:+ driver +:+ "};Server=" +:+ server +:+ ";Database=" +:+ database
  +:+ ";Authentication=ActiveDirectoryInteractive;Encrypt=yes;TrustServerCertificate=yes;".

Section Pipeline.

Variable env : Env.

Definition read_sql (q : Query) : M DataFrame := lift (env_read_sql env q).

Definition to_excel (path : string) (df : DataFrame) : M unit :=
  check (env_to_excel env path) ;;
  fun w => (inr tt, mkWorld (<[path := sheet_of df]> (files w)) (ui w)).

Definition load_workbook (path : string) : M Workbook :=
  check (env_load_workbook env path) ;;
  fun w =>
    match files w !! path with
    | Some wb => (inr wb, w)
    | None => (inl ("FileNotFoundError: " +:+ path), w)
    end.

Definition save (path : string) (wb : Workbook) : M unit :=
  check (env_save env path) ;;
  fun w => (inr tt, mkWorld (<[path := wb]> (files w)) (ui w)).

Definition clean (v : variant) (df : DataFrame) : DataFrame :=
  clean_and_format_df (env_to_datetime env) v df OMISSIONS.

(** The definitions scraped for a sheet. *)
Definition sheet_definitions (name : string) : gmap string string :=
  get_field_definitions (env_fetch env) (MAPPING_LINKS name).

(** *** automap_import.py *)

(** The local function [export] of [run_export]. *)
Definition export (folder name : string) (query : Query) : M unit :=
  emit (SetStatus ("Exporting " +:+ name +:+ "…")) ;;
  raw <- read_sql query ;;
  let df := clean Automap raw in
  let path := xlsx_path folder name in
  to_excel path df ;;
  wb <- load_workbook path ;;
  let defs := sheet_definitions name in
  save path (annotate plain_key "TMO" None defs wb) ;;
  emit (Log ("✓ " +:+ name)).

Definition run_export_body (server database folder : string) : M unit :=
  emit (SetStatus "Connecting to target database…") ;;
  check (env_connect env
           (connection_string "ODBC Driver 18 for SQL Server" server database)) ;;
  check (env_makedirs env folder) ;;
  export folder "1-Loans" QLoans ;;
  export folder "2-Co-Borrowers" QCoBorrowers ;;
  export folder "3-Fundings" QFundings ;;
  p_raw <- read_sql QProperties ;;
  p_clean <- lift (properties_side (env_to_datetime env) Automap p_raw) ;;
  i_raw <- read_sql QInsurance ;;
  i_clean <- lift (insurance_side (env_to_datetime env) Automap i_raw) ;;
  df4 <- lift (merge_sheet Automap p_clean i_clean) ;;
  to_excel (xlsx_path folder "4-Properties_&_Insurance") df4 ;;
  check (env_close env) ;;
  emit (SetStatus "Completed") ;;
  emit (ShowInfo "Success" "Production export completed.").

(** [try: ... except Exception as e: ...] around the body. *)
Definition run_export (server database folder : string) (w : World) : World :=
  match run_export_body server database folder w with
  | (inr _, w') => w'
  | (inl e, w') => snd ((emit (SetStatus "Error") ;; emit (ShowError "Error" e)) w')
  end.

(** *** Import Files - With Notes 2.py and Import Files - With Notes.py *)

(** One turn of [for name, df in workbooks.items()]. *)
Definition write_sheet (v : variant) (folder : string) (sheet : string * DataFrame)
  : M unit :=
  let path := xlsx_path folder (fst sheet) in
  to_excel path (snd sheet) ;;
  wb <- load_workbook path ;;
  match MAPPING_LINKS (fst sheet) with
  | Some url =>
      if String.eqb url EmptyString then save path wb
      else
        let defs := get_field_definitions (env_fetch env) (Some url) in
        let size := match v with Notes => Some (400, 200) | _ => None end in
        save path (annotate stripped_key "TMO Reference" size defs wb)
  | None => save path wb
  end.

(** The tables of the dictionary [workbooks], in its order. *)
Definition read_workbooks (v : variant) : M (list (string * DataFrame)) :=
  raw1 <- read_sql QLoans ;;
  let df1 := clean v raw1 in
  let df1 := setitem_scalar df1 "ReserveBalance" (VStr "") in
  let df1 := setitem_scalar df1 "ImpoundBalance" (VStr "") in
  raw2 <- read_sql QCoBorrowers ;;
  let df2 := clean v raw2 in
  raw3 <- read_sql QFundings ;;
  let df3 := clean v raw3 in
  df3 <- match v with
         | Notes =>
             let df3 := rename_all funding_name df3 in
             lift (select ("Loan_Account" :: "Lender_Account" ::
                           List.filter
                             (fun c => negb (mem c ["Loan_Account"; "Lender_Account"]))
                             (columns df3)) df3)
         | _ => ret df3
         end ;;
  p_raw <- read_sql QProperties ;;
  p_clean <- lift (properties_side (env_to_datetime env) v p_raw) ;;
  i_raw <- read_sql QInsurance ;;
  i_clean <- lift (insurance_side (env_to_datetime env) v i_raw) ;;
  df4 <- lift (merge_sheet v p_clean i_clean) ;;
  match v with
  | Notes =>
      raw5 <- read_sql QVouchers ;;
      let df5 :=
        rename_all (fun c => if String.eqb c "Account" then "Loan Account" else c)
                   (clean v raw5) in
      raw6 <- read_sql QHistory ;;
      let df6 := clean v raw6 in
      ret [("1-Loans", df1); ("2-Co-Borrowers", df2); ("3-Fundings", df3);
           ("4-Properties_&_Insurance", df4); ("5-Escrow_Vouchers", df5);
           ("6-Loan_History", df6)]
  | _ =>
      ret [("1-Loans", df1); ("2-Co-Borrowers", df2); ("3-Fundings", df3);
           ("4-Properties_&_Insurance", df4)]
  end.

Definition run_production_export_body (v : variant) (server database folder : string)
  : M unit :=
  check (env_connect env
           (connection_string "ODBC Driver 17 for SQL Server" server database)) ;;
  match v with
  | Notes => if env_exists env folder then ret tt else check (env_makedirs env folder)
  | _ => check (env_makedirs env folder)
  end ;;
  workbooks <- read_workbooks v ;;
  for_each (write_sheet v folder) workbooks ;;
  check (env_close env) ;;
  emit (ShowInfo "Success"
          match v with
          | Notes => "Exports complete."
          | _ => "Production export completed."
          end).

Definition run_production_export (v : variant) (server database folder : string)
           (w : World) : World :=
  match run_production_export_body v server database folder w with
  | (inr _, w') => w'
  | (inl e, w') => snd (emit (ShowError "Error" e) w')
  end.

End Pipeline.

(** ** Sample data *)

Definition ex_loans : DataFrame :=
  mkDataFrame [("RecID", [VInt 1; VInt 2; VInt 3]);
               ("Account", [VStr "L-1"; VStr "L-2"; VStr "L-3"]);
               ("FundingDate", [VStr "2024-01-05"; VStr "not-a-date"; VNone]);
               ("Unused", [VInt 0; VNone; VStr ""]);
               ("SortName", [VStr "a"; VStr "b"; VStr "c"])] 3.

Definition ex_properties : DataFrame :=
  mkDataFrame [("Account", [VStr "L-1"; VStr "L-2"; VStr "L-3"]);
               ("_pid", [VInt 10; VInt 11; VInt 12]);
               ("RecID", [VInt 10; VInt 11; VInt 12]);
               ("LoanRecID", [VInt 1; VInt 2; VInt 3]);
               ("Street", [VStr "1 Main St"; VStr "2 Oak Ave"; VStr "3 Elm Rd"]);
               ("SysRecStatus", [VInt 1; VInt 1; VInt 1])] 3.

Definition ex_insurance : DataFrame :=
  mkDataFrame [("RecID", [VInt 100; VInt 101; VInt 102]);
               ("PropRecID", [VInt 12; VInt 10; VInt 10]);
               ("Carrier", [VStr "Acme"; VStr "Best"; VStr "Core"]);
               ("ExpirationDate", [VStr "2025-03-01"; VStr "2025-04-15"; VStr "n/a"])] 3.

Definition ex_accounts : DataFrame :=
  mkDataFrame [("Account", [VStr "L-1"]); ("Loan_Account", [VStr "L-1"]);
               ("Lender_Account", [VStr "V-1"]); ("ServicingFeePct", [VInt 1])] 1.

Definition ex_page : list (list node) :=
  [[Elem "th" [Text "Field"]; Elem "th" [Text "Description"]];
   [Elem "td" [Text " Account "];
    Elem "td" [Text "The loan account number"; Elem "br" []; Text "  shown on statements "]];
   [Elem "td" [Text "Street"]; Elem "td" [Elem "p" [Text "Street address"]]];
   [Elem "td" [Text "only one cell"]]].

Definition ex_env : Env :=
  mkEnv simple_to_datetime
        (fun _ => None) (fun _ => false) (fun _ => None)
        (fun q => match q with
                  | QLoans => inr ex_loans
                  | QProperties => inr ex_properties
                  | QInsurance => inr ex_insurance
                  | _ => inr ex_accounts
                  end)
        (fun _ => None) (fun _ => None) (fun _ => None)
        (fun _ => inr ex_page)
        None.

Definition empty_world : World := mkWorld ∅ [].

(** ** The cleaner, column by column *)

(** The test [(df.isin(invalid)).all(axis=0)] makes on one column. *)
Definition all_invalid (v : variant) (vs : list value) : bool :=
  forallb (fun x => existsb (py_eq x) (invalid v)) vs.

(** [df[col]] is a [Series]: the label occurs once. *)
Definition unique_label (df : DataFrame) (col : string) : bool :=
  match getitem df col with
  | inr _ => true
  | inl _ => false
  end.

(** What the loop over [df.columns] leaves in the place of a column. *)
Definition format_col (to_datetime : list value -> exn + list (option Timestamp))
           (v : variant) (df : DataFrame) (c : Column) : Column :=
  if date_like v df (fst c) then
    match getitem df (fst c) with
    | inr vs =>
        match to_datetime vs with
        | inr ts => (fst c, render v ts)
        | inl _ => c
        end
    | inl _ => c
    end
  else c.

(** The columns left by the three drops, before the dates are rendered. *)
Definition kept (v : variant) (omissions : list string) (df : DataFrame) : DataFrame :=
  drop_invalid v (drop_omissions v omissions (drop_recid df)).

(** Every cell of a column lies in a set of values, up to [py_eq]. *)
Definition within (set : list value) (vs : list value) : bool :=
  forallb (fun x => existsb (py_eq x) set) vs.

(** The set of the specification:
    {0, 0.0, "0", "0.0", "", " ", "NULL", "null", null}. *)
Definition spec_invalid : list value :=
  [VInt 0; VFloat 0 0; VStr "0"; VStr "0.0"; VStr ""; VStr " "; VStr "NULL";
   VStr "null"; VNone].

(** A table whose only column is date-named and holds no date. *)
Definition ex_no_date : DataFrame :=
  mkDataFrame [("CloseDate", [VStr "not-a-date"])] 1.

(** The date column of the specification's example, next to a plain one. *)
Definition ex_dates : DataFrame :=
  mkDataFrame [("CloseDate", [VStr "2024-01-05"; VStr "not-a-date"; VNone]);
               ("Name", [VStr "a"; VStr "b"; VStr "c"])] 3.

Definition ex_empty : DataFrame :=
  mkDataFrame [("Account", []); ("CloseDate", []); ("RecID", [])] 0.

(** The parser reads the text rendered from its own answer back to dates
    that render to the same text. *)
Definition reads_back (to_datetime : list value -> exn + list (option Timestamp))
           (v : variant) : Prop :=
  forall vs ts,
    to_datetime vs = inr ts ->
    exists ts', to_datetime (render v ts) = inr ts' /\ render v ts' = render v ts.

(** No column of the table would be dropped by the test for invalid
    values. *)
Definition no_invalid_column (v : variant) (df : DataFrame) : bool :=
  forallb (fun c : Column => negb (all_invalid v (snd c))) (df_data df).

(** ** Checks on rendered dates *)

Definition free_of (sep : ascii) (s : string) : bool :=
  negb (existsb (Ascii.eqb sep) (list_ascii_of_string s)).

Definition starts_with_digit (s : string) : bool :=
  match s with
  | String a _ => Nat.leb 48 (nat_of_ascii a) && Nat.leb (nat_of_ascii a) 57
  | EmptyString => false
  end.

(** [s] is a field of a rendered date that reads back as [n]. *)
Definition field_ok (len_ok : nat -> bool) (s : string) (n : N) : bool :=
  free_of "-" s && free_of "/" s && starts_with_digit s
  && len_ok (String.length s)
  && match digits s with
     | Some k => N.eqb k n
     | None => false
     end.

Definition short_field_ok (n : N) : bool :=
  field_ok (fun l => Nat.leb l 2) (pad2 n) n
  && field_ok (fun l => Nat.leb l 2) (string_of_N n) n.

Definition year_field_ok (n : N) : bool :=
  field_ok (fun l => Nat.eqb l 4) (string_of_N n) n.

Definition N_range (lo len : nat) : list N := map N.of_nat (seq lo len).

(** One cell of a rendered column, for each utility. *)
Definition render_cell (v : variant) (o : option Timestamp) : value :=
  match v, o with
  | Automap, Some t => VStr (strftime_padded t)
  | Automap, None => VStr ""
  | _, Some t => if String.eqb (strftime_plain t) "NaT" then VStr ""
                 else VStr (strftime_plain t)
  | _, None => VNone
  end.

(** ** The merged sheet, column by column *)

Definition properties_clean (to_datetime : list value -> exn + list (option Timestamp))
           (v : variant) (p_raw : DataFrame) : DataFrame :=
  clean_and_format_df to_datetime v (drop ["Account"; "_pid"] p_raw) OMISSIONS.

Definition insurance_clean (to_datetime : list value -> exn + list (option Timestamp))
           (v : variant) (i_raw : DataFrame) : DataFrame :=
  clean_and_format_df to_datetime v i_raw OMISSIONS.

(** The columns of the join once the linkage columns are gone: the cleaned
    property columns and the account along the left rows of the join, the
    cleaned insurance columns along its right rows. *)
Definition merged_data (ix : list (nat * option nat)) (pcs ics : list Column)
           (account : list value) : list Column :=
  map (fun c : Column => ("Property: " +:+ fst c, take_left ix (snd c))) pcs
  ++ [("Account", take_left ix account)]
  ++ map (fun c : Column => ("Insurance: " +:+ fst c, take_right ix (snd c))) ics.

(** The series [pd.to_datetime] returns carries the index of its argument. *)
Definition keeps_index (to_datetime : list value -> exn + list (option Timestamp))
  : Prop :=
  forall vs ts, to_datetime vs = inr ts -> length ts = length vs.

(** A column of the cleaned table next to the column of the input it comes
    from: the same label, and either the same cells or the dates of the
    input cells rendered row by row. *)
Definition same_or_rendered (to_datetime : list value -> exn + list (option Timestamp))
           (v : variant) (c c0 : Column) : Prop :=
  fst c = fst c0
  /\ (c = c0 \/ exists ts, to_datetime (snd c0) = inr ts /\ snd c = render v ts).

(** ** Outcomes of the pipeline *)

(** A help site that cannot be reached. *)
Definition unreachable : string -> exn + list (list node) :=
  fun _ => inl "ConnectionError: Max retries exceeded".

Definition is_message_box (ev : UiEvent) : bool :=
  match ev with
  | ShowInfo _ _ | ShowError _ _ => true
  | _ => false
  end.

(** The message boxes among the events shown. *)
Definition message_boxes (evs : list UiEvent) : list UiEvent :=
  List.filter is_message_box evs.

(** The sheets of each utility, in the order they are written. *)
Definition sheet_names (v : variant) : list string :=
  match v with
  | Notes =>
      ["1-Loans"; "2-Co-Borrowers"; "3-Fundings"; "4-Properties_&_Insurance";
       "5-Escrow_Vouchers"; "6-Loan_History"]
  | _ => ["1-Loans"; "2-Co-Borrowers"; "3-Fundings"; "4-Properties_&_Insurance"]
  end.

(** The body of the [try] and the whole function, for each utility. *)
Definition export_body (env : Env) (v : variant) (server database folder : string)
  : M unit :=
  match v with
  | Automap => run_export_body env server database folder
  | _ => run_production_export_body env v server database folder
  end.

Definition run_pipeline (env : Env) (v : variant) (server database folder : string)
  : World -> World :=
  match v with
  | Automap => run_export env server database folder
  | _ => run_production_export env v server database folder
  end.

(** The block of [run_export] that builds and writes sheet 4. *)
Definition export_merged (env : Env) (folder : string) : M unit :=
  p_raw <- read_sql env QProperties ;;
  p_clean <- lift (properties_side (env_to_datetime env) Automap p_raw) ;;
  i_raw <- read_sql env QInsurance ;;
  i_clean <- lift (insurance_side (env_to_datetime env) Automap i_raw) ;;
  df4 <- lift (merge_sheet Automap p_clean i_clean) ;;
  to_excel env (xlsx_path folder "4-Properties_&_Insurance") df4.

(** The table each sheet of [run_export] is written from. *)
Definition automap_table (env : Env) (name : string) : exn + DataFrame :=
  if String.eqb name "1-Loans" then
    bind_exn (env_read_sql env QLoans) (fun raw => inr (clean env Automap raw))
  else if String.eqb name "2-Co-Borrowers" then
    bind_exn (env_read_sql env QCoBorrowers) (fun raw => inr (clean env Automap raw))
  else if String.eqb name "3-Fundings" then
    bind_exn (env_read_sql env QFundings) (fun raw => inr (clean env Automap raw))
  else if String.eqb name "4-Properties_&_Insurance" then
    bind_exn (env_read_sql env QProperties) (fun p_raw =>
    bind_exn (properties_side (env_to_datetime env) Automap p_raw) (fun p_clean =>
    bind_exn (env_read_sql env QInsurance) (fun i_raw =>
    bind_exn (insurance_side (env_to_datetime env) Automap i_raw) (fun i_clean =>
    merge_sheet Automap p_clean i_clean))))
  else inl ("KeyError: " +:+ name).

Definition lookup_table (name : string) (tables : list (string * DataFrame))
  : exn + DataFrame :=
  match List.find (fun s : string * DataFrame => String.eqb (fst s) name) tables with
  | Some s => inr (snd s)
  | None => inl ("KeyError: " +:+ name)
  end.

(** The table a sheet is written from. *)
Definition sheet_table (env : Env) (v : variant) (name : string) : exn + DataFrame :=
  match v with
  | Automap => automap_table env name
  | _ => bind_exn (fst (read_workbooks env v empty_world)) (lookup_table name)
  end.

(** The workbook a sheet holds once its export is over. *)
Definition finished_sheet (env : Env) (v : variant) (name : string) (df : DataFrame)
  : Workbook :=
  match v with
  | Automap =>
      if String.eqb name "4-Properties_&_Insurance" then sheet_of df
      else annotate plain_key "TMO" None (sheet_definitions env name) (sheet_of df)
  | _ =>
      match MAPPING_LINKS name with
      | Some url =>
          if String.eqb url EmptyString then sheet_of df
          else annotate stripped_key "TMO Reference"
                        match v with Notes => Some (400, 200) | _ => None end
                        (get_field_definitions (env_fetch env) (Some url))
                        (sheet_of df)
      | None => sheet_of df
      end
  end.

(** The sheet [name] is on disk as its export leaves it. *)
Definition complete (env : Env) (v : variant) (folder name : string) (w : World) : Prop :=
  exists df,
    sheet_table env v name = inr df
    /\ files w !! xlsx_path folder name = Some (finished_sheet env v name df).

(** [ex_env] with a disk that refuses the third sheet. *)
Definition ex_env_disk_full : Env :=
  mkEnv (env_to_datetime ex_env) (env_connect ex_env) (env_exists ex_env)
        (env_makedirs ex_env) (env_read_sql ex_env)
        (fun path => if String.eqb path "out/3-Fundings.xlsx"
                     then Some "OSError: [Errno 28] No space left on device"
                     else None)
        (env_load_workbook ex_env) (env_save ex_env) (env_fetch ex_env)
        (env_close ex_env).

(** ** What a statement may touch *)

(** The statement shows no message box and leaves the files alone. *)
Definition quiet {A : Type} (m : M A) : Prop :=
  forall w r w',
    m w = (r, w') ->
    message_boxes (ui w') = message_boxes (ui w) /\ files w' = files w.

(** The statement shows no message box and leaves every file but [path]
    alone. *)
Definition writes_only {A : Type} (path : string) (m : M A) : Prop :=
  forall w r w',
    m w = (r, w') ->
    message_boxes (ui w') = message_boxes (ui w)
    /\ forall p, p <> path -> files w' !! p = files w !! p.

(** The statement is the export of the sheet [name]: it touches the file of
    that sheet only and, when it returns, leaves the sheet complete. *)
Definition sheet_step (env : Env) (v : variant) (folder : string)
           (s : string * M unit) : Prop :=
  writes_only (xlsx_path folder (fst s)) (snd s)
  /\ forall w u w', snd s w = (inr u, w') -> complete env v folder (fst s) w'.

(** The sheets of [run_export] with their statements. *)
Definition automap_steps (env : Env) (folder : string) : list (string * M unit) :=
  [("1-Loans", export env folder "1-Loans" QLoans);
   ("2-Co-Borrowers", export env folder "2-Co-Borrowers" QCoBorrowers);
   ("3-Fundings", export env folder "3-Fundings" QFundings);
   ("4-Properties_&_Insurance", export_merged env folder)].

(** The statement reads and computes without touching the world. *)
Definition pure_stmt {A : Type} (m : M A) : Prop :=
  exists x, forall w, m w = (x, w).

(** The export stopped on an exception: no message box was shown, the
    sheets [done] are complete and the sheets after the failing one are as
    they were before the run. *)
Definition aborted (env : Env) (v : variant) (folder : string) (w w1 : World) : Prop :=
  message_boxes (ui w1) = message_boxes (ui w)
  /\ exists done rest,
      sheet_names v = done ++ rest
      /\ (forall n, In n done -> complete env v folder n w1)
      /\ (forall n, In n (tl rest) ->
                    files w1 !! xlsx_path folder n = files w !! xlsx_path folder n).

(** The world [run_export] reaches on [ex_env_disk_full] when its body
    stops. *)
Definition ex_aborted_world : World :=
  snd (run_export_body ex_env_disk_full "srv" "db" "out" empty_world).

(** ** Lines of text *)

(** The text has no line boundary. *)
Definition one_line (s : list ascii) : bool :=
  forallb (fun a => negb (is_line_boundary a)) s.

(** The text does not start with white space. *)
Definition starts_clean (s : list ascii) : bool :=
  match s with
  | [] => true
  | a :: _ => negb (is_space a)
  end.

(** [strip] on the characters of a string. *)
Definition strip_list (s : list ascii) : list ascii :=
  rev (lstrip_list (rev (lstrip_list s))).

(** A stripped, non-empty line. *)
Definition clean_line (l : string) : Prop :=
  l <> EmptyString
  /\ one_line (list_ascii_of_string l) = true
  /\ starts_clean (list_ascii_of_string l) = true
  /\ starts_clean (rev (list_ascii_of_string l)) = true.

(** ** Files and messages of a run *)

(** The statement leaves every file outside [paths] alone, whatever its
    outcome. *)
Definition touches_only {A : Type} (paths : list string) (m : M A) : Prop :=
  forall w r w',
    m w = (r, w') -> forall p, ~ In p paths -> files w' !! p = files w !! p.

(** The text of the box shown at the end of an export. *)
Definition success_message (v : variant) : string :=
  match v with
  | Notes => "Exports complete."
  | _ => "Production export completed."
  end.

(** The key, author and size of the comments of each utility, and the
    sheets whose header row it goes through. *)
Definition header_key (v : variant) : Cell -> string :=
  match v with
  | Automap => plain_key
  | _ => stripped_key
  end.

Definition note_author (v : variant) : string :=
  match v with
  | Automap => "TMO"
  | _ => "TMO Reference"
  end.

Definition note_size (v : variant) : option (nat * nat) :=
  match v with
  | Notes => Some (400, 200)
  | _ => None
  end.

Definition annotates (v : variant) (name : string) : bool :=
  match v with
  | Automap => negb (String.eqb name "4-Properties_&_Insurance")
  | _ => true
  end.

(** The comment a header cell of a finished sheet is expected to carry. *)
Definition expected_comment (env : Env) (v : variant) (name : string) (cell : Cell)
  : option Comment :=
  if annotates v name
  then option_map (fun d => mkComment d (note_author v) (note_size v))
                  (sheet_definitions env name !! header_key v cell)
  else None.

(** ** Two runs side by side *)

(** [env] with another help site. *)
Definition with_fetch (env : Env) (fetch : string -> exn + list (list node)) : Env :=
  mkEnv (env_to_datetime env) (env_connect env) (env_exists env) (env_makedirs env)
        (env_read_sql env) (env_to_excel env) (env_load_workbook env) (env_save env)
        fetch (env_close env).

(** Two workbooks with the same cells; their comments may differ. *)
Definition same_cells (a b : Workbook) : Prop :=
  map cell_value (wb_header a) = map cell_value (wb_header b)
  /\ wb_rows a = wb_rows b.

(** Two worlds that show the same messages and hold the same files with
    the same cells. *)
Definition alike (w1 w2 : World) : Prop :=
  ui w1 = ui w2
  /\ forall p,
       match files w1 !! p, files w2 !! p with
       | Some a, Some b => same_cells a b
       | None, None => True
       | _, _ => False
       end.

(** Two statements that, from worlds alike, reach worlds alike with the
    same exception or with results related by [R]. *)
Definition sim {A : Type} (R : A -> A -> Prop) (m1 m2 : M A) : Prop :=
  forall w1 w2,
    alike w1 w2 ->
    alike (snd (m1 w1)) (snd (m2 w2))
    /\ match fst (m1 w1), fst (m2 w2) with
       | inl e1, inl e2 => e1 = e2
       | inr a, inr b => R a b
       | _, _ => False
       end.

(** ** More sample data *)

(** A table with a date-named column of booleans, on which [pd.to_datetime]
    raises. *)
Definition ex_flags : DataFrame :=
  mkDataFrame [("Account", [VStr "L-1"; VStr "L-2"]);
               ("DateVerified", [VBool true; VBool false])] 2.

(** [ex_env] with a database that has no table of insurances. *)
Definition ex_env_no_insurance : Env :=
  mkEnv (env_to_datetime ex_env) (env_connect ex_env) (env_exists ex_env)
        (env_makedirs ex_env)
        (fun q => match q with
                  | QInsurance => inl "ProgrammingError: Invalid object name 'TDS Insurance'."
                  | _ => env_read_sql ex_env q
                  end)
        (env_to_excel ex_env) (env_load_workbook ex_env) (env_save ex_env)
        (env_fetch ex_env) (env_close ex_env).

(** [ex_env] without a connection to the help site. *)
Definition ex_env_offline : Env := with_fetch ex_env unreachable.

(** A folder that already holds a file of its own. *)
Definition ex_world_with_file : World :=
  mkWorld (<["out/readme.xlsx" := mkWorkbook [mkCell "keep" None] []]> ∅) [].

(** Fundings none of which has a lender account. *)
Definition ex_fundings_no_lender : DataFrame :=
  mkDataFrame [("Loan_Account", [VStr "L-1"; VStr "L-2"]);
               ("Lender_Account", [VNone; VNone]);
               ("ServicingFeePct", [VInt 1; VInt 2])] 2.

Definition ex_env_no_lender : Env :=
  mkEnv (env_to_datetime ex_env) (env_connect ex_env) (env_exists ex_env)
        (env_makedirs ex_env)
        (fun q => match q with
                  | QFundings => inr ex_fundings_no_lender
                  | _ => env_read_sql ex_env q
                  end)
        (env_to_excel ex_env) (env_load_workbook ex_env) (env_save ex_env)
        (env_fetch ex_env) (env_close ex_env).

(** Loans that come with balances. *)
Definition ex_loans_with_balances : DataFrame :=
  mkDataFrame [("Account", [VStr "L-1"; VStr "L-2"]);
               ("ReserveBalance", [VInt 500; VInt 0]);
               ("ImpoundBalance", [VInt 0; VInt 75])] 2.

Definition ex_env_balances : Env :=
  mkEnv (env_to_datetime ex_env) (env_connect ex_env) (env_exists ex_env)
        (env_makedirs ex_env)
        (fun q => match q with
                  | QLoans => inr ex_loans_with_balances
                  | _ => env_read_sql ex_env q
                  end)
        (env_to_excel ex_env) (env_load_workbook ex_env) (env_save ex_env)
        (env_fetch ex_env) (env_close ex_env).

(** * Properties *)

(** ** Labels and lists *)

Lemma mem_In (x : string) (xs : list string) : mem x xs = true <-> In x xs.
Proof.
  unfold mem. rewrite existsb_exists. split.
  - intros [y [Hy He]]. apply String.eqb_eq in He. now subst.
  - intros H. exists x. split; [assumption | apply String.eqb_refl].
Qed.

Lemma mem_not_In (x : string) (xs : list string) : mem x xs = false <-> ~ In x xs.
Proof.
  rewrite <- mem_In. destruct (mem x xs); split; intros H; congruence.
Qed.

Lemma columns_drop (labels : list string) (df : DataFrame) (c : string) :
  In c (columns (drop labels df)) <-> In c (columns df) /\ ~ In c labels.
Proof.
  unfold columns, drop. simpl. rewrite !in_map_iff. split.
  - intros [x [Hx Hin]]. apply filter_In in Hin. destruct Hin as [Hin Hk].
    subst c. split; [now exists x |].
    apply mem_not_In. now destruct (mem (fst x) labels).
  - intros [[x [Hx Hin]] Hn]. exists x. split; [assumption |].
    apply filter_In. split; [assumption |]. subst c.
    apply mem_not_In in Hn. now rewrite Hn.
Qed.

Lemma loc_columns_incl (df : DataFrame) (keep : list bool) (c : Column) :
  In c (df_data (loc_columns df keep)) -> In c (df_data df).
Proof.
  unfold loc_columns. simpl. rewrite in_map_iff.
  intros [[x b] [Hx Hin]]. simpl in Hx. subst x.
  apply filter_In in Hin. destruct Hin as [Hin _].
  now apply in_combine_l in Hin.
Qed.

Lemma filter_combine_map {A : Type} (f : A -> bool) (l : list A) :
  map fst (List.filter snd (combine l (map f l))) = List.filter f l.
Proof.
  induction l as [| a l IH]; simpl; [reflexivity |].
  destruct (f a); simpl; now rewrite IH.
Qed.

Lemma forallb_of_map {A B : Type} (f : A -> B) (p : B -> bool) (l : list A) :
  forallb p (map f l) = forallb (fun x => p (f x)) l.
Proof.
  induction l as [| a l IH]; simpl; [reflexivity | now rewrite IH].
Qed.

Lemma drop_invalid_data (v : variant) (df : DataFrame) :
  df_data (drop_invalid v df)
  = List.filter (fun c : Column => negb (all_invalid v (snd c))) (df_data df).
Proof.
  unfold drop_invalid, loc_columns, all_axis0, isin. simpl.
  rewrite !map_map.
  rewrite (filter_combine_map
             (fun c : Column =>
                negb (forallb (fun b : bool => b)
                        (map (fun x => existsb (py_eq x) (invalid v)) (snd c))))).
  apply filter_ext. intros c. unfold all_invalid. now rewrite forallb_of_map.
Qed.

Lemma setitem_columns (df : DataFrame) (col : string) (vs : list value) :
  mem col (columns df) = true -> columns (setitem df col vs) = columns df.
Proof.
  intros H. unfold setitem. rewrite H. unfold columns. simpl.
  rewrite map_map. apply map_ext. intros c. now destruct (String.eqb (fst c) col).
Qed.

Lemma getitem_mem (df : DataFrame) (col : string) (vs : list value) :
  getitem df col = inr vs -> mem col (columns df) = true.
Proof.
  unfold getitem. intros H. apply mem_In. unfold columns.
  destruct (List.filter _ (df_data df)) as [| c l] eqn:E; [discriminate |].
  assert (Hin : In c (List.filter (fun c : Column => String.eqb (fst c) col) (df_data df)))
    by (rewrite E; now left).
  apply filter_In in Hin. destruct Hin as [Hin He].
  apply String.eqb_eq in He. subst col. now apply in_map.
Qed.

Section CleanerNames.

Variable to_datetime : list value -> exn + list (option Timestamp).

Lemma format_step_columns (v : variant) (df : DataFrame) (col : string) :
  columns (format_step to_datetime v df col) = columns df.
Proof.
  unfold format_step, try_format.
  destruct (date_like v df col); [| reflexivity].
  destruct (getitem df col) as [e | vs] eqn:G; [reflexivity |].
  destruct (to_datetime vs); [reflexivity |].
  apply setitem_columns. eapply getitem_mem; eassumption.
Qed.

Lemma fold_format_columns (v : variant) (l : list string) (df : DataFrame) :
  columns (fold_left (format_step to_datetime v) l df) = columns df.
Proof.
  revert df. induction l as [| a l IH]; intros df; simpl; [reflexivity |].
  rewrite IH. apply format_step_columns.
Qed.

Lemma format_dates_columns (v : variant) (df : DataFrame) :
  columns (format_dates to_datetime v df) = columns df.
Proof. apply fold_format_columns. Qed.

Lemma clean_columns_incl (v : variant) (df : DataFrame) (om : list string) (c : string) :
  In c (columns (clean_and_format_df to_datetime v df om)) ->
  In c (columns (drop_recid df)).
Proof.
  unfold clean_and_format_df. rewrite format_dates_columns.
  unfold columns at 1. rewrite in_map_iff. intros [x [Hx Hin]].
  apply loc_columns_incl in Hin.
  assert (Hc : In c (columns (drop_omissions v om (drop_recid df))))
    by (subst c; now apply in_map).
  unfold drop_omissions in Hc.
  destruct v; apply columns_drop in Hc; tauto.
Qed.

Lemma clean_label_facts (v : variant) (df : DataFrame) (om : list string) (c : string) :
  In c (columns (clean_and_format_df to_datetime v df om)) ->
  contains "recid" (lower c) = false /\ ~ In c om.
Proof.
  intros Hc. split.
  - apply clean_columns_incl in Hc. unfold drop_recid in Hc.
    apply columns_drop in Hc. destruct Hc as [Hin Hn].
    destruct (contains "recid" (lower c)) eqn:E; [| reflexivity].
    exfalso. apply Hn. apply filter_In. now split.
  - revert Hc. unfold clean_and_format_df. rewrite format_dates_columns.
    unfold columns at 1. rewrite in_map_iff. intros [x [Hx Hin]].
    apply loc_columns_incl in Hin.
    assert (Hc : In c (columns (drop_omissions v om (drop_recid df))))
      by (subst c; now apply in_map).
    unfold drop_omissions in Hc.
    destruct v; apply columns_drop in Hc; destruct Hc as [Hin' Hn]; intros Ho;
      apply Hn; apply filter_In; split; try assumption; now apply mem_In.
Qed.

(** C4.  No label of the cleaned table contains "recid" once lower-cased,
    whatever the cells of the column were. *)
Theorem recid_columns_absent (v : variant) (df : DataFrame) (om : list string) :
  Forall (fun c => contains "recid" (lower c) = false)
         (columns (clean_and_format_df to_datetime v df om)).
Proof.
  apply List.Forall_forall. intros c Hc.
  now apply clean_label_facts in Hc.
Qed.

End CleanerNames.

(** ** The loop over the columns *)

Lemma filter_map_stable {A : Type} (p : A -> bool) (g : A -> A) (l : list A) :
  (forall x, p (g x) = p x) -> (forall x, p x = true -> g x = x) ->
  List.filter p (map g l) = List.filter p l.
Proof.
  intros Hp Hg. induction l as [| a l IH]; simpl; [reflexivity |].
  rewrite Hp. destruct (p a) eqn:E; [| assumption].
  rewrite Hg by assumption. now rewrite IH.
Qed.

Lemma filter_label_length (data : list Column) (col : string) :
  length (List.filter (fun c : Column => String.eqb (fst c) col) data)
  = count_occ string_dec (map fst data) col.
Proof.
  induction data as [| c data IH]; simpl; [reflexivity |].
  destruct (string_dec (fst c) col) as [E | E].
  - rewrite (proj2 (String.eqb_eq _ _) E). simpl. now rewrite IH.
  - rewrite (proj2 (String.eqb_neq _ _) E). assumption.
Qed.

Lemma unique_label_count (df : DataFrame) (col : string) :
  unique_label df col = Nat.eqb (count_occ string_dec (columns df) col) 1.
Proof.
  unfold unique_label, getitem, columns. rewrite <- filter_label_length.
  destruct (List.filter _ (df_data df)) as [| c [| c' l]]; reflexivity.
Qed.

Lemma unique_label_columns (df df' : DataFrame) (col : string) :
  columns df' = columns df -> unique_label df' col = unique_label df col.
Proof. intros H. rewrite !unique_label_count. now rewrite H. Qed.

Lemma format_col_label to_datetime (v : variant) (df : DataFrame) (c : Column) :
  fst (format_col to_datetime v df c) = fst c.
Proof.
  unfold format_col. destruct (date_like v df (fst c)); [| reflexivity].
  destruct (getitem df (fst c)) as [e | vs]; [reflexivity |].
  now destruct (to_datetime vs).
Qed.

Lemma format_col_not_unique to_datetime (v : variant) (df : DataFrame) (c : Column) :
  unique_label df (fst c) = false -> format_col to_datetime v df c = c.
Proof.
  unfold unique_label, format_col. intros H.
  destruct (date_like v df (fst c)); [| reflexivity].
  now destruct (getitem df (fst c)).
Qed.

Section Loop.

Variable to_datetime : list value -> exn + list (option Timestamp).
Variable v : variant.

Lemma format_step_data (df : DataFrame) (a : string) :
  format_step to_datetime v df a
  = mkDataFrame
      (map (fun c : Column =>
              if String.eqb (fst c) a then format_col to_datetime v df c else c)
           (df_data df))
      (df_nrows df).
Proof.
  assert (Hid : forall g : Column -> Column,
             (forall c, g c = c) ->
             df = mkDataFrame (map g (df_data df)) (df_nrows df)).
  { intros g Hg. destruct df as [data n]. simpl. f_equal.
    rewrite (map_ext g (fun c => c)) by assumption. now rewrite map_id. }
  unfold format_step, try_format.
  destruct (date_like v df a) eqn:D.
  - destruct (getitem df a) as [e | vs] eqn:G.
    + apply Hid. intros c. destruct (String.eqb (fst c) a) eqn:E; [| reflexivity].
      apply String.eqb_eq in E. unfold format_col. rewrite E, D, G. reflexivity.
    + destruct (to_datetime vs) as [e | ts] eqn:T.
      * apply Hid. intros c. destruct (String.eqb (fst c) a) eqn:E; [| reflexivity].
        apply String.eqb_eq in E. unfold format_col. rewrite E, D, G, T. reflexivity.
      * unfold setitem. rewrite (getitem_mem _ _ _ G). f_equal.
        apply map_ext. intros c. destruct (String.eqb (fst c) a) eqn:E; [| reflexivity].
        apply String.eqb_eq in E. unfold format_col. rewrite E, D, G, T. reflexivity.
  - apply Hid. intros c. destruct (String.eqb (fst c) a) eqn:E; [| reflexivity].
    apply String.eqb_eq in E. unfold format_col. rewrite E, D. reflexivity.
Qed.

Lemma format_step_getitem (df : DataFrame) (a col : string) :
  col <> a -> getitem (format_step to_datetime v df a) col = getitem df col.
Proof.
  intros Hne. rewrite format_step_data. unfold getitem. simpl.
  rewrite filter_map_stable; [reflexivity | |].
  - intros c. destruct (String.eqb (fst c) a); [| reflexivity].
    now rewrite format_col_label.
  - intros c Hc. apply String.eqb_eq in Hc.
    destruct (String.eqb (fst c) a) eqn:E; [| reflexivity].
    apply String.eqb_eq in E. congruence.
Qed.

Lemma format_step_date_like (df : DataFrame) (a col : string) :
  col <> a ->
  date_like v (format_step to_datetime v df a) col = date_like v df col.
Proof.
  intros Hne. unfold date_like, is_datetime64_any_dtype.
  rewrite format_step_getitem by assumption. reflexivity.
Qed.

Lemma format_step_format_col (df : DataFrame) (a : string) (c : Column) :
  fst c <> a ->
  format_col to_datetime v (format_step to_datetime v df a) c
  = format_col to_datetime v df c.
Proof.
  intros Hne. unfold format_col.
  rewrite format_step_date_like, format_step_getitem by assumption. reflexivity.
Qed.

Lemma fold_format_data (l : list string) (df : DataFrame) :
  (forall col, unique_label df col = true -> count_occ string_dec l col <= 1) ->
  fold_left (format_step to_datetime v) l df
  = mkDataFrame
      (map (fun c : Column =>
              if mem (fst c) l then format_col to_datetime v df c else c)
           (df_data df))
      (df_nrows df).
Proof.
  revert df. induction l as [| a l IH]; intros df Hu.
  - simpl. destruct df as [data n]. simpl. f_equal.
    symmetry. erewrite map_ext; [apply map_id | reflexivity].
  - simpl fold_left.
    assert (Hcols : columns (format_step to_datetime v df a) = columns df)
      by apply format_step_columns.
    rewrite IH.
    + rewrite format_step_data at 1 2. simpl. f_equal.
      rewrite map_map. apply map_ext. intros c.
      unfold mem at 2. simpl existsb. fold (mem (fst c) l).
      destruct (String.eqb (fst c) a) eqn:E.
      * apply String.eqb_eq in E.
        rewrite format_col_label. simpl.
        destruct (unique_label df a) eqn:U.
        -- specialize (Hu a U). simpl in Hu.
           destruct (string_dec a a) as [_ | F]; [| congruence].
           assert (Hn : ~ In a l)
             by (apply (count_occ_not_In string_dec); lia).
           apply mem_not_In in Hn. rewrite E. now rewrite Hn.
        -- rewrite <- E in U.
           rewrite (format_col_not_unique to_datetime v df c U).
           destruct (mem (fst c) l); [| reflexivity].
           apply format_col_not_unique.
           now rewrite (unique_label_columns _ _ _ Hcols).
      * simpl. apply String.eqb_neq in E.
        destruct (mem (fst c) l); [| reflexivity].
        now apply format_step_format_col.
    + intros col U. rewrite (unique_label_columns _ _ _ Hcols) in U.
      specialize (Hu col U). simpl in Hu.
      destruct (string_dec a col); lia.
Qed.

(** The loop rewrites each column in its place, from the cells the column
    had on entry. *)
Lemma format_dates_data (df : DataFrame) :
  format_dates to_datetime v df
  = mkDataFrame (map (format_col to_datetime v df) (df_data df)) (df_nrows df).
Proof.
  unfold format_dates. rewrite fold_format_data.
  - f_equal. apply map_ext_in. intros c Hc.
    assert (Hm : mem (fst c) (columns df) = true)
      by (apply mem_In; now apply in_map).
    now rewrite Hm.
  - intros col U. rewrite unique_label_count in U.
    apply Nat.eqb_eq in U. lia.
Qed.

End Loop.

(** ** The cleaned table *)

Lemma drop_data_incl (labels : list string) (df : DataFrame) (c : Column) :
  In c (df_data (drop labels df)) -> In c (df_data df).
Proof. unfold drop. simpl. intros H. now apply filter_In in H. Qed.

Lemma drop_omissions_incl (v : variant) (om : list string) (df : DataFrame) (c : Column) :
  In c (df_data (drop_omissions v om df)) -> In c (df_data df).
Proof. destruct v; apply drop_data_incl. Qed.

Lemma kept_In (v : variant) (om : list string) (df : DataFrame) (c : Column) :
  In c (df_data (kept v om df)) ->
  In c (df_data df) /\ all_invalid v (snd c) = false.
Proof.
  unfold kept. rewrite drop_invalid_data. intros H.
  apply filter_In in H. destruct H as [Hin Hk]. split.
  - eapply drop_data_incl. eapply drop_omissions_incl. eassumption.
  - now destruct (all_invalid v (snd c)).
Qed.

Lemma kept_nrows (v : variant) (om : list string) (df : DataFrame) :
  df_nrows (kept v om df) = df_nrows df.
Proof. unfold kept. destruct v; reflexivity. Qed.

Lemma spec_invalid_in_invalid (v : variant) (x : value) :
  existsb (py_eq x) spec_invalid = true -> existsb (py_eq x) (invalid v) = true.
Proof.
  assert (Hz : py_eq x (VFloat 0 0) = py_eq x (VInt 0)) by (now destruct x).
  destruct v; simpl; rewrite Hz;
    repeat match goal with
           | |- context [py_eq x ?y] => destruct (py_eq x y); simpl; try tauto
           end.
Qed.

Lemma within_spec_all_invalid (v : variant) (vs : list value) :
  within spec_invalid vs = true -> all_invalid v vs = true.
Proof.
  unfold within, all_invalid. rewrite !forallb_forall.
  intros H x Hx. apply spec_invalid_in_invalid. now apply H.
Qed.

Section Cleaned.

Variable to_datetime : list value -> exn + list (option Timestamp).

(** The cleaner as a filter on the columns followed by a rewrite of each
    column kept. *)
Lemma clean_data (v : variant) (df : DataFrame) (om : list string) :
  clean_and_format_df to_datetime v df om
  = mkDataFrame (map (format_col to_datetime v (kept v om df)) (df_data (kept v om df)))
                (df_nrows df).
Proof.
  unfold clean_and_format_df. fold (kept v om df).
  rewrite format_dates_data. now rewrite kept_nrows.
Qed.

(** C10.  A table without rows comes out without columns: the test for
    invalid values holds on every empty column. *)
Theorem zero_rows_zero_columns (v : variant) (df : DataFrame) (om : list string) :
  well_formed df -> df_nrows df = 0 ->
  columns (clean_and_format_df to_datetime v df om) = [].
Proof.
  intros Hwf H0. rewrite clean_data. unfold columns. cbn [df_data].
  destruct (df_data (kept v om df)) as [| c l] eqn:E; [reflexivity |].
  exfalso.
  assert (Hin : In c (df_data (kept v om df))) by (rewrite E; now left).
  apply kept_In in Hin. destruct Hin as [Hin Hk].
  unfold well_formed in Hwf. rewrite List.Forall_forall in Hwf.
  specialize (Hwf c Hin). rewrite H0 in Hwf.
  destruct (snd c); [discriminate Hk | discriminate Hwf].
Qed.


End Cleaned.

(** C10, on a table with three columns and no row. *)
Lemma zero_rows_zero_columns_witness :
  well_formed ex_empty /\ df_nrows ex_empty = 0
  /\ columns (clean_and_format_df simple_to_datetime Automap ex_empty OMISSIONS) = [].
Proof.
  assert (Hwf : well_formed ex_empty) by (repeat constructor).
  split; [exact Hwf |]. split; [reflexivity |].
  apply (zero_rows_zero_columns simple_to_datetime Automap ex_empty OMISSIONS Hwf).
  reflexivity.
Defined.




(** ** Cleaning twice *)

Lemma filter_all {A : Type} (p : A -> bool) (l : list A) :
  (forall x, In x l -> p x = true) -> List.filter p l = l.
Proof.
  induction l as [| a l IH]; intros H; simpl; [reflexivity |].
  rewrite (H a) by now left. f_equal. apply IH. intros x Hx. apply H. now right.
Qed.

Lemma drop_nothing (labels : list string) (df : DataFrame) :
  (forall c, In c (columns df) -> ~ In c labels) -> drop labels df = df.
Proof.
  intros H. unfold drop. destruct df as [data n]. simpl. f_equal.
  apply filter_all. intros c Hc.
  assert (Hn : ~ In (fst c) labels) by (apply H; now apply in_map).
  apply mem_not_In in Hn. now rewrite Hn.
Qed.

Lemma drop_invalid_eq (v : variant) (df : DataFrame) :
  drop_invalid v df
  = mkDataFrame (List.filter (fun c : Column => negb (all_invalid v (snd c))) (df_data df))
                (df_nrows df).
Proof.
  rewrite <- drop_invalid_data. reflexivity.
Qed.

Lemma getitem_unique_in (df : DataFrame) (c : Column) :
  unique_label df (fst c) = true -> In c (df_data df) ->
  getitem df (fst c) = inr (snd c).
Proof.
  unfold unique_label, getitem. intros U Hin.
  assert (Hf : In c (List.filter (fun x : Column => String.eqb (fst x) (fst c))
                                 (df_data df))).
  { apply filter_In. split; [assumption | apply String.eqb_refl]. }
  destruct (List.filter _ (df_data df)) as [| c1 [| c2 l]]; try discriminate.
  destruct Hf as [Hf | []]. now subst c1.
Qed.

Lemma date_like_getitem (v : variant) (df df' : DataFrame) (col : string) :
  getitem df' col = getitem df col -> date_like v df' col = date_like v df col.
Proof.
  intros H. unfold date_like, is_datetime64_any_dtype. now rewrite H.
Qed.

Section Twice.

Variable to_datetime : list value -> exn + list (option Timestamp).
Variable v : variant.
Hypothesis Hread : reads_back to_datetime v.

(** A column the loop has visited is left alone by a second visit. *)
Lemma format_col_settled (df : DataFrame) (c : Column) :
  In c (df_data df) ->
  let df1 := mkDataFrame (map (format_col to_datetime v df) (df_data df)) (df_nrows df) in
  format_col to_datetime v df1 (format_col to_datetime v df c)
  = format_col to_datetime v df c.
Proof.
  intros Hin df1.
  assert (Hcols : columns df1 = columns df).
  { unfold df1, columns. simpl. rewrite map_map. apply map_ext.
    intros x. apply format_col_label. }
  destruct (unique_label df (fst c)) eqn:U.
  - assert (G : getitem df (fst c) = inr (snd c)) by now apply getitem_unique_in.
    assert (G1 : getitem df1 (fst c) = inr (snd (format_col to_datetime v df c))).
    { rewrite <- (format_col_label to_datetime v df c) at 1.
      apply getitem_unique_in.
      - rewrite format_col_label. now rewrite (unique_label_columns _ _ _ Hcols).
      - unfold df1. simpl. now apply in_map. }
    unfold format_col at 2 3. unfold format_col in G1. rewrite G in *.
    destruct (date_like v df (fst c)) eqn:D.
    + destruct (to_datetime (snd c)) as [e | ts] eqn:T.
      * unfold format_col.
        rewrite (date_like_getitem v df df1) by congruence.
        now rewrite D, G1, T.
      * unfold format_col. simpl fst. simpl in G1. rewrite G1.
        destruct (date_like v df1 (fst c)); [| reflexivity].
        destruct (Hread _ _ T) as [ts' [T' R]]. rewrite T'. now rewrite R.
    + unfold format_col.
      rewrite (date_like_getitem v df df1) by congruence.
      now rewrite D.
  - rewrite (format_col_not_unique to_datetime v df c U).
    apply format_col_not_unique.
    now rewrite (unique_label_columns _ _ _ Hcols).
Qed.


End Twice.

(** ** The sample parser reads its rendered dates back *)

Lemma free_of_app (sep : ascii) (a b : string) :
  free_of sep (a +:+ b) = free_of sep a && free_of sep b.
Proof.
  unfold free_of. induction a as [| x a IH]; simpl; [reflexivity |].
  destruct (Ascii.eqb sep x); simpl; [reflexivity | apply IH].
Qed.

Lemma split_on_free (sep : ascii) (s : string) :
  free_of sep s = true -> split_on sep s = [s].
Proof.
  unfold free_of. induction s as [| x s IH]; simpl; [reflexivity |].
  rewrite (Ascii.eqb_sym x sep).
  destruct (Ascii.eqb sep x); simpl; [discriminate |].
  intros H. now rewrite IH.
Qed.

Lemma split_on_app (sep : ascii) (a b : string) :
  free_of sep a = true ->
  split_on sep (a +:+ String sep b) = a :: split_on sep b.
Proof.
  unfold free_of. induction a as [| x a IH]; simpl.
  - now rewrite Ascii.eqb_refl.
  - rewrite (Ascii.eqb_sym x sep).
    destruct (Ascii.eqb sep x); simpl; [discriminate |].
    intros H. now rewrite IH.
Qed.

Lemma N_range_forallb (p : N -> bool) (lo len : nat) (n : N) :
  forallb p (N_range lo len) = true ->
  (N.of_nat lo <= n)%N -> (n < N.of_nat (lo + len))%N -> p n = true.
Proof.
  intros H Hlo Hhi. rewrite forallb_forall in H. apply H.
  unfold N_range. apply in_map_iff. exists (N.to_nat n).
  split; [apply N2Nat.id |]. apply in_seq. lia.
Qed.

Lemma short_fields_ok : forallb short_field_ok (N_range 1 31) = true.
Proof. vm_compute. reflexivity. Qed.

Lemma year_fields_ok : forallb year_field_ok (N_range 1678 584) = true.
Proof. vm_compute. reflexivity. Qed.

Lemma field_ok_inv (len_ok : nat -> bool) (s : string) (n : N) :
  field_ok len_ok s n = true ->
  free_of "-" s = true /\ free_of "/" s = true /\ starts_with_digit s = true
  /\ len_ok (String.length s) = true /\ digits s = Some n.
Proof.
  unfold field_ok. rewrite !andb_true_iff.
  intros [[[[H1 H2] H3] H4] H5]. repeat split; try assumption.
  destruct (digits s) as [k |]; [| discriminate].
  apply N.eqb_eq in H5. now subst.
Qed.

(** A rendered date parses to its calendar date. *)
Lemma parse_text_rendered (sm sd sy : string) (y m d : N) :
  field_ok (fun l => Nat.leb l 2) sm m = true ->
  field_ok (fun l => Nat.leb l 2) sd d = true ->
  field_ok (fun l => Nat.eqb l 4) sy y = true ->
  valid_date y m d = true ->
  parse_text (sm +:+ "/" +:+ sd +:+ "/" +:+ sy) = Some (mkTimestamp y m d 0).
Proof.
  intros Hm Hd Hy Hv.
  apply field_ok_inv in Hm. destruct Hm as [Hm1 [Hm2 [_ [Hm4 Hm5]]]].
  apply field_ok_inv in Hd. destruct Hd as [Hd1 [Hd2 [_ [Hd4 Hd5]]]].
  apply field_ok_inv in Hy. destruct Hy as [Hy1 [Hy2 [_ [Hy4 Hy5]]]].
  unfold parse_text.
  rewrite (split_on_free "-").
  2:{ rewrite !free_of_app, Hm1, Hd1, Hy1. reflexivity. }
  change ("/" +:+ sd +:+ "/" +:+ sy) with (String "/" (sd +:+ String "/" sy)).
  rewrite (split_on_app "/" sm) by assumption.
  rewrite (split_on_app "/" sd) by assumption.
  rewrite (split_on_free "/" sy) by assumption.
  cbv beta in Hm4, Hd4, Hy4.
  rewrite Hm4, Hd4, Hy4, Hm5, Hd5, Hy5. simpl. now rewrite Hv.
Qed.

Lemma valid_date_fields (y m d : N) :
  valid_date y m d = true ->
  short_field_ok m = true /\ short_field_ok d = true /\ year_field_ok y = true.
Proof.
  unfold valid_date. rewrite !andb_true_iff, !N.leb_le.
  intros [[[[[Hy1 Hy2] Hm1] Hm2] Hd1] Hd2].
  assert (Hd3 : (d <= 31)%N).
  { unfold days_in_month in Hd2.
    repeat match goal with
           | H : context [match ?x with _ => _ end] |- _ => destruct x
           end; lia. }
  repeat split.
  - apply (N_range_forallb _ 1 31); [apply short_fields_ok | lia | lia].
  - apply (N_range_forallb _ 1 31); [apply short_fields_ok | lia | lia].
  - apply (N_range_forallb _ 1678 584); [apply year_fields_ok | lia | lia].
Qed.

Lemma parse_cell_valid (x : value) (t : Timestamp) :
  parse_cell x = Some t -> valid_date (ts_year t) (ts_month t) (ts_day t) = true.
Proof.
  destruct x as [| b | z | m e | s | t0]; simpl; try discriminate.
  - unfold parse_text, make_date.
    repeat match goal with
           | |- context [match ?x with _ => _ end] => destruct x eqn:?
           | |- context [if ?x then _ else _] => destruct x eqn:?
           end; intros H; try discriminate; injection H as <-; assumption.
  - destruct (valid_date _ _ _) eqn:V; [| discriminate].
    intros H. injection H as <-. assumption.
Qed.

Lemma parse_padded (t : Timestamp) :
  valid_date (ts_year t) (ts_month t) (ts_day t) = true ->
  parse_text (strftime_padded t)
  = Some (mkTimestamp (ts_year t) (ts_month t) (ts_day t) 0).
Proof.
  intros Hv. destruct (valid_date_fields _ _ _ Hv) as [Hm [Hd Hy]].
  unfold short_field_ok in Hm, Hd. apply andb_true_iff in Hm, Hd.
  unfold strftime_padded. apply parse_text_rendered; tauto.
Qed.

Lemma parse_plain (t : Timestamp) :
  valid_date (ts_year t) (ts_month t) (ts_day t) = true ->
  parse_text (strftime_plain t)
  = Some (mkTimestamp (ts_year t) (ts_month t) (ts_day t) 0).
Proof.
  intros Hv. destruct (valid_date_fields _ _ _ Hv) as [Hm [Hd Hy]].
  unfold short_field_ok in Hm, Hd. apply andb_true_iff in Hm, Hd.
  unfold strftime_plain. apply parse_text_rendered; tauto.
Qed.

Lemma plain_not_NaT (t : Timestamp) :
  valid_date (ts_year t) (ts_month t) (ts_day t) = true ->
  String.eqb (strftime_plain t) "NaT" = false.
Proof.
  intros Hv. destruct (valid_date_fields _ _ _ Hv) as [Hm _].
  unfold short_field_ok in Hm. apply andb_true_iff in Hm. destruct Hm as [_ Hm].
  apply field_ok_inv in Hm. destruct Hm as [_ [_ [Hs _]]].
  unfold strftime_plain. destruct (string_of_N (ts_month t)) as [| a s]; [discriminate |].
  simpl in *. destruct (Ascii.eqb a "N") eqn:E; [| reflexivity].
  apply Ascii.eqb_eq in E. subst a. discriminate.
Qed.

Lemma render_cells (v : variant) (ts : list (option Timestamp)) :
  render v ts = map (render_cell v) ts.
Proof.
  destruct v; unfold render, fillna, replace, dt_strftime; rewrite map_map;
    apply map_ext; intros [t |]; reflexivity.
Qed.

Lemma render_cell_back (v : variant) (o : option Timestamp) :
  (forall t, o = Some t -> valid_date (ts_year t) (ts_month t) (ts_day t) = true) ->
  render_cell v (parse_cell (render_cell v o)) = render_cell v o.
Proof.
  intros Hv. destruct o as [t |].
  - specialize (Hv t eq_refl).
    assert (Hp := parse_padded t Hv). assert (Hq := parse_plain t Hv).
    assert (Hn := plain_not_NaT t Hv).
    destruct v; simpl; rewrite ?Hn; simpl; rewrite ?Hp, ?Hq; simpl;
      try reflexivity;
      change (strftime_plain (mkTimestamp (ts_year t) (ts_month t) (ts_day t) 0))
        with (strftime_plain t); now rewrite Hn.
  - destruct v; reflexivity.
Qed.

Lemma render_cell_not_bool (v : variant) (o : option Timestamp) :
  match render_cell v o with VBool _ => true | _ => false end = false.
Proof.
  destruct v, o as [t |]; simpl; try reflexivity; now destruct (String.eqb _ _).
Qed.

Lemma simple_reads_back (v : variant) : reads_back simple_to_datetime v.
Proof.
  intros vs ts. unfold simple_to_datetime.
  destruct (existsb _ vs); [discriminate |].
  intros H. injection H as <-.
  exists (map parse_cell (render v (map parse_cell vs))). split.
  - rewrite render_cells, map_map.
    assert (Hb : existsb (fun x => match x with VBool _ => true | _ => false end)
                         (map (fun x => render_cell v (parse_cell x)) vs) = false).
    { induction vs as [| x vs IH]; simpl; [reflexivity |].
      now rewrite IH, render_cell_not_bool. }
    now rewrite Hb.
  - rewrite !render_cells, !map_map. apply map_ext. intros x.
    apply render_cell_back. intros t. apply parse_cell_valid.
Qed.


(** ** The rows of a left join *)

Lemma join_block_fst (rk : list value) (p : nat * value) :
  Forall (fun q : nat * option nat => fst q = fst p) (join_block rk p).
Proof.
  unfold join_block. destruct (matches (snd p) rk) as [| j js].
  - repeat constructor.
  - apply List.Forall_forall. intros q Hq. apply in_map_iff in Hq.
    destruct Hq as [j' [<- _]]. reflexivity.
Qed.

Lemma join_from_lower (rk lk : list value) (off : nat) :
  Forall (fun q : nat * option nat => off <= fst q)
         (flat_map (join_block rk) (combine (seq off (length lk)) lk)).
Proof.
  revert off. induction lk as [| x lk IH]; intros off; simpl; [constructor |].
  apply List.Forall_app. split.
  - eapply List.Forall_impl; [| apply join_block_fst]. simpl. intros q ->. lia.
  - eapply List.Forall_impl; [| apply (IH (S off))]. simpl. intros q Hq. lia.
Qed.

(** The pairs of left row [i] stand together, after the pairs of the rows
    before it and before the pairs of the rows after it. *)
Lemma join_decompose (rk lk : list value) (off i : nat) :
  i < length lk ->
  exists before after,
    flat_map (join_block rk) (combine (seq off (length lk)) lk)
    = before ++ join_block rk (off + i, nth i lk VNone) ++ after
    /\ Forall (fun q : nat * option nat => fst q < off + i) before
    /\ Forall (fun q : nat * option nat => off + i < fst q) after.
Proof.
  revert off i. induction lk as [| x lk IH]; intros off i Hi; simpl in Hi; [lia |].
  destruct i as [| i].
  - exists [], (flat_map (join_block rk) (combine (seq (S off) (length lk)) lk)).
    rewrite Nat.add_0_r. simpl. split; [reflexivity |]. split; [constructor |].
    eapply List.Forall_impl; [| apply (join_from_lower rk lk (S off))].
    simpl. intros q Hq. lia.
  - destruct (IH (S off) i) as [before [after [E [Hb Ha]]]]; [lia |].
    exists (join_block rk (off, x) ++ before), after.
    simpl. rewrite E. rewrite <- app_assoc.
    replace (off + S i) with (S off + i) by lia.
    split; [reflexivity |]. split; [| assumption].
    apply List.Forall_app. split; [| assumption].
    eapply List.Forall_impl; [| apply join_block_fst]. simpl. intros q ->. lia.
Qed.

Lemma left_join_rows (lk rk : list value) (i : nat) :
  i < length lk ->
  exists before after,
    left_join_index lk rk
    = before ++ join_block rk (i, nth i lk VNone) ++ after
    /\ ~ In i (map fst before) /\ ~ In i (map fst after).
Proof.
  intros Hi. destruct (join_decompose rk lk 0 i Hi) as [before [after [E [Hb Ha]]]].
  exists before, after. split; [exact E |].
  rewrite List.Forall_forall in Hb, Ha.
  split; intros Hin; apply in_map_iff in Hin; destruct Hin as [q [Hq Hin]].
  - specialize (Hb q Hin). simpl in Hb. lia.
  - specialize (Ha q Hin). simpl in Ha. lia.
Qed.

(** The left rows come out in their order. *)
Lemma left_join_sorted (lk rk : list value) :
  StronglySorted le (map fst (left_join_index lk rk)).
Proof.
  unfold left_join_index, enumerate. generalize 0 as off.
  induction lk as [| x lk IH]; intros off; simpl; [constructor |].
  rewrite map_app.
  assert (Hblk : Forall (fun n => n = off) (map fst (join_block rk (off, x)))).
  { apply List.Forall_forall. intros n Hn. apply in_map_iff in Hn.
    destruct Hn as [q [<- Hq]].
    pose proof (join_block_fst rk (off, x)) as Hf.
    rewrite List.Forall_forall in Hf. now apply Hf. }
  assert (Hrest : Forall (fun n => S off <= n)
                         (map fst (flat_map (join_block rk)
                                            (combine (seq (S off) (length lk)) lk)))).
  { apply List.Forall_forall. intros n Hn. apply in_map_iff in Hn.
    destruct Hn as [q [<- Hq]].
    pose proof (join_from_lower rk lk (S off)) as Hf.
    rewrite List.Forall_forall in Hf. now apply Hf. }
  induction (map fst (join_block rk (off, x))) as [| n l IHl]; simpl.
  - apply IH.
  - inversion Hblk; subst. constructor; [now apply IHl |].
    apply List.Forall_app. split.
    + eapply List.Forall_impl; [| eassumption]. simpl. intros a ->. lia.
    + eapply List.Forall_impl; [| exact Hrest]. simpl. intros a Ha. lia.
Qed.

Lemma take_left_nth (ix before after : list (nat * option nat)) (q : nat * option nat)
      (vs : list value) :
  ix = before ++ q :: after ->
  nth (length before) (take_left ix vs) VNone = nth (fst q) vs VNone.
Proof.
  intros ->. unfold take_left. rewrite map_app. simpl.
  rewrite <- (length_map (fun p : nat * option nat => nth (fst p) vs VNone) before).
  apply nth_middle.
Qed.

Lemma take_right_nth (ix before after : list (nat * option nat)) (q : nat * option nat)
      (vs : list value) :
  ix = before ++ q :: after ->
  nth (length before) (take_right ix vs) VNone
  = match snd q with Some j => nth j vs VNone | None => VNone end.
Proof.
  intros ->. unfold take_right. rewrite map_app. simpl.
  rewrite <- (length_map (fun p : nat * option nat =>
              match snd p with Some j => nth j vs VNone | None => VNone end) before).
  apply nth_middle.
Qed.

(** ** The merged Properties & Insurance table *)

Lemma filter_map_none {A B : Type} (p : B -> bool) (g : A -> B) (l : list A) :
  (forall x, p (g x) = false) -> List.filter p (map g l) = [].
Proof.
  intros H. induction l as [| a l IH]; simpl; [reflexivity |]. now rewrite H.
Qed.

Lemma filter_map_every {A B : Type} (p : B -> bool) (g : A -> B) (l : list A) :
  (forall x, p (g x) = true) -> List.filter p (map g l) = map g l.
Proof.
  intros H. induction l as [| a l IH]; simpl; [reflexivity |]. now rewrite H, IH.
Qed.

Lemma mem_app (x : string) (a b : list string) :
  mem x (a ++ b) = mem x a || mem x b.
Proof. apply existsb_app. Qed.

Lemma mem_map_none {A : Type} (x : string) (g : A -> string) (ys : list A) :
  (forall y, String.eqb x (g y) = false) -> mem x (map g ys) = false.
Proof.
  intros H. unfold mem. induction ys as [| y ys IH]; simpl; [reflexivity |].
  now rewrite H, IH.
Qed.

Lemma prefix_empty (s : string) : String.prefix "" s = true.
Proof. now destruct s. Qed.

Section MergedSheet.

Variable to_datetime : list value -> exn + list (option Timestamp).
Variable v : variant.

Lemma properties_side_data (p_raw : DataFrame) (account pid : list value) :
  getitem p_raw "Account" = inr account ->
  getitem p_raw "_pid" = inr pid ->
  properties_side to_datetime v p_raw
  = inr (mkDataFrame
           (map (fun c : Column => ("Property: " +:+ fst c, snd c))
                (df_data (properties_clean to_datetime v p_raw))
            ++ [("Account", account); ("_pid", pid)])
           (df_nrows p_raw)).
Proof.
  intros Ha Hp. unfold properties_side, drop_strict.
  simpl forallb. rewrite (getitem_mem _ _ _ Ha), (getitem_mem _ _ _ Hp).
  simpl. rewrite Ha, Hp. simpl. fold (properties_clean to_datetime v p_raw).
  f_equal. unfold setitem at 2, rename_all, columns. cbn [df_data df_nrows].
  rewrite map_map. rewrite mem_map_none by reflexivity.
  unfold setitem, columns. cbn [df_data df_nrows].
  rewrite map_app, map_map, mem_app. rewrite mem_map_none by reflexivity.
  simpl. rewrite <- app_assoc. simpl. f_equal.
  unfold properties_clean. rewrite clean_data. reflexivity.
Qed.

Lemma insurance_side_data (i_raw : DataFrame) (pref : list value) :
  getitem i_raw "PropRecID" = inr pref ->
  insurance_side to_datetime v i_raw
  = inr (mkDataFrame
           (map (fun c : Column => ("Insurance: " +:+ fst c, snd c))
                (df_data (insurance_clean to_datetime v i_raw))
            ++ [("_pref", pref)])
           (df_nrows i_raw)).
Proof.
  intros Hp. unfold insurance_side. rewrite Hp. simpl.
  fold (insurance_clean to_datetime v i_raw).
  f_equal. unfold setitem, rename_all, columns. cbn [df_data df_nrows].
  rewrite map_map. rewrite mem_map_none by reflexivity.
  f_equal. unfold insurance_clean. rewrite clean_data. reflexivity.
Qed.

Lemma merge_left_data (pcs ics : list Column) (account pid pref : list value)
      (n m : nat) :
  let ix := left_join_index pid pref in
  merge_left
    (mkDataFrame (map (fun c : Column => ("Property: " +:+ fst c, snd c)) pcs
                  ++ [("Account", account); ("_pid", pid)]) n)
    (mkDataFrame (map (fun c : Column => ("Insurance: " +:+ fst c, snd c)) ics
                  ++ [("_pref", pref)]) m)
    "_pid" "_pref"
  = inr (mkDataFrame
           (map (fun c : Column => ("Property: " +:+ fst c, take_left ix (snd c))) pcs
            ++ [("Account", take_left ix account); ("_pid", take_left ix pid)]
            ++ map (fun c : Column => ("Insurance: " +:+ fst c, take_right ix (snd c)))
                   ics
            ++ [("_pref", take_right ix pref)])
           (length ix)).
Proof.
  intros ix. unfold merge_left, getitem. cbn [df_data].
  rewrite !List.filter_app, !filter_map_none by reflexivity. simpl List.filter.
  cbn [app]. fold ix. f_equal. f_equal. unfold columns. cbn [df_data].
  rewrite !map_app, !map_map. cbn [map fst snd].
  rewrite <- !app_assoc. f_equal; [| cbn [app]; f_equal; [| f_equal; [| f_equal]]].
  - apply map_ext. intros c. cbn [fst snd].
    rewrite mem_app, mem_map_none by reflexivity. reflexivity.
  - rewrite mem_app, mem_map_none by reflexivity. reflexivity.
  - rewrite mem_app, mem_map_none by reflexivity. reflexivity.
  - apply map_ext. intros c. cbn [fst snd].
    rewrite mem_app, mem_map_none by reflexivity. reflexivity.
  - rewrite mem_app, mem_map_none by reflexivity. reflexivity.
Qed.

Lemma select_account_first (df : DataFrame) :
  In "Account" (columns df) ->
  exists df',
    select ("Account" :: List.filter (fun c => negb (String.eqb c "Account"))
                                     (columns df)) df = inr df'
    /\ df_nrows df' = df_nrows df
    /\ forall c, In c (df_data df') <-> In c (df_data df).
Proof.
  intros Ha. unfold select.
  set (labels := "Account" :: List.filter _ (columns df)).
  assert (Hl : forall l, In l labels -> In l (columns df)).
  { intros l [<- | Hl]; [assumption |]. now apply filter_In in Hl. }
  assert (Hall : forallb (fun l => mem l (columns df)) labels = true).
  { apply forallb_forall. intros l Hin. apply mem_In. now apply Hl. }
  rewrite Hall. eexists. split; [reflexivity |]. split; [reflexivity |].
  cbn [df_data]. intros c. rewrite in_flat_map. split.
  - intros [l [_ Hc]]. now apply filter_In in Hc.
  - intros Hc. exists (fst c). split.
    + unfold labels. destruct (String.eqb (fst c) "Account") eqn:E.
      * left. symmetry. now apply String.eqb_eq.
      * right. apply filter_In. split; [now apply in_map | now rewrite E].
    + apply filter_In. split; [assumption | apply String.eqb_refl].
Qed.

Lemma merge_sheet_data (pcs ics : list Column) (account pid pref : list value)
      (n m : nat) :
  let ix := left_join_index pid pref in
  exists df4,
    merge_sheet v
      (mkDataFrame (map (fun c : Column => ("Property: " +:+ fst c, snd c)) pcs
                    ++ [("Account", account); ("_pid", pid)]) n)
      (mkDataFrame (map (fun c : Column => ("Insurance: " +:+ fst c, snd c)) ics
                    ++ [("_pref", pref)]) m)
    = inr df4
    /\ df_nrows df4 = length ix
    /\ forall c, In c (df_data df4) <-> In c (merged_data ix pcs ics account).
Proof.
  intros ix. unfold merge_sheet. rewrite merge_left_data. fold ix.
  cbn [bind_exn]. unfold drop_strict.
  set (full := mkDataFrame _ (length ix)).
  assert (H1 : mem "_pid" (columns full) = true).
  { apply mem_In. unfold full, columns. cbn [df_data]. rewrite !map_app.
    apply in_or_app. right. simpl. auto. }
  assert (H2 : mem "_pref" (columns full) = true).
  { apply mem_In. unfold full, columns. cbn [df_data]. rewrite !map_app.
    apply in_or_app. right. apply in_or_app. right. apply in_or_app. right.
    simpl. auto. }
  cbn [forallb]. rewrite H1, H2. cbn [andb bind_exn].
  assert (Hd : drop ["_pid"; "_pref"] full
               = mkDataFrame (merged_data ix pcs ics account) (length ix)).
  { unfold drop, full, merged_data. cbn [df_data df_nrows]. f_equal.
    rewrite !List.filter_app, !filter_map_every by reflexivity.
    simpl List.filter. now rewrite app_nil_r. }
  rewrite Hd.
  destruct v.
  - eexists. split; [reflexivity |]. split; [reflexivity |]. reflexivity.
  - eexists. split; [reflexivity |]. split; [reflexivity |]. reflexivity.
  - destruct (select_account_first
                (mkDataFrame (merged_data ix pcs ics account) (length ix)))
      as [df' [Hs [Hn Hc]]].
    { unfold columns, merged_data. cbn [df_data]. rewrite !map_app.
      apply in_or_app. right. simpl. auto. }
    exists df'. split; [exact Hs |]. split; [exact Hn | exact Hc].
Qed.

(** The merged table exists whenever the two queries deliver their
    linkage columns, and it is made of the columns of [merged_data]. *)
Lemma properties_insurance_data (p_raw i_raw : DataFrame)
      (account pid pref : list value) :
  getitem p_raw "Account" = inr account ->
  getitem p_raw "_pid" = inr pid ->
  getitem i_raw "PropRecID" = inr pref ->
  let ix := left_join_index pid pref in
  exists df4,
    properties_insurance to_datetime v p_raw i_raw = inr df4
    /\ df_nrows df4 = length ix
    /\ forall c,
         In c (df_data df4)
         <-> In c (merged_data ix (df_data (properties_clean to_datetime v p_raw))
                               (df_data (insurance_clean to_datetime v i_raw)) account).
Proof.
  intros Ha Hp Hr ix. unfold properties_insurance.
  rewrite (properties_side_data p_raw account pid Ha Hp).
  rewrite (insurance_side_data i_raw pref Hr).
  cbn [bind_exn]. apply merge_sheet_data.
Qed.

End MergedSheet.

Lemma merged_data_cases (ix : list (nat * option nat)) (pcs ics : list Column)
      (account : list value) (c : Column) :
  In c (merged_data ix pcs ics account) ->
  (exists c0, In c0 pcs /\ c = ("Property: " +:+ fst c0, take_left ix (snd c0)))
  \/ c = ("Account", take_left ix account)
  \/ (exists c0, In c0 ics /\ c = ("Insurance: " +:+ fst c0, take_right ix (snd c0))).
Proof.
  unfold merged_data. rewrite !in_app_iff, !in_map_iff. simpl.
  intros [[c0 [E H]] | [[E | []] | [c0 [E H]]]].
  - left. now exists c0.
  - right. now left.
  - right. right. now exists c0.
Qed.

Section MergedRows.

Variable to_datetime : list value -> exn + list (option Timestamp).
Variable v : variant.


End MergedRows.


(** ** Rows keep their order *)

Lemma filter_filter {A : Type} (p q : A -> bool) (l : list A) :
  List.filter p (List.filter q l) = List.filter (fun x => q x && p x) l.
Proof.
  induction l as [| a l IH]; simpl; [reflexivity |].
  destruct (q a); simpl; [destruct (p a) |]; now rewrite IH.
Qed.

Lemma kept_is_filter (v : variant) (om : list string) (df : DataFrame) :
  exists p, df_data (kept v om df) = List.filter p (df_data df).
Proof.
  unfold kept. rewrite drop_invalid_data.
  destruct v; unfold drop_omissions, drop_recid, drop; cbn [df_data];
    rewrite !filter_filter; eexists; reflexivity.
Qed.

Lemma render_length (v : variant) (ts : list (option Timestamp)) :
  length (render v ts) = length ts.
Proof.
  destruct v; unfold render, fillna, replace, dt_strftime; now rewrite !length_map.
Qed.

Section RowOrder.

Variable to_datetime : list value -> exn + list (option Timestamp).
Variable v : variant.

Lemma format_col_same_or_rendered (df : DataFrame) (c : Column) :
  In c (df_data df) ->
  same_or_rendered to_datetime v (format_col to_datetime v df c) c.
Proof.
  intros Hin. split; [apply format_col_label |].
  destruct (unique_label df (fst c)) eqn:U.
  - unfold format_col. rewrite (getitem_unique_in df c U Hin).
    destruct (date_like v df (fst c)); [| now left].
    destruct (to_datetime (snd c)) as [e | ts] eqn:T; [now left |].
    right. now exists ts.
  - left. now apply format_col_not_unique.
Qed.


End RowOrder.

Lemma simple_keeps_index : keeps_index simple_to_datetime.
Proof.
  intros vs ts. unfold simple_to_datetime.
  destruct (existsb _ vs); [discriminate |].
  intros H. injection H as <-. apply length_map.
Qed.



(** ** The example of the specification *)

Lemma filter_map_label (p : string -> bool) (g : Column -> Column)
      (l : list Column) :
  (forall c, fst (g c) = fst c) ->
  List.filter (fun c : Column => p (fst c)) (map g l)
  = map g (List.filter (fun c : Column => p (fst c)) l).
Proof.
  intros Hg. induction l as [| c l IH]; simpl; [reflexivity |].
  rewrite Hg. destruct (p (fst c)); simpl; now rewrite IH.
Qed.

Lemma filter_swap {A : Type} (p q : A -> bool) (l : list A) :
  List.filter p (List.filter q l) = List.filter q (List.filter p l).
Proof.
  rewrite !filter_filter. apply filter_ext. intros x. apply andb_comm.
Qed.

Lemma getitem_filter (p : Column -> bool) (data : list Column) (n : nat)
      (col : string) (vs : list value) :
  getitem (mkDataFrame data n) col = inr vs ->
  p (col, vs) = true ->
  getitem (mkDataFrame (List.filter p data) n) col = inr vs.
Proof.
  unfold getitem. cbn [df_data]. intros G Hp.
  rewrite filter_swap.
  destruct (List.filter (fun c : Column => String.eqb (fst c) col) data)
    as [| c [| c' l]] eqn:F; try discriminate.
  injection G as <-.
  assert (Hc : fst c = col).
  { assert (Hin : In c (List.filter (fun c : Column => String.eqb (fst c) col) data))
      by (rewrite F; now left).
    apply filter_In in Hin. now apply String.eqb_eq. }
  destruct c as [l vs]. simpl in Hc. subst l. cbn [snd] in Hp.
  cbn [List.filter]. now rewrite Hp.
Qed.

Section SpecExample.

Variable to_datetime : list value -> exn + list (option Timestamp).

Lemma getitem_kept (v : variant) (om : list string) (df : DataFrame)
      (col : string) (vs : list value) :
  getitem df col = inr vs ->
  contains "recid" (lower col) = false ->
  ~ In col om ->
  all_invalid v vs = false ->
  getitem (kept v om df) col = inr vs.
Proof.
  intros G Hr Ho Hi.
  assert (Hk : kept v om df
               = mkDataFrame
                   (List.filter (fun c : Column => negb (all_invalid v (snd c)))
                      (df_data (drop_omissions v om (drop_recid df))))
                   (df_nrows df)).
  { unfold kept. rewrite drop_invalid_eq. now destruct v. }
  rewrite Hk. apply getitem_filter; [| cbn [snd]; now rewrite Hi].
  assert (G1 : getitem (drop_recid df) col = inr vs).
  { unfold drop_recid, drop. destruct df as [data n]. cbn [df_data df_nrows].
    apply getitem_filter; [assumption |]. cbn [fst].
    destruct (mem col _) eqn:M; [| reflexivity].
    apply mem_In, filter_In in M. destruct M as [_ M]. congruence. }
  replace (mkDataFrame (df_data (drop_omissions v om (drop_recid df))) (df_nrows df))
    with (drop_omissions v om (drop_recid df)) by (now destruct v).
  unfold drop_omissions.
  destruct v; unfold drop; destruct (drop_recid df) as [data n];
    cbn [df_data df_nrows] in *; (apply getitem_filter; [assumption |]);
    cbn [fst]; match goal with |- negb (mem col ?l) = true =>
                                 destruct (mem col l) eqn:M; [| reflexivity] end;
    apply mem_In, filter_In in M; destruct M as [M1 M2];
    exfalso; apply Ho; try assumption; now apply mem_In.
Qed.

Lemma getitem_clean (v : variant) (om : list string) (df : DataFrame)
      (col : string) (vs : list value) :
  getitem (kept v om df) col = inr vs ->
  getitem (clean_and_format_df to_datetime v df om) col
  = inr (snd (format_col to_datetime v (kept v om df) (col, vs))).
Proof.
  intros G. rewrite clean_data. unfold getitem in *. cbn [df_data].
  rewrite (filter_map_label (fun l => String.eqb l col))
    by (intros c; apply format_col_label).
  destruct (List.filter _ (df_data (kept v om df))) as [| c [| c' l]] eqn:F;
    try discriminate.
  injection G as <-. simpl.
  assert (Hc : fst c = col).
  { assert (Hin : In c (List.filter (fun c : Column => String.eqb (fst c) col)
                                    (df_data (kept v om df))))
      by (rewrite F; now left).
    apply filter_In in Hin. now apply String.eqb_eq. }
  destruct c as [l vs]. simpl in Hc. now subst l.
Qed.

(** In [Automap] the date column of the example comes out as the
    specification writes it, zero-padded, whatever else the table holds. *)
Lemma automap_renders_example (df : DataFrame) (om : list string) (col : string)
      (t : Timestamp) :
  getitem df col = inr [VStr "2024-01-05"; VStr "not-a-date"; VNone] ->
  contains "date" (lower col) = true ->
  contains "recid" (lower col) = false ->
  ~ In col om ->
  to_datetime [VStr "2024-01-05"; VStr "not-a-date"; VNone] = inr [Some t; None; None] ->
  ts_year t = 2024%N -> ts_month t = 1%N -> ts_day t = 5%N ->
  getitem (clean_and_format_df to_datetime Automap df om) col
  = inr [VStr "01/05/2024"; VStr ""; VStr ""].
Proof.
  intros G Hd Hr Ho T Hy Hm Hday.
  assert (Gk : getitem (kept Automap om df) col
               = inr [VStr "2024-01-05"; VStr "not-a-date"; VNone])
    by (apply getitem_kept; try assumption; reflexivity).
  rewrite (getitem_clean Automap om df col _ Gk).
  unfold format_col, date_like. cbn [fst snd]. rewrite Hd, Gk, T. cbn [snd].
  destruct t as [y m d n]. simpl in Hy, Hm, Hday. subst y m d. reflexivity.
Qed.

(** C3.  In [Notes2] and [Notes] the date column of the example keeps its
    two cells without a date missing: [replace('NaT', '')] looks for the
    text "NaT", which [strftime] does not write, so the cells are not the
    empty string the example asks for. *)
Theorem notes_leave_missing_dates (v : variant) (df : DataFrame) (om : list string)
        (col : string) (t : Timestamp) :
  v <> Automap ->
  getitem df col = inr [VStr "2024-01-05"; VStr "not-a-date"; VNone] ->
  contains "date" (lower col) = true ->
  contains "recid" (lower col) = false ->
  ~ In col om ->
  to_datetime [VStr "2024-01-05"; VStr "not-a-date"; VNone] = inr [Some t; None; None] ->
  ts_year t = 2024%N -> ts_month t = 1%N -> ts_day t = 5%N ->
  getitem (clean_and_format_df to_datetime v df om) col
  = inr [VStr "1/5/2024"; VNone; VNone].
Proof.
  intros Hv G Hd Hr Ho T Hy Hm Hday.
  assert (Gk : getitem (kept v om df) col
               = inr [VStr "2024-01-05"; VStr "not-a-date"; VNone])
    by (apply getitem_kept; try assumption; now destruct v).
  rewrite (getitem_clean v om df col _ Gk).
  assert (Hlike : date_like v (kept v om df) col = true)
    by (unfold date_like; rewrite Hd; now destruct v).
  unfold format_col. cbn [fst snd]. rewrite Hlike, Gk, T. cbn [snd].
  destruct t as [y m d n]. simpl in Hy, Hm, Hday. subst y m d.
  destruct v; [congruence | reflexivity | reflexivity].
Qed.

End SpecExample.

(** C3, on the sample table in [Notes2]. *)
Lemma notes_leave_missing_dates_witness :
  getitem (clean_and_format_df simple_to_datetime Notes2 ex_dates OMISSIONS) "CloseDate"
  = inr [VStr "1/5/2024"; VNone; VNone].
Proof.
  apply (notes_leave_missing_dates simple_to_datetime Notes2 ex_dates OMISSIONS
           "CloseDate" (mkTimestamp 2024 1 5 0)); try reflexivity.
  - discriminate.
  - intros H. vm_compute in H.
    repeat (destruct H as [H | H]; [discriminate |]). exact H.
Defined.

Lemma automap_renders_example_sample :
  getitem (clean_and_format_df simple_to_datetime Automap ex_dates OMISSIONS) "CloseDate"
  = inr [VStr "01/05/2024"; VStr ""; VStr ""].
Proof.
  apply (automap_renders_example simple_to_datetime ex_dates OMISSIONS "CloseDate"
           (mkTimestamp 2024 1 5 0)); try reflexivity.
  intros H. vm_compute in H.
  repeat (destruct H as [H | H]; [discriminate |]). exact H.
Qed.

(** ** The scraper *)

(** C7.  [get_field_definitions] is a total function of the address and of
    the outcome of the request, and returns the empty map when the address
    is absent or empty or when fetching or parsing the page raises. *)
Theorem scraper_failure_is_empty (fetch : string -> exn + list (list node))
        (url : option string) :
  (forall u, url = Some u -> u <> EmptyString -> exists e, fetch u = inl e) ->
  get_field_definitions fetch url = ∅.
Proof.
  intros H. unfold get_field_definitions, try_scrape.
  destruct url as [u |]; [| reflexivity].
  destruct (String.eqb u EmptyString) eqn:E; [reflexivity |].
  apply String.eqb_neq in E.
  destruct (H u eq_refl E) as [e He]. now rewrite He.
Qed.

(** C7, on a site that cannot be reached. *)
Lemma scraper_failure_is_empty_witness :
  get_field_definitions unreachable
    (Some "https://help.themortgageoffice.com/knowledge/loan-field-mappings") = ∅.
Proof.
  apply (scraper_failure_is_empty unreachable).
  intros u _ _. exists "ConnectionError: Max retries exceeded". reflexivity.
Defined.

(** A page that parses gives one entry per row of two cells or more, the
    description keeping its line breaks. *)
Lemma scraper_reads_rows :
  get_field_definitions (fun _ => inr ex_page) (Some "https://help.example/fields")
  = <["Account" := "The loan account number" +:+ newline +:+ "shown on statements"]>
      (<["Street" := "Street address"]>
         (<["Field" := "Description"]> ∅)).
Proof. vm_compute. reflexivity. Qed.

(** ** Statements and what they touch *)

Lemma bind_inv {A B : Type} (m : M A) (f : A -> M B) (w w' : World) (r : exn + B) :
  bind m f w = (r, w') ->
  (exists e, m w = (inl e, w') /\ r = inl e)
  \/ (exists a w1, m w = (inr a, w1) /\ f a w1 = (r, w')).
Proof.
  unfold bind. destruct (m w) as [[e | a] w1].
  - intros H. injection H as <- <-. left. now exists e.
  - intros H. right. now exists a, w1.
Qed.

Lemma quiet_ret {A : Type} (a : A) : quiet (ret a).
Proof. intros w r w' H. injection H as <- <-. now split. Qed.

Lemma quiet_raise {A : Type} (e : exn) : quiet (@raise A e).
Proof. intros w r w' H. injection H as <- <-. now split. Qed.

Lemma quiet_lift {A : Type} (x : exn + A) : quiet (lift x).
Proof. destruct x; [apply quiet_raise | apply quiet_ret]. Qed.

Lemma quiet_check (o : option exn) : quiet (check o).
Proof. destruct o; [apply quiet_raise | apply quiet_ret]. Qed.

Lemma quiet_emit (ev : UiEvent) : is_message_box ev = false -> quiet (emit ev).
Proof.
  intros Hev w r w' H. injection H as <- <-. split; [| reflexivity].
  unfold message_boxes. cbn [ui]. rewrite List.filter_app. simpl.
  rewrite Hev. apply app_nil_r.
Qed.

Lemma quiet_bind {A B : Type} (m : M A) (f : A -> M B) :
  quiet m -> (forall a, quiet (f a)) -> quiet (bind m f).
Proof.
  intros Hm Hf w r w' H. apply bind_inv in H.
  destruct H as [[e [H _]] | [a [w1 [H1 H2]]]].
  - now apply Hm in H.
  - apply Hm in H1. apply Hf in H2. destruct H1 as [E1 F1], H2 as [E2 F2].
    split; congruence.
Qed.

Lemma quiet_writes_only {A : Type} (path : string) (m : M A) :
  quiet m -> writes_only path m.
Proof.
  intros Hm w r w' H. apply Hm in H. destruct H as [H1 H2].
  split; [assumption |]. intros p _. now rewrite H2.
Qed.

Lemma writes_only_bind {A B : Type} (path : string) (m : M A) (f : A -> M B) :
  writes_only path m -> (forall a, writes_only path (f a)) ->
  writes_only path (bind m f).
Proof.
  intros Hm Hf w r w' H. apply bind_inv in H.
  destruct H as [[e [H _]] | [a [w1 [H1 H2]]]].
  - now apply Hm in H.
  - apply Hm in H1. apply Hf in H2. destruct H1 as [E1 F1], H2 as [E2 F2].
    split; [congruence |]. intros p Hp. rewrite F2, F1 by assumption. reflexivity.
Qed.

Section Statements.

Variable env : Env.

Lemma quiet_read_sql (q : Query) : quiet (read_sql env q).
Proof. apply quiet_lift. Qed.

Lemma writes_only_to_excel (path : string) (df : DataFrame) :
  writes_only path (to_excel env path df).
Proof.
  unfold to_excel. apply writes_only_bind.
  - apply quiet_writes_only, quiet_check.
  - intros _ w r w' H. injection H as <- <-. split; [reflexivity |].
    intros p Hp. cbn [files]. now apply lookup_insert_ne.
Qed.

Lemma writes_only_save (path : string) (wb : Workbook) :
  writes_only path (save env path wb).
Proof.
  unfold save. apply writes_only_bind.
  - apply quiet_writes_only, quiet_check.
  - intros _ w r w' H. injection H as <- <-. split; [reflexivity |].
    intros p Hp. cbn [files]. now apply lookup_insert_ne.
Qed.

Lemma quiet_load_workbook (path : string) : quiet (load_workbook env path).
Proof.
  unfold load_workbook. apply quiet_bind; [apply quiet_check |].
  intros _ w r w' H. destruct (files w !! path); injection H as <- <-; now split.
Qed.

(** What [to_excel], [load_workbook] and [save] leave when they all
    return. *)
Lemma to_excel_inv (path : string) (df : DataFrame) (w w' : World) (u : unit) :
  to_excel env path df w = (inr u, w') ->
  w' = mkWorld (<[path := sheet_of df]> (files w)) (ui w).
Proof.
  unfold to_excel, bind, check, raise, ret.
  destruct (env_to_excel env path); intros H; [discriminate |].
  injection H as H. now subst w'.
Qed.

Lemma load_workbook_inv (path : string) (w w' : World) (wb : Workbook) :
  load_workbook env path w = (inr wb, w') ->
  w' = w /\ files w !! path = Some wb.
Proof.
  unfold load_workbook, bind, check, raise, ret.
  destruct (env_load_workbook env path); [discriminate |].
  destruct (files w !! path) as [wb' |]; intros H; [| discriminate].
  injection H as <- <-. now split.
Qed.

Lemma save_inv (path : string) (wb : Workbook) (w w' : World) (u : unit) :
  save env path wb w = (inr u, w') ->
  files w' !! path = Some wb.
Proof.
  unfold save, bind, check, raise, ret.
  destruct (env_save env path); intros H; [discriminate |].
  injection H as H. subst w'. cbn [files]. apply lookup_insert_eq.
Qed.

End Statements.

(** ** The export of one sheet *)

Lemma lift_inv {A : Type} (x : exn + A) (w w' : World) (a : A) :
  lift x w = (inr a, w') -> x = inr a /\ w' = w.
Proof.
  destruct x as [e | a']; unfold lift, raise, ret; intros H; [discriminate |].
  injection H as <- <-. now split.
Qed.

Lemma emit_inv (ev : UiEvent) (w w' : World) (r : exn + unit) :
  emit ev w = (r, w') -> files w' = files w.
Proof. unfold emit. intros H. injection H as _ <-. reflexivity. Qed.

(** A statement that returned went through each of its steps. *)
Ltac step_inv H :=
  apply bind_inv in H;
  destruct H as [[? [_ ?]] | [? [? [? H]]]]; [discriminate |].

Ltac step_as H a Ha :=
  apply bind_inv in H;
  destruct H as [[? [_ ?]] | [a [? [Ha H]]]]; [discriminate |].

Section SheetSteps.

Variable env : Env.
Variable folder : string.

Lemma export_sheet_step (name : string) (q : Query) :
  automap_table env name
  = bind_exn (env_read_sql env q) (fun raw => inr (clean env Automap raw)) ->
  String.eqb name "4-Properties_&_Insurance" = false ->
  sheet_step env Automap folder (name, export env folder name q).
Proof.
  intros Ht Hn. split; cbn [fst snd].
  - unfold export.
    apply writes_only_bind; [apply quiet_writes_only, quiet_emit; reflexivity |].
    intros _.
    apply writes_only_bind; [apply quiet_writes_only, quiet_read_sql |].
    intros raw.
    apply writes_only_bind; [apply writes_only_to_excel |]. intros _.
    apply writes_only_bind; [apply quiet_writes_only, quiet_load_workbook |].
    intros wb.
    apply writes_only_bind; [apply writes_only_save |]. intros _.
    apply quiet_writes_only, quiet_emit. reflexivity.
  - intros w u w' H. unfold export in H.
    step_as H u0 Hemit. step_as H raw Hread. step_as H u1 Hexcel.
    step_as H wb Hload. step_as H u2 Hsave.
    apply lift_inv in Hread. destruct Hread as [Hread ->].
    apply to_excel_inv in Hexcel. subst.
    apply load_workbook_inv in Hload. destruct Hload as [-> Hload].
    cbn [files] in Hload. rewrite lookup_insert_eq in Hload. injection Hload as <-.
    apply save_inv in Hsave. apply emit_inv in H.
    exists (clean env Automap raw). split.
    + unfold sheet_table. rewrite Ht, Hread. reflexivity.
    + rewrite H, Hsave. unfold finished_sheet. now rewrite Hn.
Qed.

Lemma export_merged_sheet_step :
  sheet_step env Automap folder ("4-Properties_&_Insurance", export_merged env folder).
Proof.
  split; cbn [fst snd].
  - unfold export_merged.
    apply writes_only_bind; [apply quiet_writes_only, quiet_read_sql |]. intros p_raw.
    apply writes_only_bind; [apply quiet_writes_only, quiet_lift |]. intros p_clean.
    apply writes_only_bind; [apply quiet_writes_only, quiet_read_sql |]. intros i_raw.
    apply writes_only_bind; [apply quiet_writes_only, quiet_lift |]. intros i_clean.
    apply writes_only_bind; [apply quiet_writes_only, quiet_lift |]. intros df4.
    apply writes_only_to_excel.
  - intros w u w' H. unfold export_merged in H.
    step_as H p_raw Hp. step_as H p_clean Hpc. step_as H i_raw Hi.
    step_as H i_clean Hic. step_as H df4 Hm.
    apply lift_inv in Hp, Hpc, Hi, Hic, Hm.
    destruct Hp as [Hp ->], Hpc as [Hpc ->], Hi as [Hi ->], Hic as [Hic ->],
             Hm as [Hm ->].
    apply to_excel_inv in H. subst w'.
    exists df4. split.
    + unfold sheet_table, automap_table. cbn [String.eqb Ascii.eqb Bool.eqb andb].
      rewrite Hp. cbn [bind_exn]. rewrite Hpc. cbn [bind_exn]. rewrite Hi.
      cbn [bind_exn]. rewrite Hic. cbn [bind_exn]. exact Hm.
    + cbn [files]. rewrite lookup_insert_eq. reflexivity.
Qed.

Lemma write_sheet_step (v : variant) (s : string * DataFrame) :
  v <> Automap ->
  sheet_table env v (fst s) = inr (snd s) ->
  sheet_step env v folder (fst s, write_sheet env v folder s).
Proof.
  intros Hv Ht. split; cbn [fst snd].
  - unfold write_sheet.
    apply writes_only_bind; [apply writes_only_to_excel |]. intros _.
    apply writes_only_bind; [apply quiet_writes_only, quiet_load_workbook |].
    intros wb.
    destruct (MAPPING_LINKS (fst s)) as [url |]; [| apply writes_only_save].
    destruct (String.eqb url EmptyString); apply writes_only_save.
  - intros w u w' H. unfold write_sheet in H.
    step_as H u0 Hexcel. step_as H wb Hload.
    apply to_excel_inv in Hexcel. subst.
    apply load_workbook_inv in Hload. destruct Hload as [-> Hload].
    cbn [files] in Hload. rewrite lookup_insert_eq in Hload. injection Hload as <-.
    exists (snd s). split; [exact Ht |].
    unfold finished_sheet.
    destruct v; [congruence | |];
      (destruct (MAPPING_LINKS (fst s)) as [url |];
       [destruct (String.eqb url EmptyString) |]);
      now apply save_inv in H.
Qed.

End SheetSteps.

(** ** Sheets exported one after the other *)

Lemma append_cancel (a b c : string) : a +:+ b = a +:+ c -> b = c.
Proof.
  induction a as [| x a IH]; simpl; intros H; [assumption |].
  injection H as H. now apply IH.
Qed.

Lemma sheet_paths_NoDup (folder : string) (v : variant) :
  List.NoDup (map (xlsx_path folder) (sheet_names v)).
Proof.
  unfold xlsx_path.
  destruct v; cbn [sheet_names map];
    repeat (apply List.NoDup_cons;
            [cbn [In]; intros H;
             repeat (destruct H as [H | H];
                     [apply append_cancel in H; simpl in H; discriminate |]);
             exact H |]);
    apply List.NoDup_nil.
Qed.

Section Sequence.

Variable env : Env.
Variable v : variant.
Variable folder : string.

Lemma complete_kept (n : string) (w w' : World) :
  files w' !! xlsx_path folder n = files w !! xlsx_path folder n ->
  complete env v folder n w -> complete env v folder n w'.
Proof.
  intros E [df [Ht Hf]]. exists df. split; [assumption | congruence].
Qed.

(** A run of sheet exports shows no message box and touches the files of
    its sheets only.  When it returns every sheet is complete; when it
    raises, the sheets before the failing one are complete and the sheets
    after it have not been touched. *)
Lemma steps_run (steps : list (string * M unit)) :
  List.NoDup (map (fun s : string * M unit => xlsx_path folder (fst s)) steps) ->
  Forall (sheet_step env v folder) steps ->
  forall w r w',
    for_each (fun s : string * M unit => snd s) steps w = (r, w') ->
    message_boxes (ui w') = message_boxes (ui w)
    /\ (forall p,
          ~ In p (map (fun s : string * M unit => xlsx_path folder (fst s)) steps) ->
          files w' !! p = files w !! p)
    /\ match r with
       | inr _ => forall n, In n (map fst steps) -> complete env v folder n w'
       | inl _ =>
           exists done rest,
             map fst steps = done ++ rest
             /\ (forall n, In n done -> complete env v folder n w')
             /\ (forall n, In n (tl rest) ->
                           files w' !! xlsx_path folder n = files w !! xlsx_path folder n)
       end.
Proof.
  induction steps as [| s steps IH]; intros Hnd Hall w r w' H.
  - injection H as <- <-. split; [reflexivity |]. split; [reflexivity |].
    intros n [].
  - inversion Hnd as [| p ps Hnotin Hnd' Ep]; subst.
    inversion Hall as [| s' ss [Hw Hc] Hall' Es]; subst.
    cbn [for_each] in H. apply bind_inv in H.
    destruct H as [[e [H ->]] | [u [w1 [H1 H2]]]].
    + apply Hw in H. destruct H as [Hb Hf].
      split; [assumption |]. split.
      * intros p Hp. apply Hf. intros ->. apply Hp. now left.
      * exists [], (map fst (s :: steps)). split; [reflexivity |].
        split; [intros n [] |].
        intros n Hn. cbn [map tl] in Hn. apply Hf. intros E.
        apply Hnotin. rewrite <- E. apply in_map_iff in Hn.
        destruct Hn as [s0 [<- Hs0]].
        apply in_map_iff. now exists s0.
    + pose proof (Hc _ _ _ H1) as Hdone.
      apply Hw in H1. destruct H1 as [Hb1 Hf1].
      destruct (IH Hnd' Hall' _ _ _ H2) as [Hb2 [Hf2 Hr]].
      split; [congruence |]. split.
      * intros p Hp. rewrite Hf2 by (intros Hin; apply Hp; now right).
        apply Hf1. intros ->. apply Hp. now left.
      * assert (Hs : complete env v folder (fst s) w')
          by (eapply complete_kept; [apply Hf2 | exact Hdone]; assumption).
        destruct r as [e | u'].
        -- destruct Hr as [done [rest [E [Hd Ht]]]].
           exists (fst s :: done), rest. split; [cbn [map]; now rewrite E |].
           split.
           ++ intros n [<- | Hn]; [exact Hs | now apply Hd].
           ++ intros n Hn. rewrite (Ht n Hn). apply Hf1. intros E'.
              apply Hnotin. rewrite <- E'.
              assert (Hin : In n (map fst steps)).
              { rewrite E. apply in_or_app. right.
                destruct rest; [destruct Hn | now right]. }
              apply in_map_iff in Hin. destruct Hin as [s0 [<- Hs0]].
              apply in_map_iff. now exists s0.
        -- intros n [<- | Hn]; [exact Hs | now apply Hr].
Qed.

End Sequence.

(** ** The tables of the production export *)

Lemma pure_ret {A : Type} (a : A) : pure_stmt (ret a).
Proof. now exists (inr a). Qed.

Lemma pure_lift {A : Type} (x : exn + A) : pure_stmt (lift x).
Proof. exists x. now destruct x. Qed.

Lemma pure_bind {A B : Type} (m : M A) (f : A -> M B) :
  pure_stmt m -> (forall a, pure_stmt (f a)) -> pure_stmt (bind m f).
Proof.
  intros [x Hx] Hf. destruct x as [e | a].
  - exists (inl e). intros w. unfold bind. now rewrite Hx.
  - destruct (Hf a) as [y Hy]. exists y. intros w. unfold bind. now rewrite Hx.
Qed.

Lemma read_workbooks_pure (env : Env) (v : variant) : pure_stmt (read_workbooks env v).
Proof.
  unfold read_workbooks, read_sql.
  destruct v; cbv zeta;
    repeat first [apply pure_ret | apply pure_lift | apply pure_bind; [| intros ?]].
Qed.

Lemma read_workbooks_inv (env : Env) (v : variant) (w w' : World)
      (r : exn + list (string * DataFrame)) :
  read_workbooks env v w = (r, w') ->
  w' = w /\ fst (read_workbooks env v empty_world) = r.
Proof.
  destruct (read_workbooks_pure env v) as [x Hx].
  rewrite !Hx. intros H. injection H as <- <-. now split.
Qed.

Lemma read_workbooks_names (env : Env) (v : variant) (w w' : World)
      (tables : list (string * DataFrame)) :
  read_workbooks env v w = (inr tables, w') -> map fst tables = sheet_names v.
Proof.
  unfold read_workbooks. destruct v; cbv zeta; intros H;
    repeat step_inv H; injection H as <- _; reflexivity.
Qed.

Lemma sheet_names_NoDup (v : variant) : List.NoDup (sheet_names v).
Proof.
  destruct v; cbn [sheet_names];
    repeat (apply List.NoDup_cons;
            [cbn [In]; intros H; repeat (destruct H as [H | H]; [discriminate |]);
             exact H |]);
    apply List.NoDup_nil.
Qed.

Lemma lookup_table_In (tables : list (string * DataFrame)) (s : string * DataFrame) :
  List.NoDup (map fst tables) -> In s tables ->
  lookup_table (fst s) tables = inr (snd s).
Proof.
  unfold lookup_table. induction tables as [| t tables IH]; intros Hnd Hin; [destruct Hin |].
  inversion Hnd as [| n ns Hnotin Hnd' E]; subst. simpl.
  destruct Hin as [-> | Hin].
  - now rewrite String.eqb_refl.
  - destruct (String.eqb (fst t) (fst s)) eqn:E.
    + exfalso. apply String.eqb_eq in E. apply Hnotin. rewrite E. now apply in_map.
    + now apply IH.
Qed.

Lemma for_each_named {A : Type} (f : A -> M unit) (name : A -> string) (xs : list A) :
  for_each f xs
  = for_each (fun s : string * M unit => snd s) (map (fun x => (name x, f x)) xs).
Proof.
  induction xs as [| x xs IH]; simpl; [reflexivity |]. now rewrite IH.
Qed.

(** ** An export that stops on an exception *)

Lemma aborted_untouched (env : Env) (v : variant) (folder : string) (w w1 : World) :
  message_boxes (ui w1) = message_boxes (ui w) -> files w1 = files w ->
  aborted env v folder w w1.
Proof.
  intros Hb Hf. split; [assumption |]. exists [], (sheet_names v).
  split; [reflexivity |]. split; [intros n [] |]. intros n _. now rewrite Hf.
Qed.

Lemma aborted_all_done (env : Env) (v : variant) (folder : string) (w w1 : World) :
  message_boxes (ui w1) = message_boxes (ui w) ->
  (forall n, In n (sheet_names v) -> complete env v folder n w1) ->
  aborted env v folder w w1.
Proof.
  intros Hb Hc. split; [assumption |]. exists (sheet_names v), [].
  split; [now rewrite app_nil_r |]. split; [assumption | intros n []].
Qed.

Lemma run_export_body_steps (env : Env) (server database folder : string) (w : World) :
  run_export_body env server database folder w
  = (emit (SetStatus "Connecting to target database…") ;;
     check (env_connect env
              (connection_string "ODBC Driver 18 for SQL Server" server database)) ;;
     check (env_makedirs env folder) ;;
     for_each (fun s : string * M unit => snd s) (automap_steps env folder) ;;
     check (env_close env) ;;
     emit (SetStatus "Completed") ;;
     emit (ShowInfo "Success" "Production export completed.")) w.
Proof.
  unfold run_export_body, automap_steps, export_merged. cbn [for_each snd].
  unfold bind.
  repeat match goal with
         | |- context [match ?m ?x with pair _ _ => _ end] =>
             destruct (m x) as [[? | ?] ?]; try reflexivity
         end.
Qed.

Section Aborted.

Variable env : Env.
Variables server database folder : string.

Lemma automap_steps_ok : Forall (sheet_step env Automap folder) (automap_steps env folder).
Proof.
  unfold automap_steps. repeat apply List.Forall_cons; try apply List.Forall_nil.
  - now apply export_sheet_step.
  - now apply export_sheet_step.
  - now apply export_sheet_step.
  - apply export_merged_sheet_step.
Qed.

Lemma run_export_body_aborted (w w1 : World) (e : exn) :
  run_export_body env server database folder w = (inl e, w1) ->
  aborted env Automap folder w w1.
Proof.
  rewrite run_export_body_steps. intros H.
  apply bind_inv in H. destruct H as [[e0 [H _]] | [u0 [w0 [H0 H]]]].
  { apply quiet_emit in H; [| reflexivity]. destruct H. now apply aborted_untouched. }
  apply quiet_emit in H0; [| reflexivity]. destruct H0 as [B0 F0].
  apply bind_inv in H. destruct H as [[e2 [H _]] | [u2 [w2 [H2 H]]]].
  { apply quiet_check in H. destruct H as [B F].
    apply aborted_untouched; congruence. }
  apply quiet_check in H2. destruct H2 as [B2 F2].
  apply bind_inv in H. destruct H as [[e3 [H _]] | [u3 [w3 [H3 H]]]].
  { apply quiet_check in H. destruct H as [B F].
    apply aborted_untouched; congruence. }
  apply quiet_check in H3. destruct H3 as [B3 F3].
  assert (Hnd : List.NoDup (map (fun s : string * M unit => xlsx_path folder (fst s))
                                (automap_steps env folder)))
    by apply (sheet_paths_NoDup folder Automap).
  apply bind_inv in H. destruct H as [[e4 [H _]] | [u4 [w4 [H4 H]]]].
  { destruct (steps_run env Automap folder _ Hnd automap_steps_ok _ _ _ H)
      as [B [_ [done [rest [E [Hd Ht]]]]]].
    split; [congruence |]. exists done, rest. split; [exact E |].
    split; [exact Hd |]. intros n Hn. rewrite (Ht n Hn). congruence. }
  destruct (steps_run env Automap folder _ Hnd automap_steps_ok _ _ _ H4)
    as [B4 [_ Hall]].
  apply bind_inv in H. destruct H as [[e5 [H _]] | [u5 [w5 [H5 H]]]].
  { apply quiet_check in H. destruct H as [B F].
    apply aborted_all_done; [congruence |].
    intros n Hn. eapply complete_kept; [| apply Hall; exact Hn]. now rewrite F. }
  apply bind_inv in H. destruct H as [[e6 [H _]] | [u6 [w6 [H6 H]]]];
    discriminate.
Qed.

Lemma run_production_export_body_aborted (v : variant) (w w1 : World) (e : exn) :
  v <> Automap ->
  run_production_export_body env v server database folder w = (inl e, w1) ->
  aborted env v folder w w1.
Proof.
  intros Hv H. unfold run_production_export_body in H.
  apply bind_inv in H. destruct H as [[e1 [H _]] | [u1 [w1' [H1 H]]]].
  { apply quiet_check in H. destruct H. now apply aborted_untouched. }
  apply quiet_check in H1. destruct H1 as [B1 F1].
  apply bind_inv in H. destruct H as [[e2 [H _]] | [u2 [w2 [H2 H]]]].
  { assert (Hq : message_boxes (ui w1) = message_boxes (ui w1') /\ files w1 = files w1').
    { destruct v; [congruence | apply quiet_check in H; exact H |].
      destruct (env_exists env folder);
        [apply quiet_ret in H | apply quiet_check in H]; exact H. }
    destruct Hq. apply aborted_untouched; congruence. }
  assert (Hq : message_boxes (ui w2) = message_boxes (ui w1') /\ files w2 = files w1').
  { destruct v; [congruence | apply quiet_check in H2; exact H2 |].
    destruct (env_exists env folder);
      [apply quiet_ret in H2 | apply quiet_check in H2]; exact H2. }
  destruct Hq as [B2 F2].
  apply bind_inv in H. destruct H as [[e3 [H _]] | [tables [w3 [H3 H]]]].
  { apply read_workbooks_inv in H. destruct H as [-> _].
    apply aborted_untouched; congruence. }
  pose proof (read_workbooks_names _ _ _ _ _ H3) as Hnames.
  apply read_workbooks_inv in H3. destruct H3 as [-> Htables].
  rewrite (for_each_named (write_sheet env v folder) fst tables) in H.
  set (steps := map (fun s : string * DataFrame => (fst s, write_sheet env v folder s))
                    tables) in H.
  assert (Hfst : map fst steps = sheet_names v).
  { unfold steps. rewrite map_map. cbn [fst]. exact Hnames. }
  assert (Hnd : List.NoDup (map (fun s : string * M unit => xlsx_path folder (fst s))
                                steps)).
  { rewrite <- (map_map fst (xlsx_path folder)). rewrite Hfst.
    apply sheet_paths_NoDup. }
  assert (Hok : Forall (sheet_step env v folder) steps).
  { apply List.Forall_forall. intros s Hs. unfold steps in Hs.
    apply in_map_iff in Hs. destruct Hs as [t [<- Ht]].
    apply (write_sheet_step env folder v t Hv).
    unfold sheet_table. destruct v; [congruence | |];
      rewrite Htables; cbn [bind_exn]; apply lookup_table_In; try assumption;
      rewrite Hnames; apply sheet_names_NoDup. }
  apply bind_inv in H. destruct H as [[e4 [H _]] | [u4 [w4 [H4 H]]]].
  { destruct (steps_run env v folder _ Hnd Hok _ _ _ H)
      as [B [_ [done [rest [E [Hd Ht]]]]]].
    split; [congruence |]. exists done, rest. split; [now rewrite <- Hfst |].
    split; [exact Hd |]. intros n Hn. rewrite (Ht n Hn). congruence. }
  destruct (steps_run env v folder _ Hnd Hok _ _ _ H4) as [B4 [_ Hall]].
  apply bind_inv in H. destruct H as [[e5 [H _]] | [u5 [w5 [H5 H]]]].
  { apply quiet_check in H. destruct H as [B F].
    apply aborted_all_done; [congruence |].
    intros n Hn. eapply complete_kept; [| apply Hall; now rewrite Hfst].
    now rewrite F. }
  discriminate.
Qed.

End Aborted.

(** C8.  When the body of the export raises, the function returns with the
    files as the failing statement left them and with exactly one more
    message box, an error box whose text is the text of the exception; the
    sheets before the failing one are complete on disk and the sheets after
    it have not been touched. *)
Theorem export_failure_policy (env : Env) (v : variant)
        (server database folder : string) (w w1 : World) (e : exn) :
  export_body env v server database folder w = (inl e, w1) ->
  files (run_pipeline env v server database folder w) = files w1
  /\ message_boxes (ui (run_pipeline env v server database folder w))
     = message_boxes (ui w) ++ [ShowError "Error" e]
  /\ exists done rest,
      sheet_names v = done ++ rest
      /\ (forall n, In n done ->
                    complete env v folder n (run_pipeline env v server database folder w))
      /\ (forall n, In n (tl rest) ->
                    files (run_pipeline env v server database folder w)
                      !! xlsx_path folder n
                    = files w !! xlsx_path folder n).
Proof.
  intros H.
  assert (Ha : aborted env v folder w w1).
  { destruct v; cbn [export_body] in H.
    - eapply run_export_body_aborted; eassumption.
    - eapply run_production_export_body_aborted; [discriminate | eassumption].
    - eapply run_production_export_body_aborted; [discriminate | eassumption]. }
  destruct Ha as [Hb [done [rest [E [Hd Ht]]]]].
  assert (Hf : files (run_pipeline env v server database folder w) = files w1).
  { destruct v; cbn [export_body run_pipeline] in *;
      unfold run_export, run_production_export; rewrite H; reflexivity. }
  split; [exact Hf |]. split.
  - destruct v; cbn [export_body run_pipeline] in *;
      unfold run_export, run_production_export; rewrite H;
      unfold bind, emit; cbn [snd ui]; unfold message_boxes;
      rewrite !List.filter_app; cbn [List.filter is_message_box];
      rewrite ?app_nil_r; fold (message_boxes (ui w1)); now rewrite Hb.
  - exists done, rest. split; [exact E |]. split.
    + intros n Hn. eapply complete_kept; [| apply Hd; exact Hn]. now rewrite Hf.
    + intros n Hn. rewrite Hf. now apply Ht.
Qed.

(** C8, on a disk that refuses the third sheet of [run_export]. *)
Lemma export_failure_policy_witness :
  files (run_pipeline ex_env_disk_full Automap "srv" "db" "out" empty_world)
  = files ex_aborted_world
  /\ message_boxes (ui (run_pipeline ex_env_disk_full Automap "srv" "db" "out"
                                     empty_world))
     = message_boxes (ui empty_world)
       ++ [ShowError "Error" "OSError: [Errno 28] No space left on device"]
  /\ exists done rest,
      sheet_names Automap = done ++ rest
      /\ (forall n, In n done ->
                    complete ex_env_disk_full Automap "out" n
                      (run_pipeline ex_env_disk_full Automap "srv" "db" "out"
                                    empty_world))
      /\ (forall n, In n (tl rest) ->
                    files (run_pipeline ex_env_disk_full Automap "srv" "db" "out"
                                        empty_world)
                      !! xlsx_path "out" n
                    = files empty_world !! xlsx_path "out" n).
Proof.
  apply (export_failure_policy ex_env_disk_full Automap "srv" "db" "out"
           empty_world ex_aborted_world
           "OSError: [Errno 28] No space left on device").
  vm_compute. reflexivity.
Defined.

(** The run of the witness, spelled out: the first two sheets are on disk,
    the last two are not, and the one message box names the failure. *)
Lemma disk_full_run :
  let w := run_export ex_env_disk_full "srv" "db" "out" empty_world in
  files w !! "out/1-Loans.xlsx" <> None
  /\ files w !! "out/2-Co-Borrowers.xlsx" <> None
  /\ files w !! "out/3-Fundings.xlsx" = None
  /\ files w !! "out/4-Properties_&_Insurance.xlsx" = None
  /\ message_boxes (ui w)
     = [ShowError "Error" "OSError: [Errno 28] No space left on device"].
Proof.
  vm_compute. repeat split; discriminate.
Qed.

(** ** An export that runs to its end *)

Section Finished.

Variable env : Env.
Variables server database folder : string.

Lemma run_export_body_done (w w' : World) (u : unit) :
  run_export_body env server database folder w = (inr u, w') ->
  forall n, In n (sheet_names Automap) -> complete env Automap folder n w'.
Proof.
  rewrite run_export_body_steps. intros H.
  step_as H u0 Hemit. step_as H u1 Hconnect. step_as H u2 Hmakedirs.
  step_as H u3 Hsteps. step_as H u4 Hclose. step_as H u5 Hstatus.
  assert (Hnd : List.NoDup (map (fun s : string * M unit => xlsx_path folder (fst s))
                                (automap_steps env folder)))
    by apply (sheet_paths_NoDup folder Automap).
  destruct (steps_run env Automap folder _ Hnd (automap_steps_ok env folder) _ _ _ Hsteps)
    as [_ [_ Hall]].
  apply quiet_check in Hclose. destruct Hclose as [_ F1].
  apply emit_inv in Hstatus. apply emit_inv in H.
  intros n Hn. eapply complete_kept; [| apply Hall; exact Hn]. congruence.
Qed.

Lemma run_production_export_body_done (v : variant) (w w' : World) (u : unit) :
  v <> Automap ->
  run_production_export_body env v server database folder w = (inr u, w') ->
  forall n, In n (sheet_names v) -> complete env v folder n w'.
Proof.
  intros Hv H. unfold run_production_export_body in H.
  step_as H u1 Hconnect. step_as H u2 Hmakedirs. step_as H tables Hread.
  pose proof (read_workbooks_names _ _ _ _ _ Hread) as Hnames.
  apply read_workbooks_inv in Hread. destruct Hread as [-> Htables].
  rewrite (for_each_named (write_sheet env v folder) fst tables) in H.
  set (steps := map (fun s : string * DataFrame => (fst s, write_sheet env v folder s))
                    tables) in H.
  assert (Hfst : map fst steps = sheet_names v).
  { unfold steps. rewrite map_map. cbn [fst]. exact Hnames. }
  assert (Hnd : List.NoDup (map (fun s : string * M unit => xlsx_path folder (fst s))
                                steps)).
  { rewrite <- (map_map fst (xlsx_path folder)). rewrite Hfst.
    apply sheet_paths_NoDup. }
  assert (Hok : Forall (sheet_step env v folder) steps).
  { apply List.Forall_forall. intros s Hs. unfold steps in Hs.
    apply in_map_iff in Hs. destruct Hs as [t [<- Ht]].
    apply (write_sheet_step env folder v t Hv).
    unfold sheet_table. destruct v; [congruence | |];
      rewrite Htables; cbn [bind_exn]; apply lookup_table_In; try assumption;
      rewrite Hnames; apply sheet_names_NoDup. }
  step_as H u3 Hsteps. step_as H u4 Hclose.
  destruct (steps_run env v folder _ Hnd Hok _ _ _ Hsteps) as [_ [_ Hall]].
  apply quiet_check in Hclose. destruct Hclose as [_ F1].
  apply emit_inv in H.
  intros n Hn. eapply complete_kept; [| apply Hall; now rewrite Hfst]. congruence.
Qed.

End Finished.

(** ** Comments on the header cells *)

Lemma annotate_comments (key : Cell -> string) (author : string)
      (size : option (nat * nat)) (defs : gmap string string) (wb : Workbook)
      (cell : Cell) (d : string) :
  (forall c x, key (mkCell (cell_value c) x) = key c) ->
  In cell (wb_header (annotate key author size defs wb)) ->
  defs !! key cell = Some d ->
  cell_comment cell = Some (mkComment d author size).
Proof.
  intros Hkey Hin Hd. unfold annotate in Hin. cbn [wb_header] in Hin.
  apply in_map_iff in Hin. destruct Hin as [c [Hc _]].
  destruct (defs !! key c) as [d' |] eqn:E.
  - subst cell. rewrite Hkey, E in Hd. injection Hd as ->. reflexivity.
  - subst cell. congruence.
Qed.

(** In [Notes2] and [Notes] every header cell of a finished sheet whose
    text, without the entity labels, names a scraped field carries the
    scraped description as its comment. *)
Lemma production_sheet_annotated (env : Env) (v : variant) (name : string)
      (df : DataFrame) (cell : Cell) (d : string) :
  v <> Automap ->
  In cell (wb_header (finished_sheet env v name df)) ->
  sheet_definitions env name !! stripped_key cell = Some d ->
  cell_comment cell
  = Some (mkComment d "TMO Reference"
                    match v with Notes => Some (400, 200) | _ => None end).
Proof.
  intros Hv Hin Hd. unfold sheet_definitions in Hd.
  assert (Hfin : finished_sheet env v name df
                 = match MAPPING_LINKS name with
                   | Some url =>
                       if String.eqb url EmptyString then sheet_of df
                       else annotate stripped_key "TMO Reference"
                                     match v with Notes => Some (400, 200) | _ => None end
                                     (get_field_definitions (env_fetch env) (Some url))
                                     (sheet_of df)
                   | None => sheet_of df
                   end)
    by (destruct v; [congruence | reflexivity | reflexivity]).
  rewrite Hfin in Hin.
  destruct (MAPPING_LINKS name) as [url |]; [| discriminate Hd].
  destruct (String.eqb url EmptyString) eqn:E.
  - unfold get_field_definitions in Hd. rewrite E in Hd. discriminate Hd.
  - eapply annotate_comments; [| exact Hin | exact Hd]. reflexivity.
Qed.

(** In [Automap] the sheets written by [export] carry the comments on the
    cells whose text names a scraped field. *)
Lemma automap_sheet_annotated (env : Env) (name : string) (df : DataFrame)
      (cell : Cell) (d : string) :
  String.eqb name "4-Properties_&_Insurance" = false ->
  In cell (wb_header (finished_sheet env Automap name df)) ->
  sheet_definitions env name !! plain_key cell = Some d ->
  cell_comment cell = Some (mkComment d "TMO" None).
Proof.
  intros Hn Hin Hd. unfold finished_sheet in Hin. rewrite Hn in Hin.
  eapply annotate_comments; [| exact Hin | exact Hd]. reflexivity.
Qed.

(** In [Notes2] and [Notes] an export that runs to its end leaves every
    sheet with the scraped description on each header cell whose text,
    without the entity labels, names a scraped field. *)
Lemma production_run_annotated (env : Env) (v : variant)
      (server database folder : string) (w w' : World) (u : unit) (n : string) :
  v <> Automap ->
  run_production_export_body env v server database folder w = (inr u, w') ->
  In n (sheet_names v) ->
  exists wb,
    files w' !! xlsx_path folder n = Some wb
    /\ forall cell d,
         In cell (wb_header wb) ->
         sheet_definitions env n !! stripped_key cell = Some d ->
         cell_comment cell
         = Some (mkComment d "TMO Reference"
                           match v with Notes => Some (400, 200) | _ => None end).
Proof.
  intros Hv H Hn.
  destruct (run_production_export_body_done env server database folder v w w' u Hv H n Hn)
    as [df [_ Hf]].
  eexists. split; [exact Hf |].
  intros cell d Hin Hd. eapply production_sheet_annotated; eassumption.
Qed.

(** Whatever the data, the merged sheet of [Automap] has no comment at
    all. *)
Lemma automap_merged_sheet_bare (env : Env) (df : DataFrame) (cell : Cell) :
  In cell (wb_header (finished_sheet env Automap "4-Properties_&_Insurance" df)) ->
  cell_comment cell = None.
Proof.
  cbn. rewrite in_map_iff. intros [c [<- _]]. reflexivity.
Qed.

(** C6.  In [Automap] an export that runs to its end leaves the merged
    sheet as [to_excel] wrote it: none of its header cells has a comment,
    whatever the definitions scraped for the sheet describe. *)
Theorem automap_merged_sheet_not_annotated (env : Env)
        (server database folder : string) (w w' : World) (u : unit) :
  run_export_body env server database folder w = (inr u, w') ->
  exists wb,
    files (run_export env server database folder w)
      !! xlsx_path folder "4-Properties_&_Insurance" = Some wb
    /\ forall cell, In cell (wb_header wb) -> cell_comment cell = None.
Proof.
  intros H.
  destruct (run_export_body_done env server database folder w w' u H
              "4-Properties_&_Insurance") as [df [_ Hf]];
    [cbn; tauto |].
  unfold run_export. rewrite H.
  eexists. split; [exact Hf |].
  intros cell Hin. eapply automap_merged_sheet_bare. exact Hin.
Qed.

(** C6, on the sample data: the header cell "Account" of the merged sheet
    has no comment although the definitions scraped for the sheet describe
    "Account". *)
Lemma automap_merged_sheet_not_annotated_witness :
  exists wb,
    files (run_export ex_env "srv" "db" "out" empty_world)
      !! xlsx_path "out" "4-Properties_&_Insurance" = Some wb
    /\ forall cell, In cell (wb_header wb) -> cell_comment cell = None.
Proof.
  apply (automap_merged_sheet_not_annotated ex_env "srv" "db" "out" empty_world
           (snd (run_export_body ex_env "srv" "db" "out" empty_world)) tt).
  vm_compute. reflexivity.
Defined.

Lemma automap_merged_sheet_has_described_header :
  exists wb,
    files (run_export ex_env "srv" "db" "out" empty_world)
      !! xlsx_path "out" "4-Properties_&_Insurance" = Some wb
    /\ In (mkCell "Account" None) (wb_header wb)
    /\ sheet_definitions ex_env "4-Properties_&_Insurance"
         !! stripped_key (mkCell "Account" None)
       = Some ("The loan account number" +:+ newline +:+ "shown on statements").
Proof.
  eexists. split; [vm_compute; reflexivity |].
  split; [cbn; tauto | vm_compute; reflexivity].
Qed.

(** ** Columns the cleaner drops and keeps *)

Lemma drop_omissions_data (v : variant) (om : list string) (df : DataFrame) :
  drop_omissions v om df
  = mkDataFrame (List.filter (fun c : Column => negb (mem (fst c) om)) (df_data df))
                (df_nrows df).
Proof.
  assert (E : forall c : Column, In c (df_data df) ->
                negb (mem (fst c) (List.filter (fun l => mem l (columns df)) om))
                = negb (mem (fst c) om)
                /\ negb (mem (fst c) (List.filter (fun l => mem l om) (columns df)))
                   = negb (mem (fst c) om)).
  { intros c Hc.
    assert (Hl : In (fst c) (columns df)) by (unfold columns; now apply in_map).
    split; f_equal; apply eq_true_iff_eq; rewrite !mem_In, filter_In, mem_In; tauto. }
  destruct v; unfold drop_omissions, drop; f_equal; apply filter_ext_in;
    intros c Hc; now apply E.
Qed.

Lemma invalid_automap_notes2 (x : value) :
  existsb (py_eq x) (invalid Automap) = existsb (py_eq x) (invalid Notes2).
Proof.
  destruct x as [| b | z | m e | s | t]; cbn; try reflexivity.
  all: now destruct (num_eqb _ _).
Qed.

Lemma all_invalid_automap_notes2 (vs : list value) :
  all_invalid Automap vs = all_invalid Notes2 vs.
Proof.
  unfold all_invalid. induction vs as [| x vs IH]; cbn [forallb]; [reflexivity |].
  now rewrite IH, invalid_automap_notes2.
Qed.

Lemma all_invalid_notes2_notes (vs : list value) :
  all_invalid Notes2 vs = true -> all_invalid Notes vs = true.
Proof.
  unfold all_invalid. rewrite !forallb_forall. intros H x Hx.
  specialize (H x Hx). rewrite existsb_exists in *.
  destruct H as [y [Hy E]]. exists y. split; [| assumption].
  simpl in Hy |- *. tauto.
Qed.

Lemma clean_columns_kept to_datetime (v : variant) (df : DataFrame) (om : list string) :
  columns (clean_and_format_df to_datetime v df om) = columns (kept v om df).
Proof.
  rewrite clean_data. unfold columns. cbn [df_data]. rewrite map_map.
  apply map_ext. intros c. apply format_col_label.
Qed.

Section CleanerColumns.

Variable to_datetime : list value -> exn + list (option Timestamp).

(** X1.  No label of the omission list is a label of the cleaned table. *)
Theorem omitted_columns_absent (v : variant) (df : DataFrame) (om : list string) :
  Forall (fun c => ~ In c om) (columns (clean_and_format_df to_datetime v df om)).
Proof.
  apply List.Forall_forall. intros c Hc.
  now apply clean_label_facts in Hc.
Qed.

(** X2.  The omission list is used as a set: two lists with the same labels,
    in any order and with any repetition, give the same cleaned table. *)
Theorem omissions_as_a_set (v : variant) (df : DataFrame) (om om' : list string) :
  (forall c, In c om <-> In c om') ->
  clean_and_format_df to_datetime v df om = clean_and_format_df to_datetime v df om'.
Proof.
  intros H. unfold clean_and_format_df.
  replace (drop_omissions v om' (drop_recid df))
    with (drop_omissions v om (drop_recid df)); [reflexivity |].
  rewrite !drop_omissions_data. f_equal. apply filter_ext. intros c.
  f_equal. apply eq_true_iff_eq. rewrite !mem_In. apply H.
Qed.

(** X3.  A column read as a series stays in the cleaned table when its label
    has no "recid", is not omitted and one of its cells is valid; unless it
    is date-like its cells are the cells of the input. *)
Theorem valid_column_survives (v : variant) (df : DataFrame) (om : list string)
        (col : string) (vs : list value) :
  getitem df col = inr vs ->
  contains "recid" (lower col) = false ->
  ~ In col om ->
  all_invalid v vs = false ->
  In col (columns (clean_and_format_df to_datetime v df om))
  /\ (date_like v df col = false ->
      getitem (clean_and_format_df to_datetime v df om) col = inr vs).
Proof.
  intros G Hr Ho Hi.
  pose proof (getitem_kept v om df col vs G Hr Ho Hi) as K.
  pose proof (getitem_clean to_datetime v om df col vs K) as C.
  split.
  - apply mem_In. eapply getitem_mem. exact C.
  - intros D. rewrite C. unfold format_col. cbn [fst snd].
    rewrite (date_like_getitem v df (kept v om df) col) by congruence.
    now rewrite D.
Qed.


(** X5.  [Automap] and [Notes2] drop the same columns: the literal [0.0]
    that only [Notes2] lists equals [0], and the two ways of writing the
    drop of the omitted labels agree.  [Notes], which also lists the text
    "None", keeps no column the other two drop. *)
Theorem variants_drop_alike (df : DataFrame) (om : list string) :
  kept Automap om df = kept Notes2 om df
  /\ columns (clean_and_format_df to_datetime Automap df om)
     = columns (clean_and_format_df to_datetime Notes2 df om)
  /\ forall c, In c (columns (clean_and_format_df to_datetime Notes df om)) ->
               In c (columns (clean_and_format_df to_datetime Notes2 df om)).
Proof.
  assert (K : kept Automap om df = kept Notes2 om df).
  { unfold kept. rewrite !drop_invalid_eq, !drop_omissions_data. f_equal.
    apply filter_ext. intros c. now rewrite all_invalid_automap_notes2. }
  split; [exact K |]. split.
  - now rewrite !clean_columns_kept, K.
  - intros c. rewrite !clean_columns_kept. unfold columns, kept.
    rewrite !drop_invalid_data, !drop_omissions_data. cbn [df_data].
    rewrite !in_map_iff. intros [x [Hx Hin]]. exists x. split; [assumption |].
    apply filter_In in Hin. apply filter_In. destruct Hin as [Hin Hv].
    split; [assumption |].
    destruct (all_invalid Notes2 (snd x)) eqn:A; [| reflexivity].
    apply all_invalid_notes2_notes in A. now rewrite A in Hv.
Qed.

End CleanerColumns.

Lemma omissions_as_a_set_witness :
  (forall c, In c ["SortName"; "Account"] <-> In c ["Account"; "SortName"; "Account"])
  /\ clean_and_format_df simple_to_datetime Automap ex_loans ["SortName"; "Account"]
     = clean_and_format_df simple_to_datetime Automap ex_loans
         ["Account"; "SortName"; "Account"].
Proof.
  assert (H : forall c, In c ["SortName"; "Account"]
                        <-> In c ["Account"; "SortName"; "Account"])
    by (intros c; simpl; tauto).
  split; [exact H |].
  exact (omissions_as_a_set simple_to_datetime Automap ex_loans _ _ H).
Defined.

Lemma valid_column_survives_witness :
  In "Name" (columns (clean_and_format_df simple_to_datetime Notes ex_dates OMISSIONS))
  /\ (date_like Notes ex_dates "Name" = false ->
      getitem (clean_and_format_df simple_to_datetime Notes ex_dates OMISSIONS) "Name"
      = inr [VStr "a"; VStr "b"; VStr "c"]).
Proof.
  apply (valid_column_survives simple_to_datetime Notes ex_dates OMISSIONS "Name").
  - reflexivity.
  - reflexivity.
  - apply mem_not_In. reflexivity.
  - reflexivity.
Defined.


(** ** Rendered dates *)

Lemma slash_text_valid (v : variant) (s : string) :
  free_of "/" s = false -> existsb (py_eq (VStr s)) (invalid v) = false.
Proof.
  intros F.
  assert (E : forall x, free_of "/" x = true -> String.eqb s x = false).
  { intros x Hx. destruct (String.eqb s x) eqn:E; [| reflexivity].
    apply String.eqb_eq in E. subst x. congruence. }
  destruct v; cbn; rewrite !E by reflexivity; reflexivity.
Qed.

Lemma strftime_has_slash (t : Timestamp) :
  free_of "/" (strftime_padded t) = false /\ free_of "/" (strftime_plain t) = false.
Proof.
  unfold strftime_padded, strftime_plain. split; rewrite free_of_app;
    apply andb_false_r.
Qed.

Lemma render_cell_date_valid (v : variant) (t : Timestamp) :
  existsb (py_eq (render_cell v (Some t))) (invalid v) = false.
Proof.
  destruct (strftime_has_slash t) as [Hp Hq].
  assert (N : String.eqb (strftime_plain t) "NaT" = false).
  { destruct (String.eqb (strftime_plain t) "NaT") eqn:E; [| reflexivity].
    apply String.eqb_eq in E. rewrite E in Hq. discriminate. }
  destruct v; unfold render_cell; rewrite ?N; now apply slash_text_valid.
Qed.

Section Converted.

Variable to_datetime : list value -> exn + list (option Timestamp).

(** X6.  A date-like column that [pd.to_datetime] converts comes out as the
    rendering of the dates; if one cell was read as a date, the rendered
    column holds a valid value, so that cleaning the table again keeps it. *)
Theorem converted_column_is_rendered (v : variant) (df : DataFrame)
        (om : list string) (col : string) (vs : list value)
        (ts : list (option Timestamp)) (t : Timestamp) :
  getitem df col = inr vs ->
  contains "recid" (lower col) = false ->
  ~ In col om ->
  all_invalid v vs = false ->
  date_like v df col = true ->
  to_datetime vs = inr ts ->
  In (Some t) ts ->
  getitem (clean_and_format_df to_datetime v df om) col = inr (render v ts)
  /\ all_invalid v (render v ts) = false.
Proof.
  intros G Hr Ho Hi D E Hin.
  pose proof (getitem_kept v om df col vs G Hr Ho Hi) as K.
  split.
  - rewrite (getitem_clean to_datetime v om df col vs K).
    unfold format_col. cbn [fst snd].
    rewrite (date_like_getitem v df (kept v om df) col) by congruence.
    now rewrite D, K, E.
  - rewrite render_cells. unfold all_invalid.
    destruct (forallb _ (map (render_cell v) ts)) eqn:A; [| reflexivity].
    rewrite forallb_forall in A.
    specialize (A (render_cell v (Some t)) (in_map _ _ _ Hin)).
    now rewrite render_cell_date_valid in A.
Qed.

End Converted.

Lemma converted_column_is_rendered_witness :
  getitem (clean_and_format_df simple_to_datetime Notes2 ex_dates OMISSIONS) "CloseDate"
  = inr (render Notes2 [Some (mkTimestamp 2024 1 5 0); None; None])
  /\ all_invalid Notes2 (render Notes2 [Some (mkTimestamp 2024 1 5 0); None; None])
     = false.
Proof.
  apply (converted_column_is_rendered simple_to_datetime Notes2 ex_dates OMISSIONS
           "CloseDate" [VStr "2024-01-05"; VStr "not-a-date"; VNone]
           [Some (mkTimestamp 2024 1 5 0); None; None] (mkTimestamp 2024 1 5 0)).
  - reflexivity.
  - reflexivity.
  - apply mem_not_In. reflexivity.
  - reflexivity.
  - reflexivity.
  - reflexivity.
  - simpl. auto.
Defined.

(** ** The rows the scraper reads *)

Lemma scrape_row_lookup_other (defs : gmap string string) (cells : list node)
      (k : string) :
  (forall key desc more, cells = key :: desc :: more -> get_text_strip key <> k) ->
  scrape_row defs cells !! k = defs !! k.
Proof.
  intros H. destruct cells as [| key [| desc more]]; try reflexivity.
  simpl. apply lookup_insert_ne. now apply (H key desc more).
Qed.

Lemma scrape_rows_lookup_other (rows : list (list node)) (defs : gmap string string)
      (k : string) :
  (forall key desc more, In (key :: desc :: more) rows -> get_text_strip key <> k) ->
  fold_left scrape_row rows defs !! k = defs !! k.
Proof.
  revert defs. induction rows as [| cells rows IH]; intros defs H; [reflexivity |].
  simpl. rewrite IH by (intros key desc more Hin; apply (H key desc more); now right).
  apply scrape_row_lookup_other. intros key desc more ->.
  apply (H key desc more). now left.
Qed.

Lemma scrape_rows_lookup_some (rows : list (list node)) (defs : gmap string string)
      (k d : string) :
  fold_left scrape_row rows defs !! k = Some d ->
  defs !! k = Some d
  \/ exists key desc more,
       In (key :: desc :: more) rows /\ k = get_text_strip key /\ d = description desc.
Proof.
  revert defs. induction rows as [| cells rows IH]; intros defs H; [now left |].
  simpl in H. apply IH in H. destruct H as [H | [key [desc [more [Hin E]]]]].
  - destruct cells as [| key [| desc more]]; try (now left).
    simpl in H. destruct (decide (get_text_strip key = k)) as [<- | N].
    + rewrite lookup_insert_eq in H. right. exists key, desc, more.
      split; [now left |]. split; [reflexivity | congruence].
    + rewrite lookup_insert_ne in H by assumption. now left.
  - right. exists key, desc, more. split; [now right | assumption].
Qed.

(** X7.  When the same key stands in several rows of the page, the
    description of the last of them is the one kept. *)
Theorem scraper_last_row_wins (fetch : string -> exn + list (list node))
        (u : string) (rows1 rows2 : list (list node)) (key desc : node)
        (more : list node) :
  u <> EmptyString ->
  fetch u = inr (rows1 ++ (key :: desc :: more) :: rows2) ->
  (forall k d m, In (k :: d :: m) rows2 -> get_text_strip k <> get_text_strip key) ->
  get_field_definitions fetch (Some u) !! get_text_strip key = Some (description desc).
Proof.
  intros Hu Hf Hlast. unfold get_field_definitions, try_scrape.
  destruct (String.eqb u EmptyString) eqn:E; [now apply String.eqb_eq in E |].
  rewrite Hf. cbn [snd]. rewrite fold_left_app. cbn [fold_left].
  rewrite scrape_rows_lookup_other by assumption.
  simpl. apply lookup_insert_eq.
Qed.

(** X8.  Every definition comes from a row of the fetched page that has at
    least two cells: its key is the stripped text of the first cell and its
    text the description of the second.  Rows with fewer cells give
    nothing. *)
Theorem scraped_definitions_come_from_rows (fetch : string -> exn + list (list node))
        (url : option string) (k d : string) :
  get_field_definitions fetch url !! k = Some d ->
  exists u rows key desc more,
    url = Some u /\ fetch u = inr rows /\ In (key :: desc :: more) rows
    /\ k = get_text_strip key /\ d = description desc.
Proof.
  unfold get_field_definitions, try_scrape. intros H.
  destruct url as [u |]; [| now rewrite lookup_empty in H].
  destruct (String.eqb u EmptyString); [now rewrite lookup_empty in H |].
  destruct (fetch u) as [e | rows] eqn:F; cbn [snd] in H;
    [now rewrite lookup_empty in H |].
  apply scrape_rows_lookup_some in H.
  destruct H as [H | [key [desc [more [Hin [-> ->]]]]]];
    [now rewrite lookup_empty in H |].
  exists u, rows, key, desc, more. auto.
Qed.

Lemma scraper_last_row_wins_witness :
  get_field_definitions
    (fun _ => inr ([[Elem "td" [Text "Account"]; Elem "td" [Text "first"]]]
                   ++ [Elem "td" [Text " Account "]; Elem "td" [Text "second"]]
                      :: [[Elem "td" [Text "Street"]; Elem "td" [Text "third"]];
                          [Elem "td" [Text "Account"]]]))
    (Some "https://help.example/fields")
    !! get_text_strip (Elem "td" [Text " Account "])
  = Some (description (Elem "td" [Text "second"])).
Proof.
  apply (scraper_last_row_wins _ "https://help.example/fields"
           [[Elem "td" [Text "Account"]; Elem "td" [Text "first"]]]
           [[Elem "td" [Text "Street"]; Elem "td" [Text "third"]];
            [Elem "td" [Text "Account"]]]
           (Elem "td" [Text " Account "]) (Elem "td" [Text "second"]) []).
  - discriminate.
  - reflexivity.
  - intros k d m [H | [H | []]]; [| discriminate].
    injection H as <- _ _. vm_compute. discriminate.
Defined.

Lemma scraped_definitions_come_from_rows_witness :
  exists u rows key desc more,
    Some "https://help.example/fields" = Some u
    /\ (fun _ : string => @inr exn _ ex_page) u = inr rows
    /\ In (key :: desc :: more) rows
    /\ "Street" = get_text_strip key /\ "Street address" = description desc.
Proof.
  apply (scraped_definitions_come_from_rows (fun _ => inr ex_page)
           (Some "https://help.example/fields") "Street" "Street address").
  vm_compute. reflexivity.
Defined.

(** ** The lines of a description *)

Lemma list_ascii_of_append (a b : string) :
  list_ascii_of_string (a +:+ b) = list_ascii_of_string a ++ list_ascii_of_string b.
Proof.
  induction a as [| c a IH]; [reflexivity |].
  change (c :: (list_ascii_of_string (a +:+ b))
          = c :: (list_ascii_of_string a ++ list_ascii_of_string b)).
  now rewrite IH.
Qed.

Lemma append_empty_r (s : string) : s +:+ EmptyString = s.
Proof.
  induction s as [| c s IH]; [reflexivity |].
  change (String c (s +:+ EmptyString) = String c s). now rewrite IH.
Qed.

Lemma lstrip_starts_clean (s : list ascii) : starts_clean (lstrip_list s) = true.
Proof.
  induction s as [| a s IH]; simpl; [reflexivity |].
  destruct (is_space a) eqn:E; [assumption | simpl; now rewrite E].
Qed.

Lemma lstrip_fixed (s : list ascii) : starts_clean s = true -> lstrip_list s = s.
Proof.
  destruct s as [| a s]; simpl; [reflexivity |].
  now destruct (is_space a).
Qed.

Lemma lstrip_suffix (s : list ascii) : exists pre, s = pre ++ lstrip_list s.
Proof.
  induction s as [| a s [pre IH]]; simpl; [now exists [] |].
  destruct (is_space a).
  - exists (a :: pre). simpl. now rewrite <- IH.
  - now exists [].
Qed.

Lemma starts_clean_app (a b : list ascii) :
  a <> [] -> starts_clean (a ++ b) = starts_clean a.
Proof.
  destruct a; [congruence | reflexivity].
Qed.

Lemma strip_list_clean (s : list ascii) :
  starts_clean (strip_list s) = true /\ starts_clean (rev (strip_list s)) = true.
Proof.
  unfold strip_list. rewrite rev_involutive. split; [| apply lstrip_starts_clean].
  destruct (lstrip_suffix (rev (lstrip_list s))) as [pre E].
  set (R := lstrip_list (rev (lstrip_list s))) in *.
  destruct R as [| r R'] eqn:ER; [reflexivity |].
  assert (E' : lstrip_list s = rev (r :: R') ++ rev pre).
  { rewrite <- rev_app_distr, <- E. now rewrite rev_involutive. }
  rewrite <- (starts_clean_app (rev (r :: R')) (rev pre)).
  - rewrite <- E'. apply lstrip_starts_clean.
  - simpl. now destruct (rev R').
Qed.

Lemma strip_list_fixed (s : list ascii) :
  starts_clean s = true -> starts_clean (rev s) = true -> strip_list s = s.
Proof.
  intros H1 H2. unfold strip_list.
  rewrite (lstrip_fixed s H1), (lstrip_fixed (rev s) H2). apply rev_involutive.
Qed.

Lemma strip_as_list (s : string) :
  strip s = string_of_list_ascii (strip_list (list_ascii_of_string s)).
Proof. reflexivity. Qed.

Lemma one_line_incl (a b : list ascii) :
  incl a b -> one_line b = true -> one_line a = true.
Proof.
  unfold one_line. rewrite !forallb_forall. intros I H x Hx. apply H. now apply I.
Qed.

Lemma lstrip_incl (s : list ascii) : incl (lstrip_list s) s.
Proof.
  destruct (lstrip_suffix s) as [pre E]. intros x Hx. rewrite E.
  apply in_or_app. now right.
Qed.

Lemma strip_list_incl (s : list ascii) : incl (strip_list s) s.
Proof.
  unfold strip_list. intros x Hx. apply in_rev in Hx.
  apply lstrip_incl in Hx. apply in_rev in Hx. now apply lstrip_incl in Hx.
Qed.

Lemma splitlines_one_line (n : nat) :
  forall cur s, length s <= n -> one_line cur = true ->
    Forall (fun l => one_line (list_ascii_of_string l) = true) (splitlines_list cur s).
Proof.
  induction n as [| n IH]; intros cur s Hn Hc.
  - destruct s; [| simpl in Hn; lia]. simpl. destruct cur; constructor; [| constructor].
    rewrite list_ascii_of_string_of_list_ascii.
    eapply one_line_incl; [| exact Hc]. intros x Hx. now apply in_rev.
  - destruct s as [| a s]; simpl.
    + destruct cur; constructor; [| constructor].
      rewrite list_ascii_of_string_of_list_ascii.
      eapply one_line_incl; [| exact Hc]. intros x Hx. now apply in_rev.
    + simpl in Hn. destruct (is_line_boundary a) eqn:B.
      * constructor.
        { rewrite list_ascii_of_string_of_list_ascii.
          eapply one_line_incl; [| exact Hc]. intros x Hx. now apply in_rev. }
        destruct s as [| b s']; [constructor |].
        destruct (_ && _); apply IH; simpl in *; try lia; reflexivity.
      * apply IH; [lia |]. simpl. now rewrite B.
Qed.

Lemma splitlines_one_line_each (s : string) :
  Forall (fun l => one_line (list_ascii_of_string l) = true) (splitlines s).
Proof.
  unfold splitlines. now apply (splitlines_one_line (length (list_ascii_of_string s))).
Qed.

Lemma stripped_lines_clean (ls : list string) :
  Forall (fun l => one_line (list_ascii_of_string l) = true) ls ->
  Forall clean_line
         (List.filter (fun l => negb (String.eqb l EmptyString)) (map strip ls)).
Proof.
  intros H. apply List.Forall_forall. intros l Hl.
  apply filter_In in Hl. destruct Hl as [Hin Hne].
  apply in_map_iff in Hin. destruct Hin as [l0 [<- Hin]].
  rewrite List.Forall_forall in H. specialize (H l0 Hin).
  split; [| split; [| split]].
  - intros E. rewrite E in Hne. discriminate.
  - rewrite strip_as_list, list_ascii_of_string_of_list_ascii.
    eapply one_line_incl; [apply strip_list_incl | exact H].
  - rewrite strip_as_list, list_ascii_of_string_of_list_ascii.
    apply strip_list_clean.
  - rewrite strip_as_list, list_ascii_of_string_of_list_ascii.
    apply strip_list_clean.
Qed.

Lemma splitlines_list_line (l cur rest : list ascii) :
  one_line l = true ->
  splitlines_list cur (l ++ rest) = splitlines_list (rev l ++ cur) rest.
Proof.
  revert cur. induction l as [| a l IH]; intros cur H; [reflexivity |].
  simpl in H. apply andb_true_iff in H. destruct H as [Ha Hl].
  simpl. destruct (is_line_boundary a); [discriminate |].
  rewrite IH by assumption. now rewrite <- app_assoc.
Qed.

Lemma splitlines_list_newline (cur rest : list ascii) :
  splitlines_list cur (list_ascii_of_string newline ++ rest)
  = string_of_list_ascii (rev cur) :: splitlines_list [] rest.
Proof.
  simpl. f_equal. now destruct rest.
Qed.

Lemma splitlines_join (ls : list string) :
  Forall clean_line ls -> splitlines (join_lines ls) = ls.
Proof.
  unfold splitlines. induction ls as [| l ls IH]; intros H; [reflexivity |].
  inversion H as [| ? ? Hl Hls]; subst.
  destruct Hl as [Hne [H1 _]].
  assert (Hend : splitlines_list (rev (list_ascii_of_string l) ++ []) [] = [l]).
  { rewrite app_nil_r. simpl.
    destruct (rev (list_ascii_of_string l)) eqn:R.
    - exfalso. apply Hne. apply (f_equal (@rev ascii)) in R.
      rewrite rev_involutive in R. simpl in R.
      rewrite <- (string_of_list_ascii_of_string l), R. reflexivity.
    - rewrite <- R, rev_involutive. now rewrite string_of_list_ascii_of_string. }
  destruct ls as [| l2 ls].
  - simpl. rewrite <- (app_nil_r (list_ascii_of_string l)).
    rewrite splitlines_list_line by assumption. exact Hend.
  - change (join_lines (l :: l2 :: ls)) with (l +:+ newline +:+ join_lines (l2 :: ls)).
    rewrite !list_ascii_of_append.
    rewrite splitlines_list_line by assumption.
    rewrite splitlines_list_newline. rewrite app_nil_r, rev_involutive.
    rewrite string_of_list_ascii_of_string. f_equal. now apply IH.
Qed.

Lemma clean_line_strip (l : string) : clean_line l -> strip l = l.
Proof.
  intros [_ [_ [H1 H2]]]. rewrite strip_as_list, strip_list_fixed by assumption.
  apply string_of_list_ascii_of_string.
Qed.

Lemma clean_lines_settled (ls : list string) :
  Forall clean_line ls ->
  List.filter (fun l => negb (String.eqb l EmptyString)) (map strip ls) = ls.
Proof.
  induction ls as [| l ls IH]; intros H; [reflexivity |].
  inversion H as [| ? ? Hl Hls]; subst. simpl.
  rewrite (clean_line_strip l Hl).
  destruct Hl as [Hne _]. apply String.eqb_neq in Hne. rewrite Hne. simpl.
  now rewrite IH.
Qed.

Lemma description_clean_lines (desc : node) :
  Forall clean_line
         (List.filter (fun l => negb (String.eqb l EmptyString))
                      (map strip (splitlines (get_text (insert_breaks desc))))).
Proof.
  apply stripped_lines_clean, splitlines_one_line_each.
Qed.

(** X9.  A description is in the form the scraper gives: the description
    of its own text is the same text. *)
Theorem description_settled (desc : node) :
  description (Text (description desc)) = description desc.
Proof.
  unfold description at 1. cbn [insert_breaks]. unfold get_text. cbn [all_strings fold_right].
  rewrite append_empty_r.
  unfold description. rewrite splitlines_join by apply description_clean_lines.
  now rewrite clean_lines_settled by apply description_clean_lines.
Qed.

Lemma concat_clean (ps : list string) :
  Forall (fun p => p <> EmptyString
                   /\ starts_clean (list_ascii_of_string p) = true
                   /\ starts_clean (rev (list_ascii_of_string p)) = true) ps ->
  let c := list_ascii_of_string (fold_right String.append EmptyString ps) in
  starts_clean c = true /\ starts_clean (rev c) = true.
Proof.
  induction ps as [| p ps IH]; intros H; [now split |].
  inversion H as [| ? ? [Hne [H1 H2]] Hps]; subst.
  specialize (IH Hps). cbn zeta in IH |- *. cbn [fold_right].
  rewrite list_ascii_of_append.
  assert (Hp : list_ascii_of_string p <> []).
  { intros E. apply Hne. rewrite <- (string_of_list_ascii_of_string p), E.
    reflexivity. }
  split.
  - now rewrite starts_clean_app.
  - rewrite rev_app_distr.
    destruct (rev (list_ascii_of_string (fold_right String.append EmptyString ps)))
      as [| x r] eqn:R; [assumption |].
    rewrite starts_clean_app by discriminate. apply IH.
Qed.

Lemma get_text_strip_clean (n : node) : strip (get_text_strip n) = get_text_strip n.
Proof.
  unfold get_text_strip.
  set (ps := List.filter _ (map strip (all_strings n))).
  assert (H : Forall (fun p => p <> EmptyString
                               /\ starts_clean (list_ascii_of_string p) = true
                               /\ starts_clean (rev (list_ascii_of_string p)) = true)
                     ps).
  { apply List.Forall_forall. intros p Hp. apply filter_In in Hp.
    destruct Hp as [Hin Hne]. apply in_map_iff in Hin. destruct Hin as [s [<- _]].
    split; [intros E; rewrite E in Hne; discriminate |].
    rewrite strip_as_list, list_ascii_of_string_of_list_ascii.
    apply strip_list_clean. }
  apply concat_clean in H. cbn zeta in H. destruct H as [H1 H2].
  rewrite strip_as_list, strip_list_fixed by assumption.
  apply string_of_list_ascii_of_string.
Qed.

(** X10.  Every key of the scraped definitions is free of surrounding white
    space, and every line of a definition is non-empty and stripped. *)
Theorem scraped_definitions_are_clean (fetch : string -> exn + list (list node))
        (url : option string) (k d : string) :
  get_field_definitions fetch url !! k = Some d ->
  strip k = k
  /\ Forall (fun l => l <> EmptyString /\ strip l = l) (splitlines d).
Proof.
  unfold get_field_definitions, try_scrape. intros H.
  destruct url as [u |]; [| now rewrite lookup_empty in H].
  destruct (String.eqb u EmptyString); [now rewrite lookup_empty in H |].
  destruct (fetch u) as [e | rows] eqn:F; cbn [snd] in H;
    [now rewrite lookup_empty in H |].
  apply scrape_rows_lookup_some in H.
  destruct H as [H | [key [desc [more [Hin [-> ->]]]]]];
    [now rewrite lookup_empty in H |].
  split; [apply get_text_strip_clean |].
  unfold description. rewrite splitlines_join by apply description_clean_lines.
  eapply List.Forall_impl; [| apply description_clean_lines].
  intros l Hl. split; [apply Hl | now apply clean_line_strip].
Qed.

Lemma scraped_definitions_are_clean_witness :
  strip "Account" = "Account"
  /\ Forall (fun l => l <> EmptyString /\ strip l = l)
            (splitlines ("The loan account number" +:+ newline +:+ "shown on statements")).
Proof.
  apply (scraped_definitions_are_clean (fun _ => inr ex_page)
           (Some "https://help.example/fields")).
  vm_compute. reflexivity.
Defined.

(** ** Which rows a left join pairs *)

Lemma In_combine_seq {A : Type} (l : list A) (off i : nat) (x : A) :
  In (i, x) (combine (seq off (length l)) l)
  <-> off <= i /\ nth_error l (i - off) = Some x.
Proof.
  revert off. induction l as [| a l IH]; intros off; simpl.
  - split; [tauto |]. intros [_ H]. now destruct (i - off).
  - rewrite IH. split.
    + intros [H | [H1 H2]].
      * injection H as <- <-. split; [lia |]. now rewrite Nat.sub_diag.
      * split; [lia |]. replace (i - off) with (S (i - S off)) by lia. exact H2.
    + intros [H1 H2]. destruct (i - off) as [| k] eqn:E.
      * left. injection H2 as <-. f_equal. lia.
      * right. split; [lia |]. replace (i - S off) with k by lia. exact H2.
Qed.

Lemma In_enumerate {A : Type} (l : list A) (i : nat) (x : A) :
  In (i, x) (enumerate l) <-> nth_error l i = Some x.
Proof.
  unfold enumerate. rewrite In_combine_seq, Nat.sub_0_r. split; [tauto |].
  intros H. split; [lia | assumption].
Qed.

Lemma nth_error_value (l : list value) (i : nat) (x : value) :
  nth_error l i = Some x <-> i < length l /\ nth i l VNone = x.
Proof.
  split.
  - intros H. split; [apply nth_error_Some; congruence |].
    now apply nth_error_nth.
  - intros [H <-]. now apply nth_error_nth'.
Qed.

Lemma In_matches (k : value) (rk : list value) (j : nat) :
  In j (matches k rk) <-> j < length rk /\ py_eq k (nth j rk VNone) = true.
Proof.
  unfold matches. rewrite in_map_iff. split.
  - intros [[j' x] [E H]]. simpl in E. subst j'. apply filter_In in H.
    destruct H as [H P]. apply In_enumerate, nth_error_value in H.
    destruct H as [H <-]. now split.
  - intros [H P]. exists (j, nth j rk VNone). split; [reflexivity |].
    apply filter_In. split; [| exact P].
    apply In_enumerate, nth_error_value. now split.
Qed.

Lemma In_join_block (rk : list value) (p : nat * value) (i : nat) (o : option nat) :
  In (i, o) (join_block rk p)
  <-> i = fst p
      /\ match o with
         | Some j => In j (matches (snd p) rk)
         | None => matches (snd p) rk = []
         end.
Proof.
  unfold join_block. destruct (matches (snd p) rk) as [| j0 js] eqn:M.
  - simpl. split.
    + intros [H | []]. injection H as <- <-. now split.
    + intros [-> H]. destruct o; [destruct H | now left].
  - rewrite in_map_iff. split.
    + intros [j [E H]]. injection E as <- <-. now split.
    + intros [-> H]. destruct o as [j |]; [| discriminate]. now exists j.
Qed.

(** X11.  The rows of the left join: property row [i] is paired with
    insurance row [j] exactly when the two keys are equal, and stands alone
    exactly when no insurance row has its key.  An insurance row whose key
    no property has is paired with nothing. *)
Theorem left_join_pairs (lk rk : list value) (i : nat) :
  (forall j,
     In (i, Some j) (left_join_index lk rk)
     <-> i < length lk /\ j < length rk
         /\ py_eq (nth i lk VNone) (nth j rk VNone) = true)
  /\ (In (i, None) (left_join_index lk rk)
      <-> i < length lk
          /\ forall j, j < length rk -> py_eq (nth i lk VNone) (nth j rk VNone) = false).
Proof.
  assert (E : forall o,
             In (i, o) (left_join_index lk rk)
             <-> i < length lk
                 /\ match o with
                    | Some j => In j (matches (nth i lk VNone) rk)
                    | None => matches (nth i lk VNone) rk = []
                    end).
  { intros o. unfold left_join_index. rewrite in_flat_map. split.
    - intros [[i' x] [H B]]. apply In_join_block in B. cbn [fst snd] in B.
      destruct B as [-> B]. apply In_enumerate, nth_error_value in H.
      destruct H as [H <-]. now split.
    - intros [H B]. exists (i, nth i lk VNone). split.
      + apply In_enumerate, nth_error_value. now split.
      + apply In_join_block. now split. }
  split.
  - intros j. rewrite (E (Some j)), In_matches. tauto.
  - rewrite (E None). split; intros [H M]; (split; [assumption |]).
    + intros j Hj. destruct (py_eq _ _) eqn:P; [| reflexivity].
      assert (I : In j (matches (nth i lk VNone) rk)) by (apply In_matches; now split).
      rewrite M in I. destruct I.
    + destruct (matches (nth i lk VNone) rk) as [| j js] eqn:Mj; [reflexivity |].
      assert (I : In j (matches (nth i lk VNone) rk)) by (rewrite Mj; now left).
      apply In_matches in I. destruct I as [I P]. rewrite (M j I) in P. discriminate.
Qed.

(** ** The number of rows of the merged sheet *)

Lemma join_block_length (rk : list value) (p : nat * value) :
  length (join_block rk p) = Nat.max 1 (length (matches (snd p) rk)).
Proof.
  unfold join_block. destruct (matches (snd p) rk) as [| j js]; [reflexivity |].
  rewrite length_map. simpl. reflexivity.
Qed.

Lemma map_snd_combine_seq {A B : Type} (g : A -> B) (l : list A) (off : nat) :
  map (fun p : nat * A => g (snd p)) (combine (seq off (length l)) l) = map g l.
Proof.
  revert off. induction l as [| a l IH]; intros off; simpl; [reflexivity |].
  now rewrite IH.
Qed.

Lemma left_join_length (lk rk : list value) :
  length (left_join_index lk rk)
  = list_sum (map (fun k => Nat.max 1 (length (matches k rk))) lk).
Proof.
  unfold left_join_index, enumerate.
  rewrite <- (map_snd_combine_seq (fun k => Nat.max 1 (length (matches k rk))) lk 0).
  induction (combine (seq 0 (length lk)) lk) as [| p l IH]; [reflexivity |].
  simpl. now rewrite length_app, IH, join_block_length.
Qed.

Lemma list_sum_bounds (f : value -> nat) (l : list value) :
  (forall k, 1 <= f k) -> length l <= list_sum (map f l).
Proof.
  intros H. induction l as [| a l IH]; simpl; [lia |]. specialize (H a). lia.
Qed.

Lemma list_sum_ones (f : value -> nat) (l : list value) :
  (forall k, In k l -> f k = 1) -> list_sum (map f l) = length l.
Proof.
  intros H. induction l as [| a l IH]; simpl; [reflexivity |].
  rewrite (H a) by now left. rewrite IH; [reflexivity |].
  intros k Hk. apply H. now right.
Qed.

Section RowCount.

Variable to_datetime : list value -> exn + list (option Timestamp).
Variable v : variant.

(** X12.  The merged sheet has one row per pair of a property and an
    insurance row with its key, and one row for each property without
    insurance: at least as many rows as properties, and exactly as many when
    no property has two insurance rows. *)
Theorem merged_sheet_row_count (p_raw i_raw : DataFrame)
        (account pid pref : list value) :
  getitem p_raw "Account" = inr account ->
  getitem p_raw "_pid" = inr pid ->
  getitem i_raw "PropRecID" = inr pref ->
  exists df4,
    properties_insurance to_datetime v p_raw i_raw = inr df4
    /\ df_nrows df4
       = list_sum (map (fun k => Nat.max 1 (length (matches k pref))) pid)
    /\ length pid <= df_nrows df4
    /\ ((forall k, In k pid -> length (matches k pref) <= 1) ->
        df_nrows df4 = length pid).
Proof.
  intros Ha Hp Hr.
  destruct (properties_insurance_data to_datetime v p_raw i_raw account pid pref
              Ha Hp Hr) as [df4 [E [N _]]].
  exists df4. split; [exact E |]. rewrite N, left_join_length.
  split; [reflexivity |]. split.
  - apply list_sum_bounds. intros k. lia.
  - intros H. apply list_sum_ones. intros k Hk. specialize (H k Hk). lia.
Qed.

End RowCount.

Lemma merged_sheet_row_count_witness :
  exists df4,
    properties_insurance simple_to_datetime Notes ex_properties ex_insurance = inr df4
    /\ df_nrows df4
       = list_sum (map (fun k => Nat.max 1
                                   (length (matches k [VInt 12; VInt 10; VInt 10])))
                       [VInt 10; VInt 11; VInt 12])
    /\ length [VInt 10; VInt 11; VInt 12] <= df_nrows df4
    /\ ((forall k, In k [VInt 10; VInt 11; VInt 12] ->
                   length (matches k [VInt 12; VInt 10; VInt 10]) <= 1) ->
        df_nrows df4 = length [VInt 10; VInt 11; VInt 12]).
Proof.
  apply (merged_sheet_row_count simple_to_datetime Notes ex_properties ex_insurance
           [VStr "L-1"; VStr "L-2"; VStr "L-3"]); reflexivity.
Defined.

(** ** The order of the columns of the merged sheet *)

Lemma merged_data_labels (ix : list (nat * option nat)) (pcs ics : list Column)
      (account : list value) :
  map fst (merged_data ix pcs ics account)
  = map (String.append "Property: ") (map fst pcs)
    ++ "Account" :: map (String.append "Insurance: ") (map fst ics).
Proof.
  unfold merged_data. rewrite !map_app, !map_map. reflexivity.
Qed.

Lemma merge_sheet_exact (v : variant) (pcs ics : list Column)
      (account pid pref : list value) (n m : nat) :
  let ix := left_join_index pid pref in
  let md := mkDataFrame (merged_data ix pcs ics account) (length ix) in
  merge_sheet v
    (mkDataFrame (map (fun c : Column => ("Property: " +:+ fst c, snd c)) pcs
                  ++ [("Account", account); ("_pid", pid)]) n)
    (mkDataFrame (map (fun c : Column => ("Insurance: " +:+ fst c, snd c)) ics
                  ++ [("_pref", pref)]) m)
  = match v with
    | Notes =>
        select ("Account" :: List.filter (fun c => negb (String.eqb c "Account"))
                                         (columns md)) md
    | _ => inr md
    end.
Proof.
  intros ix md. unfold merge_sheet. rewrite merge_left_data. fold ix.
  cbn [bind_exn]. unfold drop_strict.
  set (full := mkDataFrame _ (length ix)).
  assert (H1 : mem "_pid" (columns full) = true).
  { apply mem_In. unfold full, columns. cbn [df_data]. rewrite !map_app.
    apply in_or_app. right. simpl. auto. }
  assert (H2 : mem "_pref" (columns full) = true).
  { apply mem_In. unfold full, columns. cbn [df_data]. rewrite !map_app.
    apply in_or_app. right. apply in_or_app. right. apply in_or_app. right.
    simpl. auto. }
  cbn [forallb]. rewrite H1, H2. cbn [andb bind_exn].
  assert (Hd : drop ["_pid"; "_pref"] full = md).
  { unfold drop, full, md, merged_data. cbn [df_data df_nrows]. f_equal.
    rewrite !List.filter_app, !filter_map_every by reflexivity.
    simpl List.filter. now rewrite app_nil_r. }
  rewrite Hd. now destruct v.
Qed.

Section ColumnOrder.

Variable to_datetime : list value -> exn + list (option Timestamp).

(** X13.  The columns of the merged sheet.  [Automap] and [Notes2] write the
    property columns, then the account, then the insurance columns;
    [Notes] moves the account to the front, where it stands once. *)
Theorem merged_sheet_columns (v : variant) (p_raw i_raw : DataFrame)
        (account pid pref : list value) :
  getitem p_raw "Account" = inr account ->
  getitem p_raw "_pid" = inr pid ->
  getitem i_raw "PropRecID" = inr pref ->
  exists df4,
    properties_insurance to_datetime v p_raw i_raw = inr df4
    /\ match v with
       | Notes =>
           exists rest, columns df4 = "Account" :: rest /\ ~ In "Account" rest
       | _ =>
           columns df4
           = map (String.append "Property: ")
                 (columns (properties_clean to_datetime v p_raw))
             ++ "Account"
                :: map (String.append "Insurance: ")
                       (columns (insurance_clean to_datetime v i_raw))
       end.
Proof.
  intros Ha Hp Hr. unfold properties_insurance.
  rewrite (properties_side_data to_datetime v p_raw account pid Ha Hp).
  rewrite (insurance_side_data to_datetime v i_raw pref Hr).
  cbn [bind_exn]. rewrite merge_sheet_exact. cbv zeta.
  set (pcs := df_data (properties_clean to_datetime v p_raw)).
  set (ics := df_data (insurance_clean to_datetime v i_raw)).
  set (ix := left_join_index pid pref).
  destruct v.
  - eexists. split; [reflexivity |]. apply merged_data_labels.
  - eexists. split; [reflexivity |]. apply merged_data_labels.
  - set (md := mkDataFrame (merged_data ix pcs ics account) (length ix)).
    assert (Hin : In "Account" (columns md)).
    { unfold columns, md. cbn [df_data]. rewrite merged_data_labels.
      apply in_or_app. right. now left. }
    unfold select.
    set (others := List.filter (fun c => negb (String.eqb c "Account")) (columns md)).
    assert (Hall : forallb (fun l => mem l (columns md)) ("Account" :: others) = true).
    { apply forallb_forall. intros l [<- | Hl]; apply mem_In; [assumption |].
      now apply filter_In in Hl. }
    rewrite Hall. eexists. split; [reflexivity |].
    unfold columns at 1. cbn [df_data flat_map]. rewrite map_app.
    assert (Hacc : List.filter (fun c : Column => String.eqb (fst c) "Account")
                               (df_data md)
                   = [("Account", take_left ix account)]).
    { unfold md, merged_data. cbn [df_data].
      rewrite !List.filter_app, !filter_map_none by reflexivity. reflexivity. }
    rewrite Hacc. cbn [map fst app]. eexists. split; [reflexivity |].
    intros H. apply in_map_iff in H. destruct H as [c [Hc H]].
    apply in_flat_map in H. destruct H as [l [Hl H]].
    apply filter_In in H. destruct H as [_ H]. apply String.eqb_eq in H.
    apply filter_In in Hl. destruct Hl as [_ Hl].
    rewrite <- H, Hc in Hl. discriminate.
Qed.

End ColumnOrder.

Lemma merged_sheet_columns_witness :
  exists df4,
    properties_insurance simple_to_datetime Notes ex_properties ex_insurance = inr df4
    /\ exists rest, columns df4 = "Account" :: rest /\ ~ In "Account" rest.
Proof.
  apply (merged_sheet_columns simple_to_datetime Notes ex_properties ex_insurance
           [VStr "L-1"; VStr "L-2"; VStr "L-3"] [VInt 10; VInt 11; VInt 12]
           [VInt 12; VInt 10; VInt 10]); reflexivity.
Defined.

(** ** The files an export touches *)

Lemma touches_only_bind {A B : Type} (paths : list string) (m : M A) (f : A -> M B) :
  touches_only paths m ->
  (forall a, (exists w w1, m w = (inr a, w1)) -> touches_only paths (f a)) ->
  touches_only paths (bind m f).
Proof.
  intros Hm Hf w r w' H p Hp. apply bind_inv in H.
  destruct H as [[e [H _]] | [a [w1 [H1 H2]]]].
  - now apply (Hm _ _ _ H).
  - rewrite (Hf a (ex_intro _ w (ex_intro _ w1 H1)) _ _ _ H2 p Hp).
    now apply (Hm _ _ _ H1).
Qed.

Lemma touches_only_quiet {A : Type} (paths : list string) (m : M A) :
  quiet m -> touches_only paths m.
Proof.
  intros Hm w r w' H p _. apply Hm in H. destruct H as [_ H]. now rewrite H.
Qed.

Lemma touches_only_emit (paths : list string) (ev : UiEvent) :
  touches_only paths (emit ev).
Proof.
  intros w r w' H p _. apply emit_inv in H. now rewrite H.
Qed.

Lemma touches_only_writes {A : Type} (paths : list string) (path : string) (m : M A) :
  In path paths -> writes_only path m -> touches_only paths m.
Proof.
  intros Hin Hm w r w' H p Hp. apply Hm in H. destruct H as [_ H].
  apply H. intros ->. now apply Hp.
Qed.

Lemma touches_only_for_each {A : Type} (paths : list string) (f : A -> M unit)
      (xs : list A) :
  (forall x, In x xs -> touches_only paths (f x)) ->
  touches_only paths (for_each f xs).
Proof.
  induction xs as [| x xs IH]; intros H; [apply touches_only_quiet, quiet_ret |].
  cbn [for_each]. apply touches_only_bind; [apply H; now left |].
  intros _ _. apply IH. intros y Hy. apply H. now right.
Qed.

Lemma writes_only_write_sheet (env : Env) (v : variant) (folder : string)
      (s : string * DataFrame) :
  writes_only (xlsx_path folder (fst s)) (write_sheet env v folder s).
Proof.
  unfold write_sheet.
  apply writes_only_bind; [apply writes_only_to_excel |]. intros _.
  apply writes_only_bind; [apply quiet_writes_only, quiet_load_workbook |].
  intros wb.
  destruct (MAPPING_LINKS (fst s)) as [url |]; [| apply writes_only_save].
  destruct (String.eqb url EmptyString); apply writes_only_save.
Qed.

Lemma export_body_touches (env : Env) (v : variant) (server database folder : string) :
  touches_only (map (xlsx_path folder) (sheet_names v))
               (export_body env v server database folder).
Proof.
  assert (Hstep : forall steps : list (string * M unit),
             Forall (sheet_step env Automap folder) steps ->
             incl (map fst steps) (sheet_names Automap) ->
             touches_only (map (xlsx_path folder) (sheet_names Automap))
                          (for_each (fun s : string * M unit => snd s) steps)).
  { intros steps Hok Hin. apply touches_only_for_each. intros s Hs.
    rewrite List.Forall_forall in Hok. destruct (Hok s Hs) as [Hw _].
    eapply touches_only_writes; [| exact Hw].
    apply in_map, Hin, in_map, Hs. }
  destruct v; unfold export_body.
  - intros w r w'. rewrite run_export_body_steps. revert w r w'.
    apply touches_only_bind; [apply touches_only_emit |]. intros _ _.
    apply touches_only_bind; [apply touches_only_quiet, quiet_check |]. intros _ _.
    apply touches_only_bind; [apply touches_only_quiet, quiet_check |]. intros _ _.
    apply touches_only_bind;
      [apply Hstep; [apply automap_steps_ok | intros n Hn; exact Hn] |].
    intros _ _.
    apply touches_only_bind; [apply touches_only_quiet, quiet_check |]. intros _ _.
    apply touches_only_bind; [apply touches_only_emit |]. intros _ _.
    apply touches_only_emit.
  - unfold run_production_export_body.
    apply touches_only_bind; [apply touches_only_quiet, quiet_check |]. intros _ _.
    apply touches_only_bind; [apply touches_only_quiet, quiet_check |]. intros _ _.
    apply touches_only_bind.
    { intros w r w' H p _. apply read_workbooks_inv in H. now destruct H as [-> _]. }
    intros tables [w0 [w1 Ht]]. apply read_workbooks_names in Ht.
    apply touches_only_bind.
    { apply touches_only_for_each. intros s Hs.
      eapply touches_only_writes; [| apply writes_only_write_sheet].
      apply in_map. rewrite <- Ht. now apply in_map. }
    intros _ _.
    apply touches_only_bind; [apply touches_only_quiet, quiet_check |]. intros _ _.
    apply touches_only_emit.
  - unfold run_production_export_body.
    apply touches_only_bind; [apply touches_only_quiet, quiet_check |]. intros _ _.
    apply touches_only_bind.
    { destruct (env_exists env folder);
        [apply touches_only_quiet, quiet_ret | apply touches_only_quiet, quiet_check]. }
    intros _ _.
    apply touches_only_bind.
    { intros w r w' H p _. apply read_workbooks_inv in H. now destruct H as [-> _]. }
    intros tables [w0 [w1 Ht]]. apply read_workbooks_names in Ht.
    apply touches_only_bind.
    { apply touches_only_for_each. intros s Hs.
      eapply touches_only_writes; [| apply writes_only_write_sheet].
      apply in_map. rewrite <- Ht. now apply in_map. }
    intros _ _.
    apply touches_only_bind; [apply touches_only_quiet, quiet_check |]. intros _ _.
    apply touches_only_emit.
Qed.

Lemma run_pipeline_files (env : Env) (v : variant) (server database folder : string)
      (w : World) :
  files (run_pipeline env v server database folder w)
  = files (snd (export_body env v server database folder w)).
Proof.
  destruct v; unfold run_pipeline, export_body, run_export, run_production_export;
    match goal with
    | |- context [match ?b with pair _ _ => _ end] => destruct b as [[e | u] w']
    end; reflexivity.
Qed.

(** X14.  Whatever the outcome of an export, a file of the folder that is
    not one of its sheets is left as it was. *)
Theorem export_touches_only_its_sheets (env : Env) (v : variant)
        (server database folder : string) (w : World) (p : string) :
  ~ In p (map (xlsx_path folder) (sheet_names v)) ->
  files (run_pipeline env v server database folder w) !! p = files w !! p.
Proof.
  intros Hp. rewrite run_pipeline_files.
  destruct (export_body env v server database folder w) as [r w'] eqn:E.
  exact (export_body_touches env v server database folder w r w' E p Hp).
Qed.

Lemma export_touches_only_its_sheets_witness :
  files (run_pipeline ex_env Notes "srv" "db" "out" ex_world_with_file)
    !! "out/readme.xlsx"
  = files ex_world_with_file !! "out/readme.xlsx".
Proof.
  apply (export_touches_only_its_sheets ex_env Notes "srv" "db" "out"
           ex_world_with_file "out/readme.xlsx").
  intros H. simpl in H.
  repeat (destruct H as [H | H]; [discriminate |]). exact H.
Defined.

(** ** The end of a successful export *)

Ltac step_to H a w1 Ha :=
  apply bind_inv in H;
  destruct H as [[? [_ ?]] | [a [w1 [Ha H]]]]; [discriminate |].

Lemma emit_box (ev : UiEvent) (w w' : World) (r : exn + unit) :
  is_message_box ev = true ->
  emit ev w = (r, w') -> message_boxes (ui w') = message_boxes (ui w) ++ [ev].
Proof.
  intros Hev H. injection H as _ <-. unfold message_boxes. cbn [ui].
  rewrite List.filter_app. simpl. now rewrite Hev.
Qed.

Lemma for_each_boxes {A : Type} (f : A -> M unit) (xs : list A) :
  (forall x, In x xs -> exists path, writes_only path (f x)) ->
  forall w r w', for_each f xs w = (r, w') ->
                 message_boxes (ui w') = message_boxes (ui w).
Proof.
  intros Hf. induction xs as [| x xs IH]; intros w r w' H.
  - now injection H as _ <-.
  - cbn [for_each] in H. apply bind_inv in H.
    destruct (Hf x (or_introl eq_refl)) as [path Hw].
    destruct H as [[e [H _]] | [a [w2 [H1 H2]]]].
    + now apply Hw in H.
    + apply Hw in H1. apply IH in H2; [destruct H1; congruence |].
      intros y Hy. apply Hf. now right.
Qed.

Lemma export_body_boxes (env : Env) (v : variant) (server database folder : string)
      (w w' : World) (u : unit) :
  export_body env v server database folder w = (inr u, w') ->
  message_boxes (ui w')
  = message_boxes (ui w) ++ [ShowInfo "Success" (success_message v)].
Proof.
  destruct v; unfold export_body; intros H.
  - rewrite run_export_body_steps in H.
    step_to H u0 w0 Hemit. step_to H u1 w1 Hconnect. step_to H u2 w2 Hmakedirs.
    step_to H u3 w3 Hsteps. step_to H u4 w4 Hclose. step_to H u5 w5 Hstatus.
    apply quiet_emit in Hemit; [| reflexivity].
    apply quiet_check in Hconnect. apply quiet_check in Hmakedirs.
    apply for_each_boxes in Hsteps.
    2:{ intros s Hs. exists (xlsx_path folder (fst s)).
        pose proof (automap_steps_ok env folder) as Hok.
        rewrite List.Forall_forall in Hok. apply (Hok s Hs). }
    apply quiet_check in Hclose.
    apply quiet_emit in Hstatus; [| reflexivity].
    apply emit_box in H; [| reflexivity].
    rewrite H. f_equal.
    destruct Hemit, Hconnect, Hmakedirs, Hclose, Hstatus. congruence.
  - unfold run_production_export_body in H.
    step_to H u1 w1 Hconnect. step_to H u2 w2 Hmakedirs. step_to H tables w3 Hread.
    apply quiet_check in Hconnect. apply quiet_check in Hmakedirs.
    apply read_workbooks_inv in Hread. destruct Hread as [-> _].
    step_to H u3 w4 Hsteps. step_to H u4 w5 Hclose. apply quiet_check in Hclose.
    apply for_each_boxes in Hsteps;
      [| intros s _; eexists; apply writes_only_write_sheet].
    apply emit_box in H; [| reflexivity].
    rewrite H. f_equal. destruct Hconnect, Hmakedirs, Hclose. congruence.
  - unfold run_production_export_body in H.
    step_to H u1 w1 Hconnect. step_to H u2 w2 Hmakedirs. step_to H tables w3 Hread.
    apply quiet_check in Hconnect.
    assert (Hmk : message_boxes (ui w2) = message_boxes (ui w1)).
    { destruct (env_exists env folder);
        [apply quiet_ret in Hmakedirs | apply quiet_check in Hmakedirs];
        apply Hmakedirs. }
    apply read_workbooks_inv in Hread. destruct Hread as [-> _].
    step_to H u3 w4 Hsteps. step_to H u4 w5 Hclose. apply quiet_check in Hclose.
    apply for_each_boxes in Hsteps;
      [| intros s _; eexists; apply writes_only_write_sheet].
    apply emit_box in H; [| reflexivity].
    rewrite H. f_equal. destruct Hconnect, Hclose. congruence.
Qed.

(** X15.  An export whose body runs to its end returns the world the body
    left, shows one message box more, the success box of the utility, and
    leaves every sheet complete on disk. *)
Theorem successful_export (env : Env) (v : variant) (server database folder : string)
        (w w' : World) (u : unit) :
  export_body env v server database folder w = (inr u, w') ->
  run_pipeline env v server database folder w = w'
  /\ message_boxes (ui w')
     = message_boxes (ui w) ++ [ShowInfo "Success" (success_message v)]
  /\ forall n, In n (sheet_names v) -> complete env v folder n w'.
Proof.
  intros H. split; [| split].
  - destruct v; unfold run_pipeline, run_export, run_production_export;
      unfold export_body in H; now rewrite H.
  - now apply export_body_boxes in H.
  - destruct v; unfold export_body in H.
    + now apply (run_export_body_done env server database folder w w' u).
    + apply (run_production_export_body_done env server database folder Notes2 w w' u);
        [discriminate | assumption].
    + apply (run_production_export_body_done env server database folder Notes w w' u);
        [discriminate | assumption].
Qed.

Lemma successful_export_witness :
  let w' := snd (export_body ex_env Notes2 "srv" "db" "out" empty_world) in
  run_pipeline ex_env Notes2 "srv" "db" "out" empty_world = w'
  /\ message_boxes (ui w')
     = message_boxes (ui empty_world)
       ++ [ShowInfo "Success" (success_message Notes2)]
  /\ forall n, In n (sheet_names Notes2) -> complete ex_env Notes2 "out" n w'.
Proof.
  apply (successful_export ex_env Notes2 "srv" "db" "out" empty_world
           (snd (export_body ex_env Notes2 "srv" "db" "out" empty_world)) tt).
  vm_compute. reflexivity.
Defined.

(** ** Reading before writing *)

(** X16.  [Notes2] and [Notes] build every table before they write the first
    sheet: when a query, the cleaning of the merged sheet or the selection
    of the columns raises, the export ends with the files as they were. *)
Theorem failed_read_writes_nothing (env : Env) (v : variant)
        (server database folder : string) (w : World) (e : exn) :
  v <> Automap ->
  fst (read_workbooks env v w) = inl e ->
  files (run_production_export env v server database folder w) = files w.
Proof.
  intros Hv Hr.
  assert (Hbody : forall r w',
             run_production_export_body env v server database folder w = (r, w') ->
             files w' = files w /\ exists e', r = inl e').
  { intros r w' H. unfold run_production_export_body in H.
    apply bind_inv in H. destruct H as [[e1 [H ->]] | [u1 [w1 [H1 H]]]].
    { apply quiet_check in H. destruct H. split; [assumption | now exists e1]. }
    apply quiet_check in H1. destruct H1 as [_ F1].
    apply bind_inv in H. destruct H as [[e2 [H ->]] | [u2 [w2 [H2 H]]]].
    { assert (F : files w' = files w1).
      { destruct v; [congruence | apply quiet_check in H; apply H |].
        destruct (env_exists env folder);
          [apply quiet_ret in H | apply quiet_check in H]; apply H. }
      split; [congruence | now exists e2]. }
    assert (F2 : files w2 = files w1).
    { destruct v; [congruence | apply quiet_check in H2; apply H2 |].
      destruct (env_exists env folder);
        [apply quiet_ret in H2 | apply quiet_check in H2]; apply H2. }
    apply bind_inv in H. destruct H as [[e3 [H ->]] | [tables [w3 [H3 H]]]].
    { apply read_workbooks_inv in H. destruct H as [-> _].
      split; [congruence | now exists e3]. }
    exfalso. apply read_workbooks_inv in H3. destruct H3 as [_ H3].
    destruct (read_workbooks env v w) as [r0 w0] eqn:E.
    apply read_workbooks_inv in E. destruct E as [_ E].
    cbn [fst] in Hr. congruence. }
  unfold run_production_export.
  destruct (run_production_export_body env v server database folder w)
    as [r w'] eqn:E.
  destruct (Hbody r w' eq_refl) as [F [e' ->]].
  cbn [emit snd files]. exact F.
Qed.

Lemma failed_read_writes_nothing_witness :
  files (run_production_export ex_env_no_insurance Notes2 "srv" "db" "out"
                               ex_world_with_file)
  = files ex_world_with_file.
Proof.
  apply (failed_read_writes_nothing ex_env_no_insurance Notes2 "srv" "db" "out"
           ex_world_with_file
           "ProgrammingError: Invalid object name 'TDS Insurance'.").
  - discriminate.
  - reflexivity.
Defined.

(** ** The fundings sheet of [Notes] *)

Lemma append_assoc (a b c : string) : (a +:+ b) +:+ c = a +:+ (b +:+ c).
Proof.
  induction a as [| x a IH]; [reflexivity |].
  change (String x ((a +:+ b) +:+ c) = String x (a +:+ (b +:+ c))). now rewrite IH.
Qed.

Lemma length_append (a s : string) :
  String.length (a +:+ s) = String.length a + String.length s.
Proof.
  induction a as [| c a IH]; [reflexivity |].
  change (S (String.length (a +:+ s)) = S (String.length a + String.length s)).
  now rewrite IH.
Qed.

Lemma ends_with_app (a s : string) : ends_with s (a +:+ s) = true.
Proof.
  unfold ends_with. rewrite length_append. replace (String.length a + String.length s - String.length s)
    with (String.length a) by lia.
  rewrite (proj2 (Nat.leb_le _ _)) by lia. cbn [andb].
  assert (K : skip (String.length a) (a +:+ s) = s).
  { induction a as [| c a IH]; [now destruct s |]. exact IH. }
  rewrite K. apply String.eqb_refl.
Qed.

Lemma funding_name_fixes (label : string) :
  ends_with "Pct" label = false ->
  ends_with "Flat" label = false ->
  ends_with "Min" label = false ->
  forall c, funding_name c = label -> c = label.
Proof.
  intros H1 H2 H3 c E. unfold funding_name in E.
  destruct (ends_with "Pct" c) eqn:E1.
  { rewrite <- E in H1.
    change (drop_last 3 c +:+ "_Pct") with (drop_last 3 c +:+ ("_" +:+ "Pct")) in H1.
    rewrite <- append_assoc, ends_with_app in H1. discriminate. }
  destruct (ends_with "Flat" c) eqn:E2.
  { rewrite <- E in H2.
    change (drop_last 4 c +:+ "_Flat") with (drop_last 4 c +:+ ("_" +:+ "Flat")) in H2.
    rewrite <- append_assoc, ends_with_app in H2. discriminate. }
  destruct (ends_with "Min" c) eqn:E3.
  { rewrite <- E in H3.
    change (drop_last 3 c +:+ "_Min") with (drop_last 3 c +:+ ("_" +:+ "Min")) in H3.
    rewrite <- append_assoc, ends_with_app in H3. discriminate. }
  exact E.
Qed.



(** ** The loans sheet of [Notes2] and [Notes] *)

Lemma setitem_scalar_cells (df : DataFrame) (col : string) (x : value) :
  df_nrows (setitem_scalar df col x) = df_nrows df
  /\ In col (columns (setitem_scalar df col x))
  /\ forall c, In c (df_data (setitem_scalar df col x)) ->
       (fst c = col /\ snd c = repeat x (df_nrows df))
       \/ (fst c <> col /\ In c (df_data df)).
Proof.
  unfold setitem_scalar, setitem. destruct (mem col (columns df)) eqn:M.
  - cbn [df_data df_nrows]. split; [reflexivity |]. split.
    + unfold columns. cbn [df_data]. rewrite map_map.
      apply mem_In in M. unfold columns in M. apply in_map_iff in M.
      destruct M as [c [Hc Hin]]. apply in_map_iff. exists c. split; [| assumption].
      destruct (String.eqb (fst c) col); assumption.
    + intros c Hin. apply in_map_iff in Hin. destruct Hin as [c0 [Hc0 Hin]].
      destruct (String.eqb (fst c0) col) eqn:E.
      * left. subst c. cbn [fst snd]. apply String.eqb_eq in E. now split.
      * right. subst c. apply String.eqb_neq in E. now split.
  - cbn [df_data df_nrows]. split; [reflexivity |]. split.
    + unfold columns. cbn [df_data]. rewrite map_app. apply in_or_app. right.
      now left.
    + intros c Hin. apply in_app_or in Hin. destruct Hin as [Hin | [<- | []]].
      * right. split; [| assumption]. intros E. apply mem_not_In in M.
        apply M. unfold columns. rewrite <- E. now apply in_map.
      * left. now split.
Qed.

Lemma blank_balances (df : DataFrame) :
  let df1 := setitem_scalar (setitem_scalar df "ReserveBalance" (VStr ""))
                            "ImpoundBalance" (VStr "") in
  In "ReserveBalance" (columns df1) /\ In "ImpoundBalance" (columns df1)
  /\ forall c, In c (df_data df1) ->
       fst c = "ReserveBalance" \/ fst c = "ImpoundBalance" ->
       snd c = repeat (VStr "") (df_nrows df1).
Proof.
  intros df1.
  destruct (setitem_scalar_cells df "ReserveBalance" (VStr "")) as [N1 [I1 C1]].
  destruct (setitem_scalar_cells (setitem_scalar df "ReserveBalance" (VStr ""))
              "ImpoundBalance" (VStr "")) as [N2 [I2 C2]].
  fold df1 in N2, I2, C2.
  split; [| split; [exact I2 |]].
  - unfold df1, setitem_scalar at 1, setitem.
    destruct (mem "ImpoundBalance" _).
    + unfold columns. cbn [df_data]. rewrite map_map.
      unfold columns in I1. apply in_map_iff in I1. destruct I1 as [c [Hc Hin]].
      apply in_map_iff. exists c. split; [| assumption].
      destruct (String.eqb (fst c) "ImpoundBalance"); assumption.
    + unfold columns. cbn [df_data]. rewrite map_app. apply in_or_app. now left.
  - intros c Hin Hl. rewrite N2.
    destruct (C2 c Hin) as [[_ E] | [Hne Hin1]]; [exact E |].
    destruct (C1 c Hin1) as [[_ E] | [Hne1 _]]; [now rewrite N1 |].
    destruct Hl; contradiction.
Qed.

(** X18.  In [Notes2] and [Notes] the loans sheet always has the columns
    "ReserveBalance" and "ImpoundBalance", and every cell below them is the
    empty text: balances that the query delivered are blanked. *)
Theorem loans_balances_are_blank (env : Env) (v : variant) (df1 : DataFrame) :
  v <> Automap ->
  sheet_table env v "1-Loans" = inr df1 ->
  In "ReserveBalance" (columns df1) /\ In "ImpoundBalance" (columns df1)
  /\ forall c, In c (df_data df1) ->
       fst c = "ReserveBalance" \/ fst c = "ImpoundBalance" ->
       snd c = repeat (VStr "") (df_nrows df1).
Proof.
  intros Hv H. unfold sheet_table in H.
  destruct (read_workbooks env v empty_world) as [[e | tables] w'] eqn:E;
    [destruct v; [congruence | discriminate | discriminate] |].
  assert (Ht : exists raw1,
             lookup_table "1-Loans" tables
             = inr (setitem_scalar
                      (setitem_scalar (clean env v raw1) "ReserveBalance" (VStr ""))
                      "ImpoundBalance" (VStr ""))).
  { unfold read_workbooks in E. destruct v; [congruence | |]; cbv zeta in E.
    - step_to E raw1 w1 H1. exists raw1. repeat step_inv E.
      injection E as <- _. reflexivity.
    - step_to E raw1 w1 H1. exists raw1. repeat step_inv E.
      injection E as <- _. reflexivity. }
  destruct Ht as [raw1 Ht].
  assert (Hdf : df1 = setitem_scalar
                        (setitem_scalar (clean env v raw1) "ReserveBalance" (VStr ""))
                        "ImpoundBalance" (VStr "")).
  { destruct v; [congruence | |]; cbn [fst bind_exn] in H; congruence. }
  rewrite Hdf. apply blank_balances.
Qed.

Lemma loans_balances_are_blank_witness :
  exists df1,
    sheet_table ex_env_balances Notes "1-Loans" = inr df1
    /\ getitem ex_loans_with_balances "ReserveBalance" = inr [VInt 500; VInt 0]
    /\ In "ReserveBalance" (columns df1) /\ In "ImpoundBalance" (columns df1)
    /\ forall c, In c (df_data df1) ->
         fst c = "ReserveBalance" \/ fst c = "ImpoundBalance" ->
         snd c = repeat (VStr "") (df_nrows df1).
Proof.
  eexists. split; [vm_compute; reflexivity |]. split; [reflexivity |].
  apply (loans_balances_are_blank ex_env_balances Notes).
  - discriminate.
  - vm_compute. reflexivity.
Defined.

(** ** What a finished sheet holds *)

Lemma annotate_header (key : Cell -> string) (author : string)
      (size : option (nat * nat)) (defs : gmap string string) (df : DataFrame) :
  (forall c x, key (mkCell (cell_value c) x) = key c) ->
  Forall (fun cell =>
            cell_comment cell
            = option_map (fun d => mkComment d author size) (defs !! key cell))
         (wb_header (annotate key author size defs (sheet_of df))).
Proof.
  intros Hkey. apply List.Forall_forall. intros cell Hin.
  unfold annotate, sheet_of in Hin. cbn [wb_header] in Hin.
  apply in_map_iff in Hin. destruct Hin as [c [<- Hc]].
  destruct (defs !! key c) as [d |] eqn:E.
  - cbn [cell_comment]. rewrite Hkey, E. reflexivity.
  - rewrite E. apply in_map_iff in Hc. destruct Hc as [l [<- _]]. reflexivity.
Qed.

Lemma annotate_values (key : Cell -> string) (author : string)
      (size : option (nat * nat)) (defs : gmap string string) (wb : Workbook) :
  map cell_value (wb_header (annotate key author size defs wb))
  = map cell_value (wb_header wb)
  /\ wb_rows (annotate key author size defs wb) = wb_rows wb.
Proof.
  split; [| reflexivity]. unfold annotate. cbn [wb_header]. rewrite map_map.
  apply map_ext. intros c. now destruct (defs !! key c).
Qed.

Lemma sheet_of_values (df : DataFrame) :
  map cell_value (wb_header (sheet_of df)) = columns df.
Proof.
  unfold sheet_of. cbn [wb_header]. rewrite map_map. apply map_id.
Qed.

Lemma finished_sheet_values (env : Env) (v : variant) (name : string) (df : DataFrame) :
  map cell_value (wb_header (finished_sheet env v name df)) = columns df
  /\ wb_rows (finished_sheet env v name df) = rows df.
Proof.
  unfold finished_sheet.
  destruct v;
    [destruct (String.eqb name "4-Properties_&_Insurance")
    | destruct (MAPPING_LINKS name) as [url |];
      [destruct (String.eqb url EmptyString) |]
    | destruct (MAPPING_LINKS name) as [url |];
      [destruct (String.eqb url EmptyString) |]];
    try (split; [apply sheet_of_values | reflexivity]);
    (split; [rewrite (proj1 (annotate_values _ _ _ _ _)); apply sheet_of_values
            | reflexivity]).
Qed.

Lemma sheet_of_bare (df : DataFrame) :
  Forall (fun cell => cell_comment cell = None) (wb_header (sheet_of df)).
Proof.
  apply List.Forall_forall. intros cell Hin. unfold sheet_of in Hin.
  cbn [wb_header] in Hin. apply in_map_iff in Hin. now destruct Hin as [c [<- _]].
Qed.

Lemma finished_sheet_comments (env : Env) (v : variant) (name : string)
      (df : DataFrame) :
  Forall (fun cell => cell_comment cell = expected_comment env v name cell)
         (wb_header (finished_sheet env v name df)).
Proof.
  unfold finished_sheet, expected_comment, sheet_definitions.
  destruct v; cbn [annotates header_key note_author note_size].
  - destruct (String.eqb name "4-Properties_&_Insurance"); cbn [negb].
    + apply sheet_of_bare.
    + now apply annotate_header.
  - destruct (MAPPING_LINKS name) as [url |].
    + unfold get_field_definitions. destruct (String.eqb url EmptyString) eqn:E.
      * eapply List.Forall_impl; [| apply sheet_of_bare].
        intros cell ->. now rewrite lookup_empty.
      * pose proof (annotate_header stripped_key "TMO Reference" None
                      (get_field_definitions (env_fetch env) (Some url)) df) as A.
        unfold get_field_definitions in A. rewrite E in A. now apply A.
    + eapply List.Forall_impl; [| apply sheet_of_bare].
      intros cell ->. unfold get_field_definitions. now rewrite lookup_empty.
  - destruct (MAPPING_LINKS name) as [url |].
    + unfold get_field_definitions. destruct (String.eqb url EmptyString) eqn:E.
      * eapply List.Forall_impl; [| apply sheet_of_bare].
        intros cell ->. now rewrite lookup_empty.
      * pose proof (annotate_header stripped_key "TMO Reference" (Some (400, 200))
                      (get_field_definitions (env_fetch env) (Some url)) df) as A.
        unfold get_field_definitions in A. rewrite E in A. now apply A.
    + eapply List.Forall_impl; [| apply sheet_of_bare].
      intros cell ->. unfold get_field_definitions. now rewrite lookup_empty.
Qed.

Lemma export_body_done (env : Env) (v : variant) (server database folder : string)
      (w w' : World) (u : unit) :
  export_body env v server database folder w = (inr u, w') ->
  forall n, In n (sheet_names v) -> complete env v folder n w'.
Proof.
  intros H. destruct v; unfold export_body in H.
  - now apply (run_export_body_done env server database folder w w' u).
  - apply (run_production_export_body_done env server database folder Notes2 w w' u);
      [discriminate | assumption].
  - apply (run_production_export_body_done env server database folder Notes w w' u);
      [discriminate | assumption].
Qed.


(** X20.  After an export that ran to its end, a header cell carries a
    comment exactly when the utility goes through the header row of the
    sheet and the key of the cell names a scraped definition; the comment
    then holds that definition, with the author and the size the utility
    gives its comments.  The key is the text of the cell, in [Notes2] and
    [Notes] without the labels "Property: " and "Insurance: ". *)
Theorem exported_sheet_comments (env : Env) (v : variant)
        (server database folder : string) (w w' : World) (u : unit) (n : string) :
  export_body env v server database folder w = (inr u, w') ->
  In n (sheet_names v) ->
  exists wb,
    files w' !! xlsx_path folder n = Some wb
    /\ Forall (fun cell => cell_comment cell = expected_comment env v n cell)
              (wb_header wb).
Proof.
  intros H Hn.
  destruct (export_body_done env v server database folder w w' u H n Hn)
    as [df [Ht Hf]].
  exists (finished_sheet env v n df). split; [exact Hf |].
  apply finished_sheet_comments.
Qed.

(** X21.  When the help site cannot be reached, an export that runs to its
    end leaves every sheet without a single comment. *)
Theorem offline_export_has_no_comments (env : Env) (v : variant)
        (server database folder : string) (w w' : World) (u : unit) (n : string) :
  (forall url, exists e, env_fetch env url = inl e) ->
  export_body env v server database folder w = (inr u, w') ->
  In n (sheet_names v) ->
  exists wb,
    files w' !! xlsx_path folder n = Some wb
    /\ Forall (fun cell => cell_comment cell = None) (wb_header wb).
Proof.
  intros Hoff H Hn.
  destruct (export_body_done env v server database folder w w' u H n Hn)
    as [df [Ht Hf]].
  exists (finished_sheet env v n df). split; [exact Hf |].
  eapply List.Forall_impl; [| apply finished_sheet_comments].
  intros cell ->. unfold expected_comment.
  destruct (annotates v n); [| reflexivity].
  assert (E : sheet_definitions env n = ∅).
  { unfold sheet_definitions, get_field_definitions, try_scrape.
    destruct (MAPPING_LINKS n) as [url |]; [| reflexivity].
    destruct (String.eqb url EmptyString); [reflexivity |].
    destruct (Hoff url) as [e ->]. reflexivity. }
  rewrite E, lookup_empty. reflexivity.
Qed.


Lemma exported_sheet_comments_witness :
  exists wb,
    files (snd (export_body ex_env Notes "srv" "db" "out" empty_world))
      !! xlsx_path "out" "4-Properties_&_Insurance" = Some wb
    /\ Forall (fun cell =>
                 cell_comment cell
                 = expected_comment ex_env Notes "4-Properties_&_Insurance" cell)
              (wb_header wb).
Proof.
  apply (exported_sheet_comments ex_env Notes "srv" "db" "out" empty_world
           (snd (export_body ex_env Notes "srv" "db" "out" empty_world)) tt).
  - vm_compute. reflexivity.
  - simpl. tauto.
Defined.

Lemma offline_export_has_no_comments_witness :
  exists wb,
    files (snd (export_body ex_env_offline Notes2 "srv" "db" "out" empty_world))
      !! xlsx_path "out" "1-Loans" = Some wb
    /\ Forall (fun cell => cell_comment cell = None) (wb_header wb).
Proof.
  apply (offline_export_has_no_comments ex_env_offline Notes2 "srv" "db" "out"
           empty_world
           (snd (export_body ex_env_offline Notes2 "srv" "db" "out" empty_world)) tt).
  - intros url. eexists. reflexivity.
  - vm_compute. reflexivity.
  - simpl. tauto.
Defined.

(** ** The key looked up for a labelled header *)

Lemma prefix_append (a s : string) : String.prefix a (a +:+ s) = true.
Proof.
  induction a as [| c a IH]; [apply prefix_empty |].
  change (String.prefix (String c a) (String c (a +:+ s)) = true).
  simpl. destruct (ascii_dec c c); [exact IH | congruence].
Qed.

Lemma skip_append (a s : string) : skip (String.length a) (a +:+ s) = s.
Proof.
  induction a as [| c a IH]; [now destruct s | exact IH].
Qed.

Lemma remove_all_fuel_free (old : string) (fuel : nat) (s : string) :
  contains old s = false -> remove_all_fuel fuel old s = s.
Proof.
  revert s. induction fuel as [| fuel IH]; intros s H; [reflexivity |].
  destruct s as [| c s]; [reflexivity |].
  cbn [contains] in H. apply orb_false_iff in H. destruct H as [H1 H2].
  cbn [remove_all_fuel]. rewrite H1. now rewrite IH.
Qed.

Lemma remove_all_free (old s : string) :
  contains old s = false -> remove_all old s = s.
Proof.
  intros H. unfold remove_all. destruct old; [reflexivity |].
  now apply remove_all_fuel_free.
Qed.

Lemma remove_all_prefix (old s : string) :
  old <> EmptyString -> contains old s = false -> remove_all old (old +:+ s) = s.
Proof.
  intros Hne H. unfold remove_all. destruct old as [| c old]; [congruence |].
  assert (P : String.prefix (String c old) (String c (old +:+ s)) = true)
    by exact (prefix_append (String c old) s).
  assert (K : skip (String.length (String c old)) (String c (old +:+ s)) = s)
    by exact (skip_append (String c old) s).
  change (String c old +:+ s) with (String c (old +:+ s)).
  cbn [String.length remove_all_fuel] in K |- *. rewrite P, K.
  now apply remove_all_fuel_free.
Qed.

(** X22.  In [Notes2] and [Notes] the header cells of the merged sheet are
    looked up under the name of the column itself: for a column name that
    holds neither label, the key of "Property: name" and of
    "Insurance: name" is the name. *)
Theorem labelled_header_key (name : string) (x : option Comment) :
  contains "Property: " name = false ->
  contains "Insurance: " name = false ->
  stripped_key (mkCell ("Property: " +:+ name) x) = name
  /\ stripped_key (mkCell ("Insurance: " +:+ name) x) = name
  /\ stripped_key (mkCell name x) = name.
Proof.
  intros Hp Hi. unfold stripped_key. cbn [cell_value].
  split; [| split].
  - rewrite remove_all_prefix by (discriminate || assumption).
    now apply remove_all_free.
  - assert (E : contains "Property: " ("Insurance: " +:+ name) = false).
    { change ("Insurance: " +:+ name)
        with (String "I" (String "n" (String "s" (String "u" (String "r"
               (String "a" (String "n" (String "c" (String "e" (String ":"
               (String " " name))))))))))).
      cbn [contains]. rewrite Hp.
      repeat match goal with
             | |- context [String.prefix ?a ?b] =>
                 change (String.prefix a b) with false
             end.
      reflexivity. }
    rewrite (remove_all_free _ _ E).
    now apply remove_all_prefix.
  - rewrite (remove_all_free _ _ Hp). now apply remove_all_free.
Qed.

Lemma labelled_header_key_witness :
  stripped_key (mkCell ("Property: " +:+ "Street") None) = "Street"
  /\ stripped_key (mkCell ("Insurance: " +:+ "Street") None) = "Street"
  /\ stripped_key (mkCell "Street" None) = "Street".
Proof.
  apply (labelled_header_key "Street" None); reflexivity.
Defined.

(** ** A missing linkage column *)



(** ** The names of the fundings columns *)

Lemma append_inj (a b s t : string) :
  String.length s = String.length t -> a +:+ s = b +:+ t -> a = b /\ s = t.
Proof.
  revert b. induction a as [| x a IH]; intros [| y b] L E.
  - now split.
  - exfalso. change (s = String y (b +:+ t)) in E.
    apply (f_equal String.length) in E. cbn [String.length] in E.
    rewrite length_append in E. lia.
  - exfalso. change (String x (a +:+ s) = t) in E.
    apply (f_equal String.length) in E. cbn [String.length] in E.
    rewrite length_append in E. lia.
  - change (String x (a +:+ s) = String y (b +:+ t)) in E.
    injection E as -> E. destruct (IH b L E) as [-> ->]. now split.
Qed.

Lemma substring_skip (k : nat) (s : string) :
  String.substring 0 k s +:+ skip k s = s.
Proof.
  revert k. induction s as [| c s IH]; intros [| k]; try reflexivity.
  cbn [String.substring skip].
  change (String c (String.substring 0 k s +:+ skip k s) = String c s).
  now rewrite IH.
Qed.

Lemma ends_with_split (suffix s : string) :
  ends_with suffix s = true -> s = drop_last (String.length suffix) s +:+ suffix.
Proof.
  unfold ends_with, drop_last. intros H. apply andb_true_iff in H.
  destruct H as [_ H]. apply String.eqb_eq in H.
  pose proof (substring_skip (String.length s - String.length suffix) s) as K.
  rewrite H in K. now symmetry.
Qed.

Lemma funding_name_cases (c : string) :
  (exists stem, c = stem +:+ "Pct" /\ funding_name c = (stem +:+ "_") +:+ "Pct")
  \/ (exists stem, c = stem +:+ "Flat" /\ ends_with "Pct" c = false
                   /\ funding_name c = (stem +:+ "_F") +:+ "lat")
  \/ (exists stem, c = stem +:+ "Min" /\ ends_with "Pct" c = false
                   /\ funding_name c = (stem +:+ "_") +:+ "Min")
  \/ (ends_with "Pct" c = false /\ ends_with "Flat" c = false
      /\ ends_with "Min" c = false /\ funding_name c = c).
Proof.
  unfold funding_name.
  destruct (ends_with "Pct" c) eqn:E1.
  { left. exists (drop_last 3 c). split; [now apply ends_with_split in E1 |].
    now rewrite append_assoc. }
  destruct (ends_with "Flat" c) eqn:E2.
  { right. left. exists (drop_last 4 c).
    split; [now apply ends_with_split in E2 |]. split; [reflexivity |].
    now rewrite append_assoc. }
  destruct (ends_with "Min" c) eqn:E3.
  { right. right. left. exists (drop_last 3 c).
    split; [now apply ends_with_split in E3 |]. split; [reflexivity |].
    now rewrite append_assoc. }
  right. right. right. auto.
Qed.

Lemma flat_form (s : string) : (s +:+ "_F") +:+ "lat" = (s +:+ "_") +:+ "Flat".
Proof. now rewrite !append_assoc. Qed.

Lemma funding_name_injective (c1 c2 : string) :
  funding_name c1 = funding_name c2 -> c1 = c2.
Proof.
  intros E.
  destruct (funding_name_cases c1) as [[s1 [C1 F1]] | [[s1 [C1 [N1 F1]]]
                                     | [[s1 [C1 [N1 F1]]] | [P1 [A1 [M1 F1]]]]]];
  destruct (funding_name_cases c2) as [[s2 [C2 F2]] | [[s2 [C2 [N2 F2]]]
                                     | [[s2 [C2 [N2 F2]]] | [P2 [A2 [M2 F2]]]]]];
  rewrite F1, F2 in E;
  try ((apply append_inj in E; [| reflexivity]); destruct E as [E E'];
       first [discriminate E'
             | (apply append_inj in E; [| reflexivity]); destruct E as [-> _];
               congruence]);
  try (rewrite <- E in P2, A2, M2; rewrite ?flat_form in A2;
       first [rewrite ends_with_app in P2 | rewrite ends_with_app in A2
             | rewrite ends_with_app in M2];
       discriminate);
  try (rewrite E in P1, A1, M1; rewrite ?flat_form in A1;
       first [rewrite ends_with_app in P1 | rewrite ends_with_app in A1
             | rewrite ends_with_app in M1];
       discriminate).
  congruence.
Qed.

(** X24.  The renaming of the fundings columns in [Notes] never gives two
    different labels the same name: a table without a repeated label has
    none after the renaming. *)
Theorem funding_rename_keeps_labels_apart (df : DataFrame) :
  List.NoDup (columns df) -> List.NoDup (columns (rename_all funding_name df)).
Proof.
  unfold columns, rename_all. cbn [df_data].
  replace (map fst (map (fun c : Column => (funding_name (fst c), snd c)) (df_data df)))
    with (map funding_name (map fst (df_data df)))
    by (rewrite !map_map; reflexivity).
  induction (map fst (df_data df)) as [| c l IH]; intros H; [apply List.NoDup_nil |].
  inversion H as [| ? ? Hn Hl]; subst. cbn [map]. apply List.NoDup_cons.
  - intros Hin. apply in_map_iff in Hin. destruct Hin as [c' [E Hc']].
    apply funding_name_injective in E. now subst c'.
  - now apply IH.
Qed.

Lemma funding_rename_keeps_labels_apart_witness :
  List.NoDup (columns (rename_all funding_name
                         (mkDataFrame [("FeePct", [VInt 1]); ("Fee_Pct", [VInt 2]);
                                       ("LateFlat", [VInt 3]); ("Lender_Account", [])]
                                      1))).
Proof.
  apply funding_rename_keeps_labels_apart.
  cbn [columns df_data map fst].
  repeat (apply List.NoDup_cons;
          [cbn [In]; intros H; repeat (destruct H as [H | H]; [discriminate |]);
           exact H |]).
  apply List.NoDup_nil.
Defined.

(** ** The help site and the outcome of an export *)

Lemma sim_ret {A : Type} (R : A -> A -> Prop) (a b : A) :
  R a b -> sim R (ret a) (ret b).
Proof. intros H w1 w2 Hw. now split. Qed.

Lemma sim_raise {A : Type} (R : A -> A -> Prop) (e : exn) :
  sim R (raise e) (raise e).
Proof. intros w1 w2 Hw. now split. Qed.

Lemma sim_lift {A : Type} (x : exn + A) : sim eq (lift x) (lift x).
Proof. destruct x; [apply sim_raise | now apply sim_ret]. Qed.

Lemma sim_check (o : option exn) : sim eq (check o) (check o).
Proof. destruct o; [apply sim_raise | now apply sim_ret]. Qed.

Lemma sim_emit (ev : UiEvent) : sim eq (emit ev) (emit ev).
Proof.
  intros w1 w2 [Hu Hf]. split; [| reflexivity].
  split; [cbn; now rewrite Hu | exact Hf].
Qed.

Lemma sim_bind {A B : Type} (R : A -> A -> Prop) (S : B -> B -> Prop)
      (m1 m2 : M A) (f1 f2 : A -> M B) :
  sim R m1 m2 -> (forall a b, R a b -> sim S (f1 a) (f2 b)) ->
  sim S (bind m1 f1) (bind m2 f2).
Proof.
  intros Hm Hf w1 w2 Hw. unfold bind.
  destruct (Hm w1 w2 Hw) as [Hw' Hr].
  destruct (m1 w1) as [[e1 | a] w1'], (m2 w2) as [[e2 | b] w2'];
    cbn [fst snd] in *; try contradiction.
  - now split.
  - now apply Hf.
Qed.

Lemma alike_insert (w1 w2 : World) (path : string) (a b : Workbook) :
  alike w1 w2 -> same_cells a b ->
  alike (mkWorld (<[path := a]> (files w1)) (ui w1))
        (mkWorld (<[path := b]> (files w2)) (ui w2)).
Proof.
  intros [Hu Hf] Hab. split; [exact Hu |]. intros p. cbn [files].
  destruct (decide (path = p)) as [-> | Hne].
  - now rewrite !lookup_insert_eq.
  - rewrite !lookup_insert_ne by assumption. apply Hf.
Qed.

Lemma same_cells_refl (a : Workbook) : same_cells a a.
Proof. now split. Qed.

Lemma same_cells_annotate (key : Cell -> string) (author : string)
      (size : option (nat * nat)) (d1 d2 : gmap string string) (a b : Workbook) :
  same_cells a b ->
  same_cells (annotate key author size d1 a) (annotate key author size d2 b).
Proof.
  intros [H1 H2].
  destruct (annotate_values key author size d1 a) as [A1 A2].
  destruct (annotate_values key author size d2 b) as [B1 B2].
  split; congruence.
Qed.

Section HelpSite.

Variable env : Env.
Variable fetch : string -> exn + list (list node).

Lemma sim_to_excel (path : string) (df : DataFrame) :
  sim eq (to_excel env path df) (to_excel (with_fetch env fetch) path df).
Proof.
  unfold to_excel. cbn [with_fetch env_to_excel].
  eapply sim_bind; [apply sim_check |]. intros _ _ _ w1 w2 Hw.
  split; [| reflexivity]. cbn [snd]. apply alike_insert; [assumption |].
  apply same_cells_refl.
Qed.

Lemma sim_load_workbook (path : string) :
  sim same_cells (load_workbook env path) (load_workbook (with_fetch env fetch) path).
Proof.
  unfold load_workbook. cbn [with_fetch env_load_workbook].
  eapply sim_bind; [apply sim_check |]. intros _ _ _ w1 w2 Hw.
  destruct Hw as [Hu Hf]. pose proof (Hf path) as Hp.
  destruct (files w1 !! path), (files w2 !! path); try contradiction;
    cbn [fst snd]; (split; [split; assumption |]); [exact Hp | reflexivity].
Qed.

Lemma sim_save (path : string) (a b : Workbook) :
  same_cells a b ->
  sim eq (save env path a) (save (with_fetch env fetch) path b).
Proof.
  intros Hab. unfold save. cbn [with_fetch env_save].
  eapply sim_bind; [apply sim_check |]. intros _ _ _ w1 w2 Hw.
  split; [| reflexivity]. cbn [snd]. now apply alike_insert.
Qed.

Lemma sim_export (folder name : string) (q : Query) :
  sim eq (export env folder name q) (export (with_fetch env fetch) folder name q).
Proof.
  unfold export.
  eapply sim_bind; [apply sim_emit |]. intros _ _ _.
  eapply sim_bind; [apply sim_lift |]. intros raw ? <-.
  eapply sim_bind; [apply sim_to_excel |]. intros _ _ _.
  eapply sim_bind; [apply sim_load_workbook |]. intros a b Hab.
  eapply sim_bind; [apply sim_save; now apply same_cells_annotate |]. intros _ _ _.
  apply sim_emit.
Qed.

Lemma sim_write_sheet (v : variant) (folder : string) (s : string * DataFrame) :
  sim eq (write_sheet env v folder s) (write_sheet (with_fetch env fetch) v folder s).
Proof.
  unfold write_sheet.
  eapply sim_bind; [apply sim_to_excel |]. intros _ _ _.
  eapply sim_bind; [apply sim_load_workbook |]. intros a b Hab.
  destruct (MAPPING_LINKS (fst s)) as [url |]; [| now apply sim_save].
  destruct (String.eqb url EmptyString); [now apply sim_save |].
  apply sim_save. now apply same_cells_annotate.
Qed.

Lemma sim_for_each {A : Type} (f1 f2 : A -> M unit) (xs : list A) :
  (forall x, sim eq (f1 x) (f2 x)) -> sim eq (for_each f1 xs) (for_each f2 xs).
Proof.
  intros H. induction xs as [| x xs IH]; [now apply sim_ret |].
  cbn [for_each]. eapply sim_bind; [apply H |]. intros _ _ _. exact IH.
Qed.

Lemma sim_pure {A : Type} (m : M A) : pure_stmt m -> sim eq m m.
Proof.
  intros [x Hx] w1 w2 Hw. rewrite !Hx. split; [exact Hw |].
  cbn [fst]. now destruct x.
Qed.

Lemma sim_export_body (v : variant) (server database folder : string) :
  sim eq (export_body env v server database folder)
         (export_body (with_fetch env fetch) v server database folder).
Proof.
  destruct v; unfold export_body.
  - unfold run_export_body. cbn [with_fetch env_connect env_makedirs env_close
                                  env_to_datetime].
    eapply sim_bind; [apply sim_emit |]. intros _ _ _.
    eapply sim_bind; [apply sim_check |]. intros _ _ _.
    eapply sim_bind; [apply sim_check |]. intros _ _ _.
    eapply sim_bind; [apply sim_export |]. intros _ _ _.
    eapply sim_bind; [apply sim_export |]. intros _ _ _.
    eapply sim_bind; [apply sim_export |]. intros _ _ _.
    eapply sim_bind; [apply sim_lift |]. intros p_raw ? <-.
    eapply sim_bind; [apply sim_lift |]. intros p_clean ? <-.
    eapply sim_bind; [apply sim_lift |]. intros i_raw ? <-.
    eapply sim_bind; [apply sim_lift |]. intros i_clean ? <-.
    eapply sim_bind; [apply sim_lift |]. intros df4 ? <-.
    eapply sim_bind; [apply sim_to_excel |]. intros _ _ _.
    eapply sim_bind; [apply sim_check |]. intros _ _ _.
    eapply sim_bind; [apply sim_emit |]. intros _ _ _.
    apply sim_emit.
  - unfold run_production_export_body. cbn [with_fetch env_connect env_makedirs
                                             env_close].
    eapply sim_bind; [apply sim_check |]. intros _ _ _.
    eapply sim_bind; [apply sim_check |]. intros _ _ _.
    eapply sim_bind; [apply (sim_pure _ (read_workbooks_pure env Notes2)) |].
    intros tables ? <-.
    eapply sim_bind; [apply sim_for_each; intros s; apply sim_write_sheet |].
    intros _ _ _.
    eapply sim_bind; [apply sim_check |]. intros _ _ _.
    apply sim_emit.
  - unfold run_production_export_body. cbn [with_fetch env_connect env_makedirs
                                             env_close env_exists].
    eapply sim_bind; [apply sim_check |]. intros _ _ _.
    eapply sim_bind.
    { destruct (env_exists env folder);
        [apply (sim_ret eq); reflexivity | apply sim_check]. }
    intros _ _ _.
    eapply sim_bind; [apply (sim_pure _ (read_workbooks_pure env Notes)) |].
    intros tables ? <-.
    eapply sim_bind; [apply sim_for_each; intros s; apply sim_write_sheet |].
    intros _ _ _.
    eapply sim_bind; [apply sim_check |]. intros _ _ _.
    apply sim_emit.
Qed.

Lemma alike_refl (w : World) : alike w w.
Proof.
  split; [reflexivity |]. intros p. destruct (files w !! p); [| exact I].
  apply same_cells_refl.
Qed.

(** X25.  The help site has no part in the outcome of an export.  With any
    other answer of the site the body ends the same way, with the same
    exception if it raises; the same messages are shown, and the same files
    are on disk with the same cells.  Only the comments can differ. *)
Theorem help_site_decides_comments_only (v : variant)
        (server database folder : string) (w : World) :
  let w1 := run_pipeline env v server database folder w in
  let w2 := run_pipeline (with_fetch env fetch) v server database folder w in
  fst (export_body env v server database folder w)
  = fst (export_body (with_fetch env fetch) v server database folder w)
  /\ ui w1 = ui w2
  /\ forall p,
       match files w1 !! p, files w2 !! p with
       | Some a, Some b =>
           map cell_value (wb_header a) = map cell_value (wb_header b)
           /\ wb_rows a = wb_rows b
       | None, None => True
       | _, _ => False
       end.
Proof.
  intros w1 w2.
  destruct (sim_export_body v server database folder w w (alike_refl w)) as [Hw Hr].
  assert (Hfst : fst (export_body env v server database folder w)
                 = fst (export_body (with_fetch env fetch) v server database folder w)).
  { destruct (fst (export_body env v server database folder w)) as [e1 | []],
             (fst (export_body (with_fetch env fetch) v server database folder w))
               as [e2 | []]; try contradiction; congruence. }
  split; [exact Hfst |].
  assert (Ha : alike w1 w2).
  { unfold w1, w2.
    destruct v; unfold run_pipeline, run_export, run_production_export;
      unfold export_body in Hw, Hfst;
      match goal with
      | |- alike (match ?b1 with pair _ _ => _ end) (match ?b2 with pair _ _ => _ end) =>
          destruct b1 as [[e1 | u1] x1], b2 as [[e2 | u2] x2]
      end; cbn [fst snd] in *; try discriminate; try exact Hw;
      injection Hfst as <-; destruct Hw as [Hu Hf]; (split; [| exact Hf]);
      cbn; now rewrite Hu. }
  exact Ha.
Qed.

End HelpSite.

(** ** The messages of a successful run of [run_export] *)

Lemma emit_ui (ev : UiEvent) (w w' : World) (r : exn + unit) :
  emit ev w = (r, w') -> ui w' = ui w ++ [ev].
Proof. intros H. now injection H as _ <-. Qed.

Lemma check_ui (o : option exn) (w w' : World) (r : exn + unit) :
  check o w = (r, w') -> ui w' = ui w.
Proof. destruct o; intros H; now injection H as _ <-. Qed.

Lemma lift_ui {A : Type} (x : exn + A) (w w' : World) (r : exn + A) :
  lift x w = (r, w') -> ui w' = ui w.
Proof. destruct x; intros H; now injection H as _ <-. Qed.

Lemma to_excel_ui (env : Env) (path : string) (df : DataFrame) (w w' : World)
      (u : unit) :
  to_excel env path df w = (inr u, w') -> ui w' = ui w.
Proof. intros H. apply to_excel_inv in H. now subst w'. Qed.

Lemma save_ui (env : Env) (path : string) (wb : Workbook) (w w' : World) (u : unit) :
  save env path wb w = (inr u, w') -> ui w' = ui w.
Proof.
  unfold save, bind, check, raise, ret.
  destruct (env_save env path); intros H; [discriminate |].
  injection H as H. now subst w'.
Qed.

Lemma export_ui (env : Env) (folder name : string) (q : Query) (w w' : World)
      (u : unit) :
  export env folder name q w = (inr u, w') ->
  ui w' = ui w ++ [SetStatus ("Exporting " +:+ name +:+ "…"); Log ("✓ " +:+ name)].
Proof.
  unfold export. intros H.
  step_to H u0 w0 Hemit. step_to H raw w1 Hread. step_to H u1 w2 Hexcel.
  step_to H wb w3 Hload. step_to H u2 w4 Hsave.
  apply emit_ui in Hemit. apply lift_ui in Hread. apply to_excel_ui in Hexcel.
  apply load_workbook_inv in Hload. destruct Hload as [-> _].
  apply save_ui in Hsave. apply emit_ui in H.
  rewrite H, Hsave, Hexcel, Hread, Hemit, <- app_assoc. reflexivity.
Qed.

(** X26.  What [run_export] shows when it runs to its end: the status of the
    connection, then for each of the first three sheets its status and its
    line in the log, then the status "Completed" and the success box.  The
    merged sheet has no status and no line in the log. *)
Theorem automap_messages (env : Env) (server database folder : string)
        (w w' : World) (u : unit) :
  run_export_body env server database folder w = (inr u, w') ->
  ui (run_export env server database folder w)
  = ui w ++ [SetStatus "Connecting to target database…";
             SetStatus "Exporting 1-Loans…"; Log "✓ 1-Loans";
             SetStatus "Exporting 2-Co-Borrowers…"; Log "✓ 2-Co-Borrowers";
             SetStatus "Exporting 3-Fundings…"; Log "✓ 3-Fundings";
             SetStatus "Completed";
             ShowInfo "Success" "Production export completed."].
Proof.
  intros H. unfold run_export. rewrite H. unfold run_export_body in H.
  step_to H u0 w0 Hemit. step_to H u1 w1 Hconnect. step_to H u2 w2 Hmakedirs.
  step_to H u3 w3 He1. step_to H u4 w4 He2. step_to H u5 w5 He3.
  step_to H p_raw w6 Hp. step_to H p_clean w7 Hpc. step_to H i_raw w8 Hi.
  step_to H i_clean w9 Hic. step_to H df4 w10 Hm. step_to H u6 w11 Hexcel.
  step_to H u7 w12 Hclose. step_to H u8 w13 Hstatus.
  apply emit_ui in Hemit. apply check_ui in Hconnect. apply check_ui in Hmakedirs.
  apply export_ui in He1. apply export_ui in He2. apply export_ui in He3.
  apply lift_ui in Hp. apply lift_ui in Hpc. apply lift_ui in Hi.
  apply lift_ui in Hic. apply lift_ui in Hm. apply to_excel_ui in Hexcel.
  apply check_ui in Hclose. apply emit_ui in Hstatus. apply emit_ui in H.
  rewrite H, Hstatus, Hclose, Hexcel, Hm, Hic, Hi, Hpc, Hp, He3, He2, He1,
          Hmakedirs, Hconnect, Hemit.
  rewrite <- !app_assoc. reflexivity.
Qed.

Lemma automap_messages_witness :
  ui (run_export ex_env "srv" "db" "out" empty_world)
  = ui empty_world
    ++ [SetStatus "Connecting to target database…";
        SetStatus "Exporting 1-Loans…"; Log "✓ 1-Loans";
        SetStatus "Exporting 2-Co-Borrowers…"; Log "✓ 2-Co-Borrowers";
        SetStatus "Exporting 3-Fundings…"; Log "✓ 3-Fundings";
        SetStatus "Completed";
        ShowInfo "Success" "Production export completed."].
Proof.
  apply (automap_messages ex_env "srv" "db" "out" empty_world
           (snd (run_export_body ex_env "srv" "db" "out" empty_world)) tt).
  vm_compute. reflexivity.
Defined.
